(** * Atl: selector cache, simulator pool and run ledger over one SQLite store

    A shallow embedding of [watchdog/atl/db.py], [selectors.py],
    [simulators.py] and [runs.py].  Every table is the list of its rows in
    storage order, an [UPDATE ... WHERE] rewrites the rows that satisfy the
    predicate, an [INSERT] appends a row after the key and foreign-key
    checks, and [with transaction() as conn:] commits the body's writes or
    rolls all of them back when the body raises.  The wall clock, the store's
    [CURRENT_TIMESTAMP] and the output of [xcrun simctl] are inputs of the
    operations that read them. *)

From Stdlib Require Import List String Ascii ZArith QArith Qround Bool Lia.
From Stdlib Require Import Permutation Sorted.
Import ListNotations.

Local Open Scope string_scope.
Local Open Scope list_scope.
Local Open Scope Z_scope.

(** ** Python strings *)

Module Py.

(** [s.startswith(p)] *)
Definition startswith (p s : string) : bool := String.prefix p s.

(** [sub in s] *)
Fixpoint contains (sub s : string) : bool :=
  if String.prefix sub s then true
  else match s with
       | EmptyString => false
       | String _ s' => contains sub s'
       end.

(** [s[n:]] *)
Fixpoint drop (n : nat) (s : string) : string :=
  match n, s with
  | O, _ => s
  | S _, EmptyString => EmptyString
  | S n', String _ s' => drop n' s'
  end.

(** Truth value of an [Optional[str]]: [None] and [""] are falsy. *)
Definition truthy (o : option string) : bool :=
  match o with
  | Some s => negb (s =? "")%string
  | None => false
  end.

(** Truth value of an [Optional[int]]: [None] and [0] are falsy. *)
Definition truthy_int (o : option Z) : bool :=
  match o with
  | Some n => negb (n =? 0)
  | None => false
  end.

End Py.

(** ** urllib.parse: the network location of a URL

    [urlsplit] drops leading C0 control characters and spaces, deletes tab,
    CR and LF, splits a leading scheme off at the first colon, and, when the
    rest starts with two slashes, takes the text up to the first slash,
    question mark or hash as the network location.  The [ValueError] it
    raises for unbalanced square brackets in the network location is left
    out. *)

Module Urllib.

Definition is_c0_or_space (c : ascii) : bool := (nat_of_ascii c <=? 32)%nat.

Definition is_unsafe (c : ascii) : bool :=
  let n := nat_of_ascii c in ((n =? 9) || (n =? 10) || (n =? 13))%nat.

Definition is_delim (c : ascii) : bool :=
  let n := nat_of_ascii c in ((n =? 47) || (n =? 63) || (n =? 35))%nat.

Definition is_alpha (c : ascii) : bool :=
  let n := nat_of_ascii c in
  (((65 <=? n) && (n <=? 90)) || ((97 <=? n) && (n <=? 122)))%nat.

Definition is_scheme_char (c : ascii) : bool :=
  let n := nat_of_ascii c in
  (is_alpha c || ((48 <=? n) && (n <=? 57))
   || (n =? 43) || (n =? 45) || (n =? 46))%nat.

Fixpoint lstrip (s : string) : string :=
  match s with
  | String c s' => if is_c0_or_space c then lstrip s' else s
  | EmptyString => EmptyString
  end.

Fixpoint remove_unsafe (s : string) : string :=
  match s with
  | String c s' =>
      if is_unsafe c then remove_unsafe s' else String c (remove_unsafe s')
  | EmptyString => EmptyString
  end.

(** [url[:i]] consists of scheme characters and [url[i] = ":"], with
    [i] the first colon: the text after that colon. *)
Fixpoint after_scheme (s : string) : option string :=
  match s with
  | String c s' =>
      if (nat_of_ascii c =? 58)%nat then Some s'
      else if is_scheme_char c then after_scheme s' else None
  | EmptyString => None
  end.

Definition split_scheme (url : string) : string :=
  match url with
  | String c _ =>
      if is_alpha c
      then match after_scheme url with Some rest => rest | None => url end
      else url
  | EmptyString => url
  end.

(** [_splitnetloc(url, 2)]: up to the first of "/", "?", "#". *)
Fixpoint take_netloc (s : string) : string :=
  match s with
  | String c s' => if is_delim c then EmptyString else String c (take_netloc s')
  | EmptyString => EmptyString
  end.

(** [urlparse(url).netloc] *)
Definition netloc (url : string) : string :=
  let url := split_scheme (remove_unsafe (lstrip url)) in
  if Py.startswith "//" url then take_netloc (Py.drop 2 url) else "".

End Urllib.

(** ** db.py: the schema *)

(** Column [simulators.state]; the code writes these three literals only. *)
Inductive sim_state : Type := offline | available | busy.

Definition sim_state_eqb (a b : sim_state) : bool :=
  match a, b with
  | offline, offline | available, available | busy, busy => true
  | _, _ => false
  end.

(** The opaque attribute payload of a selector ([Dict]); the column holds its
    JSON text, which [json.loads] turns back into the same dictionary. *)
Definition attrs : Type := list (string * string).

Record selector_row : Type := mk_selector {
  sel_id : Z;
  sel_domain : string;
  sel_action : string;
  sel_selector : string;
  success_count : Z;
  fail_count : Z;
  sel_attributes : option attrs;
  last_used : option string;
  last_failed : option string;
  created_at : string
}.

Record simulator_row : Type := mk_simulator {
  udid : string;
  name : string;
  device_type : string;
  screen_size : string;
  pool : string;
  state : sim_state;
  current_task : option string;
  port : option Z;
  last_activity : string
}.

Record run_row : Type := mk_run {
  run_id : string;
  workflow : string;
  simulator_udid : option string;
  status : string;
  start_time : string;
  end_time : option string;
  total_steps : Z;
  current_step : Z;
  run_dir : string
}.

Record metrics_row : Type := mk_metrics {
  m_run_id : string;
  captures_light : Z;
  captures_jpeg : Z;
  captures_pdf : Z;
  bytes_light : Z;
  bytes_jpeg : Z;
  bytes_pdf : Z;
  bytes_total : Z;
  tokens_estimated : Z;
  cost_usd : Q;
  actions_clicks : Z;
  actions_types : Z;
  actions_navigations : Z;
  actions_scrolls : Z;
  selector_hits : Z;
  selector_misses : Z;
  errors : Z
}.

(** The store: the four tables and the AUTOINCREMENT counter of
    [selectors.id]. *)
Record store : Type := mk_store {
  selectors : list selector_row;
  selectors_seq : Z;
  simulators : list simulator_row;
  runs : list run_row;
  metrics : list metrics_row
}.

Module Db.

(** [init_db] on a fresh file. *)
Definition init_db : store := mk_store [] 0 [] [] [].

Definition with_selectors (d : store) (t : list selector_row) (seq : Z) : store :=
  mk_store t seq (simulators d) (runs d) (metrics d).

Definition with_simulators (d : store) (t : list simulator_row) : store :=
  mk_store (selectors d) (selectors_seq d) t (runs d) (metrics d).

Definition with_runs (d : store) (t : list run_row) : store :=
  mk_store (selectors d) (selectors_seq d) (simulators d) t (metrics d).

Definition with_metrics (d : store) (t : list metrics_row) : store :=
  mk_store (selectors d) (selectors_seq d) (simulators d) (runs d) t.

(** [UPDATE t SET f WHERE p] *)
Definition update_where {R : Type} (p : R -> bool) (f : R -> R) (t : list R) : list R :=
  map (fun r => if p r then f r else r) t.

(** [cursor.rowcount] of that update. *)
Definition rowcount {R : Type} (p : R -> bool) (t : list R) : nat :=
  List.length (filter p t).

(** [SELECT ... WHERE p LIMIT 1] followed by [fetchone()]. *)
Definition fetchone {R : Type} (p : R -> bool) (t : list R) : option R :=
  find p t.

(** What a call hands back: a value, or the exception it raised. *)
Inductive exn : Type := IntegrityError | OperationalError.

Inductive outcome (A : Type) : Type :=
| Returned (a : A)
| Raised (e : exn).
Arguments Returned {A} a.
Arguments Raised {A} e.

(** The body of a [with transaction() as conn:] block. *)
Definition Tx (A : Type) : Type := store -> exn + (A * store).

Definition ret {A : Type} (a : A) : Tx A := fun d => inr (a, d).

Definition raise {A : Type} (e : exn) : Tx A := fun _ => inl e.

Definition bind {A B : Type} (m : Tx A) (k : A -> Tx B) : Tx B :=
  fun d => match m d with
           | inl e => inl e
           | inr (a, d') => k a d'
           end.

Definition read {A : Type} (q : store -> A) : Tx A := fun d => inr (q d, d).

Definition write (w : store -> store) : Tx unit := fun d => inr (tt, w d).

(** [transaction]: commit when the body returns, roll back and re-raise
    when it raises. *)
Definition transaction {A : Type} (body : Tx A) (d : store) : outcome A * store :=
  match body d with
  | inr (a, d') => (Returned a, d')
  | inl e => (Raised e, d)
  end.

(** [ORDER BY] for a comparison [le] of two rows: insertion keeps rows that
    compare equal in storage order. *)
Fixpoint insert_by {R : Type} (le : R -> R -> bool) (r : R) (l : list R) : list R :=
  match l with
  | [] => [r]
  | x :: l' => if le r x then r :: l else x :: insert_by le r l'
  end.

Definition order_by {R : Type} (le : R -> R -> bool) (l : list R) : list R :=
  fold_right (insert_by le) [] l.

(** [LIMIT ?]: a negative limit is no limit. *)
Definition limit_rows {R : Type} (limit : Z) (l : list R) : list R :=
  if limit <? 0 then l else firstn (Z.to_nat limit) l.

(** [COUNT( * )] *)
Definition count_rows {R : Type} (t : list R) : Z := Z.of_nat (List.length t).

(** [SUM(column)]: NULL over no rows. *)
Definition sum_column {R : Type} (f : R -> Z) (t : list R) : option Z :=
  match t with
  | [] => None
  | _ :: _ => Some (fold_left (fun acc r => acc + f r) t 0)
  end.

Definition sum_real {R : Type} (f : R -> Q) (t : list R) : option Q :=
  match t with
  | [] => None
  | _ :: _ => Some (fold_left (fun acc r => (acc + f r)%Q) t 0%Q)
  end.

(** [COUNT(DISTINCT column)] of a TEXT column. *)
Definition count_distinct {R : Type} (f : R -> string) (t : list R) : Z :=
  Z.of_nat (List.length (nodup string_dec (map f t))).

(** Python's [x or 0] for the result of a SUM. *)
Definition or_zero (x : option Z) : Z :=
  match x with
  | Some n => n
  | None => 0
  end.

End Db.

Notation "x <- m ;; k" := (Db.bind m (fun x => k))
  (at level 61, m at next level, right associativity).
Notation "m ;;; k" := (Db.bind m (fun _ => k))
  (at level 61, right associativity).

(** ** selectors.py *)

Module Selectors.

Definition _extract_domain (url : string) : string :=
  if negb (Py.startswith "http://" url || Py.startswith "https://" url)
  then url
  else
    let domain := Urllib.netloc url in
    if Py.startswith "www." domain then Py.drop 4 domain else domain.

(** [WHERE domain = ? AND action = ?] *)
Definition at_key (domain action : string) (r : selector_row) : bool :=
  ((sel_domain r =? domain) && (sel_action r =? action))%string.

(** [WHERE domain = ? AND action = ? AND selector = ?] *)
Definition at_key_selector (domain action selector : string) (r : selector_row) : bool :=
  at_key domain action r && (sel_selector r =? selector)%string.

(** [UPDATE selectors SET ... WHERE ...], giving the cursor's rowcount. *)
Definition execute_update (p : selector_row -> bool) (f : selector_row -> selector_row)
  : Db.Tx nat :=
  fun d => inr (Db.rowcount p (selectors d),
                Db.with_selectors d (Db.update_where p f (selectors d)) (selectors_seq d)).

(** [INSERT INTO selectors (domain, action, selector, success_count,
    last_used, attributes)]: the id comes from the AUTOINCREMENT counter,
    [fail_count] defaults to 0, [created_at] to the store's clock [ts];
    UNIQUE(domain, action) is checked. *)
Definition execute_insert (domain action selector : string) (count : Z)
  (used : string) (a : option attrs) (ts : string) : Db.Tx unit :=
  fun d =>
    if existsb (at_key domain action) (selectors d)
    then inl Db.IntegrityError
    else
      let id := selectors_seq d + 1 in
      inr (tt, Db.with_selectors d
                 (selectors d ++
                    [mk_selector id domain action selector count 0 a (Some used) None ts])
                 id).

Record learn_result : Type := mk_learn_result {
  lr_success : bool;
  lr_domain : string;
  lr_action : string;
  lr_selector : string
}.

Definition learn_set (selector now : string) (attrs_json : option attrs)
  (r : selector_row) : selector_row :=
  mk_selector (sel_id r) (sel_domain r) (sel_action r)
    selector (success_count r + 1) (fail_count r)
    (match attrs_json with Some a => Some a | None => sel_attributes r end)
    (Some now) (last_failed r) (created_at r).

Definition learn (action selector url : string) (attributes : option attrs)
  (now ts : string) (d : store) : Db.outcome learn_result * store :=
  let domain := _extract_domain url in
  let attrs_json :=
    match attributes with
    | Some ((_ :: _) as a) => Some a
    | _ => None
    end in
  Db.transaction
    (rowcount <- execute_update (at_key domain action)
                   (learn_set selector now attrs_json) ;;
     (if (rowcount =? 0)%nat
      then execute_insert domain action selector 1 now attrs_json ts
      else Db.ret tt) ;;;
     Db.ret (mk_learn_result true domain action selector)) d.

Record recall_result : Type := mk_recall_result {
  rc_selector : string;
  rc_success_count : Z;
  rc_fail_count : Z;
  reliability : Q;
  rc_attributes : attrs
}.

Definition recall (action url : string) (d : store)
  : Db.outcome (option recall_result) * store :=
  let domain := _extract_domain url in
  Db.transaction
    (row <- Db.read (fun d => Db.fetchone (at_key domain action) (selectors d)) ;;
     Db.ret
       (match row with
        | Some row =>
            Some (mk_recall_result (sel_selector row) (success_count row) (fail_count row)
                    (inject_Z (success_count row)
                     / inject_Z (Z.max 1 (success_count row + fail_count row)))%Q
                    (match sel_attributes row with Some a => a | None => [] end))
        | None => None
        end)) d.

Record fail_result : Type := mk_fail_result {
  fr_recorded : bool;
  fr_domain : string;
  fr_action : string
}.

Definition fail_set (now : string) (r : selector_row) : selector_row :=
  mk_selector (sel_id r) (sel_domain r) (sel_action r) (sel_selector r)
    (success_count r) (fail_count r + 1) (sel_attributes r)
    (last_used r) (Some now) (created_at r).

Definition fail (action selector url now : string) (d : store)
  : Db.outcome fail_result * store :=
  let domain := _extract_domain url in
  Db.transaction
    (execute_update (at_key_selector domain action selector) (fail_set now) ;;;
     Db.ret (mk_fail_result true domain action)) d.

(** [ORDER BY success_count DESC]; rows with equal counts stay in storage
    order. *)
Fixpoint insert_desc (r : selector_row) (l : list selector_row) : list selector_row :=
  match l with
  | [] => [r]
  | x :: l' => if success_count x <=? success_count r then r :: l else x :: insert_desc r l'
  end.

Definition order_by_success_desc (l : list selector_row) : list selector_row :=
  fold_right insert_desc [] l.

Record get_all_entry : Type := mk_get_all_entry {
  ga_selector : string;
  ga_success_count : Z;
  ga_fail_count : Z;
  ga_last_used : option string
}.

Record get_all_result : Type := mk_get_all_result {
  ga_domain : string;
  ga_selectors : list (string * get_all_entry)
}.

Definition get_all (url : string) (d : store) : Db.outcome get_all_result * store :=
  let domain := _extract_domain url in
  Db.transaction
    (rows <- Db.read (fun d =>
               order_by_success_desc
                 (filter (fun r => (sel_domain r =? domain)%string) (selectors d))) ;;
     Db.ret (mk_get_all_result domain
               (map (fun row =>
                       (sel_action row,
                        mk_get_all_entry (sel_selector row) (success_count row)
                          (fail_count row) (last_used row))) rows))) d.

(** [DELETE FROM selectors WHERE ...], giving the cursor's rowcount. *)
Definition execute_delete (p : selector_row -> bool) : Db.Tx nat :=
  fun d => inr (Db.rowcount p (selectors d),
                Db.with_selectors d (filter (fun r => negb (p r)) (selectors d))
                  (selectors_seq d)).

Record clear_result : Type := mk_clear_result { deleted : nat }.

Definition clear (domain : option string) (d : store) : Db.outcome clear_result * store :=
  Db.transaction
    (rowcount <- (if Py.truthy domain
                  then
                    match domain with
                    | Some domain => execute_delete (fun r => (sel_domain r =? domain)%string)
                    | None => execute_delete (fun _ => true)
                    end
                  else execute_delete (fun _ => true)) ;;
     Db.ret (mk_clear_result rowcount)) d.

Definition get_domains (d : store) : Db.outcome (list string) * store :=
  Db.transaction
    (rows <- Db.read (fun d =>
               Db.order_by String.leb (nodup string_dec (map sel_domain (selectors d)))) ;;
     Db.ret rows) d.

Record stats_result : Type := mk_stats_result {
  total_selectors : Z;
  domains : Z;
  total_successes : Z;
  total_failures : Z;
  overall_reliability : Q
}.

Definition stats (d : store) : Db.outcome stats_result * store :=
  Db.transaction
    (row <- Db.read (fun d =>
              (Db.count_rows (selectors d),
               Db.count_distinct sel_domain (selectors d),
               Db.sum_column success_count (selectors d),
               Db.sum_column fail_count (selectors d))) ;;
     let '(total, domains, total_successes, total_failures) := row in
     Db.ret (mk_stats_result total domains
               (Db.or_zero total_successes) (Db.or_zero total_failures)
               (inject_Z (Db.or_zero total_successes)
                / inject_Z (Z.max 1 (Db.or_zero total_successes
                                     + Db.or_zero total_failures)))%Q)) d.

End Selectors.

(** ** simulators.py *)

(** One entry of [xcrun simctl list devices --json]. *)
Record simctl_device : Type := mk_device {
  dev_udid : string;
  dev_name : string;
  dev_state : string
}.

(** [data.get("devices", {})]: runtime name to the devices of that runtime. *)
Definition simctl_data : Type := list (string * list simctl_device).

Module Simulators.

Definition _get_screen_size (name : string) : string :=
  if Py.contains "iPad" name then
    if Py.contains "Pro 13" name || Py.contains "Air 13" name then "1032x1376"
    else if Py.contains "Pro 11" name || Py.contains "Air 11" name then "834x1194"
    else "820x1180"
  else if Py.contains "Pro Max" name then "430x932"
  else if Py.contains "Pro" name then "393x852"
  else if Py.contains "Air" name then "320x693"
  else "393x852".

Definition _get_device_type (name : string) : string :=
  if Py.contains "iPad" name then "iPad" else "iPhone".

(** [WHERE udid = ?] *)
Definition at_udid (u : string) (r : simulator_row) : bool := (udid r =? u)%string.

Definition execute_update (p : simulator_row -> bool) (f : simulator_row -> simulator_row)
  : Db.Tx nat :=
  fun d => inr (Db.rowcount p (simulators d),
                Db.with_simulators d (Db.update_where p f (simulators d))).

(** The [DO UPDATE SET] arm of the upsert. *)
Definition upsert_set (name device_type screen_size pool : string) (excluded_state : sim_state)
  (now : string) (r : simulator_row) : simulator_row :=
  mk_simulator (udid r) name device_type screen_size pool
    (match current_task r with Some _ => busy | None => excluded_state end)
    (current_task r) (port r) now.

(** [INSERT INTO simulators ... ON CONFLICT(udid) DO UPDATE SET ...] on the
    table: the row with this udid is rewritten, or a new row is appended
    with [current_task] and [port] NULL. *)
Definition upsert (u name device_type screen_size pool : string)
  (state : sim_state) (now : string) (t : list simulator_row) : list simulator_row :=
  if existsb (at_udid u) t
  then Db.update_where (at_udid u)
         (upsert_set name device_type screen_size pool state now) t
  else t ++ [mk_simulator u name device_type screen_size pool state None None now].

Definition execute_upsert (u name device_type screen_size pool : string)
  (state : sim_state) (now : string) : Db.Tx unit :=
  fun d =>
    inr (tt, Db.with_simulators d
               (upsert u name device_type screen_size pool state now (simulators d))).

(** [if pool not in pools: pools[pool] = 0] then [pools[pool] += 1] *)
Fixpoint count_pool (pool : string) (pools : list (string * Z)) : list (string * Z) :=
  match pools with
  | [] => [(pool, 1)]
  | (p, n) :: rest =>
      if (p =? pool)%string then (p, n + 1) :: rest else (p, n) :: count_pool pool rest
  end.

(** The body of the inner loop of [refresh] for one device; gives its pool. *)
Definition refresh_device (now : string) (device : simctl_device) : Db.Tx string :=
  let udid := dev_udid device in
  let name := dev_name device in
  let sim_state := dev_state device in
  let device_type := _get_device_type name in
  let screen_size := _get_screen_size name in
  let pool := (device_type ++ "-" ++ screen_size)%string in
  let state := if (sim_state =? "Booted")%string then available else offline in
  row <- Db.read (fun d => Db.fetchone (at_udid udid) (simulators d)) ;;
  let state :=
    match row with
    | Some row => if Py.truthy (current_task row) then busy else state
    | None => state
    end in
  execute_upsert udid name device_type screen_size pool state now ;;;
  Db.ret pool.

Fixpoint refresh_devices (now : string) (devices : list simctl_device)
  (acc : Z * list (string * Z)) : Db.Tx (Z * list (string * Z)) :=
  match devices with
  | [] => Db.ret acc
  | device :: rest =>
      pool <- refresh_device now device ;;
      refresh_devices now rest (fst acc + 1, count_pool pool (snd acc))
  end.

Fixpoint refresh_runtimes (now : string) (data : simctl_data)
  (acc : Z * list (string * Z)) : Db.Tx (Z * list (string * Z)) :=
  match data with
  | [] => Db.ret acc
  | (_, devices) :: rest =>
      acc' <- refresh_devices now devices acc ;;
      refresh_runtimes now rest acc'
  end.

Record refresh_result : Type := mk_refresh_result {
  rr_simulators : Z;
  rr_pools : list (string * Z)
}.

(** [data] is the parsed output of [simctl list devices available --json]. *)
Definition refresh (data : simctl_data) (now : string) (d : store)
  : Db.outcome refresh_result * store :=
  Db.transaction
    (acc <- refresh_runtimes now data (0, []) ;;
     Db.ret (mk_refresh_result (fst acc) (snd acc))) d.

(** [WHERE pool = ? AND state = 'available'] *)
Definition available_in (p : string) (r : simulator_row) : bool :=
  (pool r =? p)%string && sim_state_eqb (state r) available.

(** First statement of [acquire]: [SELECT udid ... LIMIT 1]. *)
Definition acquire_select (p : string) : Db.Tx (option simulator_row) :=
  Db.read (fun d => Db.fetchone (available_in p) (simulators d)).

Definition acquire_set (task_id now : string) (r : simulator_row) : simulator_row :=
  mk_simulator (udid r) (name r) (device_type r) (screen_size r) (pool r)
    busy (Some task_id) (port r) now.

(** Second statement of [acquire]: [UPDATE ... WHERE udid = ?]. *)
Definition acquire_mark (task_id now u : string) : Db.Tx nat :=
  execute_update (at_udid u) (acquire_set task_id now).

Definition acquire (pool task_id now : string) (d : store)
  : Db.outcome (option string) * store :=
  Db.transaction
    (row <- acquire_select pool ;;
     match row with
     | None => Db.ret None
     | Some row =>
         let udid := udid row in
         acquire_mark task_id now udid ;;;
         Db.ret (Some udid)
     end) d.

Record release_result : Type := mk_release_result {
  rl_udid : string;
  rl_state : sim_state
}.

Definition release_set (new_state : sim_state) (now : string) (r : simulator_row)
  : simulator_row :=
  mk_simulator (udid r) (name r) (device_type r) (screen_size r) (pool r)
    new_state None (port r) now.

(** The two loops of [release] over the parsed output of
    [simctl list devices --json]: [new_state] becomes available as soon as
    one listed device has this udid and is booted. *)
Definition still_booted (u : string) (data : simctl_data) : bool :=
  existsb (fun rt =>
             existsb (fun device =>
                        (dev_udid device =? u)%string
                        && (dev_state device =? "Booted")%string)
               (snd rt))
    data.

Definition release (u : string) (data : simctl_data) (now : string) (d : store)
  : Db.outcome release_result * store :=
  let new_state := if still_booted u data then available else offline in
  match Db.transaction (execute_update (at_udid u) (release_set new_state now)) d with
  | (Db.Returned _, d') => (Db.Returned (mk_release_result u new_state), d')
  | (Db.Raised e, d') => (Db.Raised e, d')
  end.

(** The text the [state] column holds. *)
Definition state_name (s : sim_state) : string :=
  match s with
  | offline => "offline"
  | available => "available"
  | busy => "busy"
  end.

Record sim_listing : Type := mk_sim_listing {
  ls_udid : string;
  ls_name : string;
  ls_pool : string;
  ls_state : sim_state;
  ls_current_task : option string
}.

Definition listing (r : simulator_row) : sim_listing :=
  mk_sim_listing (udid r) (name r) (pool r) (state r) (current_task r).

(** [ORDER BY name] *)
Definition by_name (a b : simulator_row) : bool := String.leb (name a) (name b).

Definition list_sims (state_filter : option string) (d : store)
  : Db.outcome (list sim_listing) * store :=
  Db.transaction
    (rows <- (if Py.truthy state_filter
              then
                match state_filter with
                | Some s =>
                    Db.read (fun d =>
                      Db.order_by by_name
                        (filter (fun r => (state_name (state r) =? s)%string) (simulators d)))
                | None => Db.read (fun d => Db.order_by by_name (simulators d))
                end
              else Db.read (fun d => Db.order_by by_name (simulators d))) ;;
     Db.ret (map listing rows)) d.

Definition get (u : string) (d : store) : Db.outcome (option simulator_row) * store :=
  Db.transaction
    (row <- Db.read (fun d => Db.fetchone (at_udid u) (simulators d)) ;;
     Db.ret row) d.

(** [SUM(CASE WHEN state = ... THEN 1 ELSE 0 END)] *)
Definition in_state (s : sim_state) (r : simulator_row) : Z :=
  if sim_state_eqb (state r) s then 1 else 0.

Record stats_result : Type := mk_stats_result {
  st_total : Z;
  st_available : option Z;
  st_busy : option Z;
  st_offline : option Z;
  st_pools : Z
}.

Definition stats (d : store) : Db.outcome stats_result * store :=
  Db.transaction
    (row <- Db.read (fun d =>
              mk_stats_result
                (Db.count_rows (simulators d))
                (Db.sum_column (in_state available) (simulators d))
                (Db.sum_column (in_state busy) (simulators d))
                (Db.sum_column (in_state offline) (simulators d))
                (Db.count_distinct pool (simulators d))) ;;
     Db.ret row) d.

(** [pools]: the rows in the order of [ORDER BY pool, name], grouped into a
    dict from pool to the list of its members; the dict keeps its keys in
    the order of first insertion. *)
Record pool_member : Type := mk_pool_member {
  pm_udid : string;
  pm_name : string;
  pm_state : sim_state
}.

Definition member (r : simulator_row) : pool_member :=
  mk_pool_member (udid r) (name r) (state r).

(** [ORDER BY pool, name] *)
Definition by_pool_name (a b : simulator_row) : bool :=
  if (pool a =? pool b)%string
  then String.leb (name a) (name b)
  else String.leb (pool a) (pool b).

(** [if pool not in result: result[pool] = []] and then
    [result[pool].append(..)] *)
Fixpoint append_member (key : string) (e : pool_member)
  (result : list (string * list pool_member)) : list (string * list pool_member) :=
  match result with
  | [] => [(key, [e])]
  | (k, es) :: rest =>
      if (k =? key)%string
      then (k, es ++ [e]) :: rest
      else (k, es) :: append_member key e rest
  end.

Definition pools (d : store) : Db.outcome (list (string * list pool_member)) * store :=
  Db.transaction
    (rows <- Db.read (fun d => Db.order_by by_pool_name (simulators d)) ;;
     Db.ret (fold_left (fun result row => append_member (pool row) (member row) result)
               rows [])) d.

End Simulators.

(** ** runs.py *)

Inductive capture_mode : Type := mode_light | mode_jpeg | mode_pdf.

Inductive action_kind : Type := act_click | act_type | act_navigation | act_scroll.

Module Runs.

(** [WHERE id = ?] *)
Definition at_id (id : string) (r : run_row) : bool := (run_id r =? id)%string.

(** [WHERE run_id = ?] *)
Definition at_run_id (id : string) (r : metrics_row) : bool := (m_run_id r =? id)%string.

Definition execute_update_runs (p : run_row -> bool) (f : run_row -> run_row) : Db.Tx nat :=
  fun d => inr (Db.rowcount p (runs d), Db.with_runs d (Db.update_where p f (runs d))).

Definition execute_update_metrics (p : metrics_row -> bool) (f : metrics_row -> metrics_row)
  : Db.Tx nat :=
  fun d => inr (Db.rowcount p (metrics d), Db.with_metrics d (Db.update_where p f (metrics d))).

(** [INSERT INTO runs (id, workflow, simulator_udid, status, start_time,
    run_dir) VALUES (?, ?, ?, 'running', ?, ?)]: the primary key and the
    foreign key into [simulators] are checked. *)
Definition execute_insert_run (id workflow : string) (sim : option string)
  (now run_dir : string) : Db.Tx unit :=
  fun d =>
    if existsb (at_id id) (runs d) then inl Db.IntegrityError
    else
      if match sim with
         | Some u => existsb (Simulators.at_udid u) (simulators d)
         | None => true
         end
      then inr (tt, Db.with_runs d
                      (runs d ++ [mk_run id workflow sim "running" now None 0 0 run_dir]))
      else inl Db.IntegrityError.

(** [INSERT INTO metrics (run_id) VALUES (?)]: every counter takes its
    default 0; the primary key and the foreign key into [runs] are checked. *)
Definition execute_insert_metrics (id : string) : Db.Tx unit :=
  fun d =>
    if existsb (at_run_id id) (metrics d) then inl Db.IntegrityError
    else
      if existsb (at_id id) (runs d)
      then inr (tt, Db.with_metrics d
                      (metrics d ++ [mk_metrics id 0 0 0 0 0 0 0 0 0%Q 0 0 0 0 0 0 0]))
      else inl Db.IntegrityError.

Record start_result : Type := mk_start_result {
  sr_run_id : string;
  sr_run_dir : string;
  sr_status : string
}.

Definition start_set (id : string) (r : simulator_row) : simulator_row :=
  mk_simulator (udid r) (name r) (device_type r) (screen_size r) (pool r)
    busy (Some id) (port r) (last_activity r).

Section WithRunsDir.

(** [DEFAULT_DB_PATH.parent.parent / "runs"], fixed by where the package is
    installed. *)
Variable RUNS_DIR : string.

(** Creating the run directory on disk is outside the store. *)
Definition start (id workflow : string) (simulator_udid : option string) (now : string)
  (d : store) : Db.outcome start_result * store :=
  let run_dir := (RUNS_DIR ++ "/" ++ id)%string in
  match
    Db.transaction
      (execute_insert_run id workflow simulator_udid now run_dir ;;;
       execute_insert_metrics id ;;;
       if Py.truthy simulator_udid
       then
         match simulator_udid with
         | Some u => Simulators.execute_update (Simulators.at_udid u) (start_set id) ;;; Db.ret tt
         | None => Db.ret tt
         end
       else Db.ret tt) d
  with
  | (Db.Returned _, d') => (Db.Returned (mk_start_result id run_dir "running"), d')
  | (Db.Raised e, d') => (Db.Raised e, d')
  end.

End WithRunsDir.

Record complete_result : Type := mk_complete_result {
  cr_run_id : string;
  cr_status : string
}.

Definition complete_set (status now : string) (total_steps : Z) (r : run_row) : run_row :=
  mk_run (run_id r) (workflow r) (simulator_udid r) status (start_time r)
    (Some now) total_steps (current_step r) (run_dir r).

Definition unbind_set (r : simulator_row) : simulator_row :=
  mk_simulator (udid r) (name r) (device_type r) (screen_size r) (pool r)
    available None (port r) (last_activity r).

Definition complete (id status : string) (total_steps : Z) (now : string) (d : store)
  : Db.outcome complete_result * store :=
  match
    Db.transaction
      (row <- Db.read (fun d => Db.fetchone (at_id id) (runs d)) ;;
       let sim_udid := match row with Some row => simulator_udid row | None => None end in
       execute_update_runs (at_id id) (complete_set status now total_steps) ;;;
       if Py.truthy sim_udid
       then
         match sim_udid with
         | Some u => Simulators.execute_update (Simulators.at_udid u) unbind_set ;;; Db.ret tt
         | None => Db.ret tt
         end
       else Db.ret tt) d
  with
  | (Db.Returned _, d') => (Db.Returned (mk_complete_result id status), d')
  | (Db.Raised e, d') => (Db.Raised e, d')
  end.

Record progress_result : Type := mk_progress_result {
  pr_run_id : string;
  pr_current_step : Z
}.

Definition progress_set (step : Z) (total : option Z) (r : run_row) : run_row :=
  mk_run (run_id r) (workflow r) (simulator_udid r) (status r) (start_time r)
    (end_time r) (match total with Some t => t | None => total_steps r end)
    step (run_dir r).

Definition progress (id : string) (current_step : Z) (total_steps : option Z) (d : store)
  : Db.outcome progress_result * store :=
  match
    Db.transaction
      (if Py.truthy_int total_steps
       then execute_update_runs (at_id id) (progress_set current_step total_steps)
       else execute_update_runs (at_id id) (progress_set current_step None)) d
  with
  | (Db.Returned _, d') => (Db.Returned (mk_progress_result id current_step), d')
  | (Db.Raised e, d') => (Db.Raised e, d')
  end.

(** [CAST(x AS INTEGER)] of a REAL: the fraction is dropped, towards zero. *)
Definition cast_integer (x : Q) : Z := Z.quot (Qnum x) (Zpos (Qden x)).

(** The columns [captures_{mode}] and [bytes_{mode}] exist for these three
    modes; for any other text the statement names a missing column. *)
Definition capture_columns (mode : string) : option capture_mode :=
  if (mode =? "light")%string then Some mode_light
  else if (mode =? "jpeg")%string then Some mode_jpeg
  else if (mode =? "pdf")%string then Some mode_pdf
  else None.

(** The SET list of [add_capture]; every right-hand side reads the row as it
    was before the statement.  [cost_usd] is REAL: the value kept here is the
    exact one of the expression. *)
Definition capture_set (mode : capture_mode) (byte_count : Z) (r : metrics_row)
  : metrics_row :=
  mk_metrics (m_run_id r)
    (match mode with mode_light => captures_light r + 1 | _ => captures_light r end)
    (match mode with mode_jpeg => captures_jpeg r + 1 | _ => captures_jpeg r end)
    (match mode with mode_pdf => captures_pdf r + 1 | _ => captures_pdf r end)
    (match mode with mode_light => bytes_light r + byte_count | _ => bytes_light r end)
    (match mode with mode_jpeg => bytes_jpeg r + byte_count | _ => bytes_jpeg r end)
    (match mode with mode_pdf => bytes_pdf r + byte_count | _ => bytes_pdf r end)
    (bytes_total r + byte_count)
    (cast_integer (inject_Z (bytes_total r + byte_count) * 0.25)%Q)
    (inject_Z (bytes_total r + byte_count) * 0.25 * 3 / 1000000)%Q
    (actions_clicks r) (actions_types r) (actions_navigations r) (actions_scrolls r)
    (selector_hits r) (selector_misses r) (errors r).

Record recorded_result : Type := mk_recorded { recorded : bool }.

Definition add_capture (id mode : string) (byte_count : Z) (d : store)
  : Db.outcome recorded_result * store :=
  match
    Db.transaction
      (match capture_columns mode with
       | Some m => execute_update_metrics (at_run_id id) (capture_set m byte_count)
       | None => Db.raise Db.OperationalError
       end) d
  with
  | (Db.Returned _, d') => (Db.Returned (mk_recorded true), d')
  | (Db.Raised e, d') => (Db.Raised e, d')
  end.

(** The column [actions_{action_type}s] exists for these four types. *)
Definition action_column (action_type : string) : option action_kind :=
  if (action_type =? "click")%string then Some act_click
  else if (action_type =? "type")%string then Some act_type
  else if (action_type =? "navigation")%string then Some act_navigation
  else if (action_type =? "scroll")%string then Some act_scroll
  else None.

Definition action_set (a : action_kind) (r : metrics_row) : metrics_row :=
  mk_metrics (m_run_id r)
    (captures_light r) (captures_jpeg r) (captures_pdf r)
    (bytes_light r) (bytes_jpeg r) (bytes_pdf r)
    (bytes_total r) (tokens_estimated r) (cost_usd r)
    (match a with act_click => actions_clicks r + 1 | _ => actions_clicks r end)
    (match a with act_type => actions_types r + 1 | _ => actions_types r end)
    (match a with act_navigation => actions_navigations r + 1 | _ => actions_navigations r end)
    (match a with act_scroll => actions_scrolls r + 1 | _ => actions_scrolls r end)
    (selector_hits r) (selector_misses r) (errors r).

Definition add_action (id action_type : string) (d : store)
  : Db.outcome recorded_result * store :=
  match
    Db.transaction
      (match action_column action_type with
       | Some a => execute_update_metrics (at_run_id id) (action_set a)
       | None => Db.raise Db.OperationalError
       end) d
  with
  | (Db.Returned _, d') => (Db.Returned (mk_recorded true), d')
  | (Db.Raised e, d') => (Db.Raised e, d')
  end.

(** [SELECT r.*, m.* FROM runs r LEFT JOIN metrics m ON r.id = m.run_id
    WHERE r.id = ?]: the run and, when there is one, its metrics row. *)
Definition get (id : string) (d : store)
  : Db.outcome (option (run_row * option metrics_row)) * store :=
  Db.transaction
    (row <- Db.read (fun d =>
              match Db.fetchone (at_id id) (runs d) with
              | Some r => Some (r, Db.fetchone (at_run_id (run_id r)) (metrics d))
              | None => None
              end) ;;
     Db.ret row) d.

Definition get_metrics (id : string) (d : store) : Db.outcome (option metrics_row) * store :=
  Db.transaction
    (row <- Db.read (fun d => Db.fetchone (at_run_id id) (metrics d)) ;;
     Db.ret row) d.

Record run_listing : Type := mk_run_listing {
  rl_id : string;
  rl_workflow : string;
  rl_status : string;
  rl_start_time : string;
  rl_end_time : option string
}.

Definition run_entry (r : run_row) : run_listing :=
  mk_run_listing (run_id r) (workflow r) (status r) (start_time r) (end_time r).

(** [ORDER BY start_time DESC] *)
Definition by_start_time_desc (a b : run_row) : bool :=
  String.leb (start_time b) (start_time a).

Definition list_runs (status_filter : option string) (limit : Z) (d : store)
  : Db.outcome (list run_listing) * store :=
  Db.transaction
    (rows <- (if Py.truthy status_filter
              then
                match status_filter with
                | Some s =>
                    Db.read (fun d =>
                      Db.limit_rows limit
                        (Db.order_by by_start_time_desc
                           (filter (fun r => (status r =? s)%string) (runs d))))
                | None =>
                    Db.read (fun d =>
                      Db.limit_rows limit (Db.order_by by_start_time_desc (runs d)))
                end
              else
                Db.read (fun d =>
                  Db.limit_rows limit (Db.order_by by_start_time_desc (runs d)))) ;;
     Db.ret (map run_entry rows)) d.

(** [FROM metrics m JOIN runs r ON m.run_id = r.id WHERE r.status =
    'completed'] *)
Definition completed_join (d : store) : list (metrics_row * run_row) :=
  flat_map (fun m =>
              map (fun r => (m, r))
                (filter (fun r => at_id (m_run_id m) r && (status r =? "completed")%string)
                   (runs d)))
    (metrics d).

Record aggregate_result : Type := mk_aggregate_result {
  total_runs : Z;
  total_bytes : Z;
  total_tokens : Z;
  total_cost_usd : Q;
  total_captures : Z;
  total_actions : Z
}.

Section WithRound.

(** Python's [round(x, 4)] on the REAL sum of the costs. *)
Variable round4 : Q -> Q.

Definition aggregate (d : store) : Db.outcome aggregate_result * store :=
  Db.transaction
    (rows <- Db.read completed_join ;;
     Db.ret (mk_aggregate_result
               (Db.or_zero (Some (Db.count_rows rows)))
               (Db.or_zero (Db.sum_column (fun row => bytes_total (fst row)) rows))
               (Db.or_zero (Db.sum_column (fun row => tokens_estimated (fst row)) rows))
               (round4 (match Db.sum_real (fun row => cost_usd (fst row)) rows with
                        | Some total => total
                        | None => 0%Q
                        end))
               (Db.or_zero
                  (Db.sum_column
                     (fun row => captures_light (fst row) + captures_jpeg (fst row)
                                 + captures_pdf (fst row)) rows))
               (Db.or_zero
                  (Db.sum_column
                     (fun row => actions_clicks (fst row) + actions_types (fst row)
                                 + actions_navigations (fst row) + actions_scrolls (fst row))
                     rows)))) d.

End WithRound.

End Runs.

(** ** The core operations as one type

    Every operation that writes to the store, and the two lookups of the
    selector cache. *)

Module Core.

Inductive op : Type :=
| OpLearn (action selector url : string) (attributes : option attrs) (now ts : string)
| OpFail (action selector url now : string)
| OpRefresh (data : simctl_data) (now : string)
| OpAcquire (pool task_id now : string)
| OpRelease (udid : string) (data : simctl_data) (now : string)
| OpStart (id workflow : string) (simulator_udid : option string) (now : string)
| OpComplete (id status : string) (total_steps : Z) (now : string)
| OpProgress (id : string) (current_step : Z) (total_steps : option Z)
| OpAddCapture (id mode : string) (byte_count : Z)
| OpAddAction (id action_type : string)
| OpClear (domain : option string)
| OpRecall (action url : string)
| OpGetAll (url : string).

(** The store an operation leaves behind. *)
Definition exec (RUNS_DIR : string) (o : op) (d : store) : store :=
  match o with
  | OpLearn action selector url attributes now ts =>
      snd (Selectors.learn action selector url attributes now ts d)
  | OpFail action selector url now => snd (Selectors.fail action selector url now d)
  | OpRefresh data now => snd (Simulators.refresh data now d)
  | OpAcquire pool task_id now => snd (Simulators.acquire pool task_id now d)
  | OpRelease udid data now => snd (Simulators.release udid data now d)
  | OpStart id workflow simulator_udid now =>
      snd (Runs.start RUNS_DIR id workflow simulator_udid now d)
  | OpComplete id status total_steps now => snd (Runs.complete id status total_steps now d)
  | OpProgress id current_step total_steps => snd (Runs.progress id current_step total_steps d)
  | OpAddCapture id mode byte_count => snd (Runs.add_capture id mode byte_count d)
  | OpAddAction id action_type => snd (Runs.add_action id action_type d)
  | OpClear domain => snd (Selectors.clear domain d)
  | OpRecall action url => snd (Selectors.recall action url d)
  | OpGetAll url => snd (Selectors.get_all url d)
  end.

End Core.

(** ** Two callers inside [acquire]

    Each caller is its own process with its own connection.  The connection
    opens its write transaction at the first writing statement, so the
    SELECT of [acquire] runs on its own and the UPDATE commits at the end of
    the block: the store executes the statements of two callers one at a
    time, in any order that keeps each caller's own order. *)

Module Concurrent.

Inductive caller : Type := first | second.

(** Where a caller stands: before its SELECT, holding the udid its SELECT
    gave, or returned. *)
Inductive pc : Type :=
| AtSelect
| AtUpdate (udid : string)
| Done (result : option string).

(** One statement of [acquire pool task_id] issued at [now]. *)
Definition step (pool task_id now : string) (c : pc) (d : store) : pc * store :=
  match c with
  | AtSelect =>
      match Simulators.acquire_select pool d with
      | inr (Some row, d') => (AtUpdate (udid row), d')
      | inr (None, d') => (Done None, d')
      | inl _ => (c, d)
      end
  | AtUpdate u =>
      match Simulators.acquire_mark task_id now u d with
      | inr (_, d') => (Done (Some u), d')
      | inl _ => (c, d)
      end
  | Done _ => (c, d)
  end.

Record config : Type := mk_config {
  pc1 : pc;
  pc2 : pc;
  shared : store
}.

(** Both callers ask for the same pool, with task ids [t1] and [t2]. *)
Fixpoint run (pool t1 t2 now : string) (schedule : list caller) (c : config) : config :=
  match schedule with
  | [] => c
  | first :: rest =>
      let '(p, d) := step pool t1 now (pc1 c) (shared c) in
      run pool t1 t2 now rest (mk_config p (pc2 c) d)
  | second :: rest =>
      let '(p, d) := step pool t2 now (pc2 c) (shared c) in
      run pool t1 t2 now rest (mk_config (pc1 c) p d)
  end.

Definition both_acquire (pool t1 t2 now : string) (schedule : list caller) (d : store)
  : config :=
  run pool t1 t2 now schedule (mk_config AtSelect AtSelect d).

End Concurrent.

(** ** Predicates the properties are stated with *)



(** The invariant of a simulator row: busy exactly when a task is set. *)
Definition busy_iff_task (r : simulator_row) : Prop :=
  state r = busy <-> current_task r <> None.

(** PRIMARY KEY of [simulators]. *)
Definition simulators_pk (d : store) : Prop := NoDup (map udid (simulators d)).

(** FOREIGN KEY (run_id) REFERENCES runs(id) of [metrics]. *)
Definition metrics_fk (d : store) : Prop :=
  forall m, In m (metrics d) -> existsb (Runs.at_id (m_run_id m)) (runs d) = true.

(** The [simulators] table after the loop body of [refresh] ran for one
    device. *)
Definition refreshed_one (now : string) (device : simctl_device)
  (t : list simulator_row) : list simulator_row :=
  let name := dev_name device in
  let device_type := Simulators._get_device_type name in
  let screen_size := Simulators._get_screen_size name in
  let state := if (dev_state device =? "Booted")%string then available else offline in
  Simulators.upsert (dev_udid device) name device_type screen_size
    (device_type ++ "-" ++ screen_size)%string
    (match Db.fetchone (Simulators.at_udid (dev_udid device)) t with
     | Some row => if Py.truthy (current_task row) then busy else state
     | None => state
     end)
    now t.

(** The [simulators] table after both loops of [refresh]. *)
Definition refreshed (now : string) (data : simctl_data) (t : list simulator_row)
  : list simulator_row :=
  fold_left (fun t devices => fold_left (fun t device => refreshed_one now device t) devices t)
    (map snd data) t.

(** Row by row: the udid and the task stay, and a busy row with a task stays
    busy. *)
Definition keeps_busy (t t' : list simulator_row) : Prop :=
  forall i r,
    nth_error t i = Some r ->
    exists r',
      nth_error t' i = Some r'
      /\ udid r' = udid r
      /\ current_task r' = current_task r
      /\ (current_task r <> None -> state r = busy -> state r' = busy).

(** Row by row under the primary key: the key still holds, and a row
    satisfies the invariant if the row at its place did, or if there was
    none. *)
Definition keeps_invariant (t t' : list simulator_row) : Prop :=
  NoDup (map udid t) ->
  NoDup (map udid t')
  /\ forall i r',
       nth_error t' i = Some r' ->
       (forall r, nth_error t i = Some r -> busy_iff_task r) ->
       busy_iff_task r'.

(** UNIQUE(domain, action) of [selectors]. *)
Definition selector_key (r : selector_row) : string * string :=
  (sel_domain r, sel_action r).

Definition selectors_unique (d : store) : Prop :=
  NoDup (map selector_key (selectors d)).

(** [url.startswith(('http://', 'https://'))] *)
Definition has_scheme (s : string) : bool :=
  Py.startswith "http://" s || Py.startswith "https://" s.

(** No character of [s] is "/", "?" or "#". *)
Fixpoint no_delim (s : string) : bool :=
  match s with
  | String c s' => negb (Urllib.is_delim c) && no_delim s'
  | EmptyString => true
  end.


(** Every stored selector has succeeded at least once and failed no negative
    number of times. *)
Definition counts_ok (d : store) : Prop :=
  forall r, In r (selectors d) -> 1 <= success_count r /\ 0 <= fail_count r.


(** The sum of a column over a table, 0 for the empty table. *)
Definition total_of {R : Type} (g : R -> Z) (t : list R) : Z :=
  fold_right (fun r acc => g r + acc) 0 t.

(** The type, the screen size and the pool of a row are the ones its name
    gives. *)
Definition classified (r : simulator_row) : Prop :=
  device_type r = Simulators._get_device_type (name r)
  /\ screen_size r = Simulators._get_screen_size (name r)
  /\ pool r = (device_type r ++ "-" ++ screen_size r)%string.

(** The pool [refresh] computes for a listed device. *)
Definition pool_of_device (device : simctl_device) : string :=
  (Simulators._get_device_type (dev_name device) ++ "-"
   ++ Simulators._get_screen_size (dev_name device))%string.

(** How many of the listed devices fall in pool [p]. *)
Definition count_in_pool (p : string) (devices : list simctl_device) : Z :=
  Z.of_nat (List.length (filter (fun device => (pool_of_device device =? p)%string) devices)).

(** [pools.get(p, 0)] on the dictionary [refresh] returns. *)
Definition lookup_pool (p : string) (pools : list (string * Z)) : Z :=
  match find (fun e => (fst e =? p)%string) pools with
  | Some e => snd e
  | None => 0
  end.

(** All devices of all runtimes, in the order the loops of [refresh] visit
    them. *)
Definition listed (data : simctl_data) : list simctl_device := List.concat (map snd data).

(** What a device's simctl state maps to. *)
Definition booted_state (device : simctl_device) : sim_state :=
  if (dev_state device =? "Booted")%string then available else offline.

(** The row [refresh] leaves for a listed device, given the row the store
    held for its udid before, if any: name, type, size and pool come from
    the listing; task and port stay; the state is busy when a task is set
    and follows the listing otherwise. *)
Definition synced_row (now : string) (device : simctl_device) (old : option simulator_row)
  : simulator_row :=
  mk_simulator (dev_udid device) (dev_name device)
    (Simulators._get_device_type (dev_name device))
    (Simulators._get_screen_size (dev_name device))
    (pool_of_device device)
    (match old with
     | Some o => match current_task o with Some _ => busy | None => booted_state device end
     | None => booted_state device
     end)
    (match old with Some o => current_task o | None => None end)
    (match old with Some o => port o | None => None end)
    now.

(** Run ids are distinct, metrics ids are distinct, every run has a metrics
    row and every metrics row has its run. *)
Definition ledger_ok (d : store) : Prop :=
  NoDup (map run_id (runs d))
  /\ NoDup (map m_run_id (metrics d))
  /\ (forall r, In r (runs d) -> existsb (Runs.at_run_id (run_id r)) (metrics d) = true)
  /\ (forall m, In m (metrics d) -> existsb (Runs.at_id (m_run_id m)) (runs d) = true).



(** The run of this metrics row is in the store with status "completed". *)
Definition has_completed_run (d : store) (m : metrics_row) : bool :=
  existsb (fun r => Runs.at_id (m_run_id m) r && (status r =? "completed")%string) (runs d).

(** The metrics rows of the completed runs. *)
Definition completed_metrics (d : store) : list metrics_row :=
  filter (has_completed_run d) (metrics d).

(** [rows] is what a listing limited to [limit] rows may show of [all],
    newest first: together with the rows left out it is [all] rearranged, it
    is in descending order of start time, nothing left out started later
    than a row shown, and it holds [limit] rows, or all of them when there
    are fewer; a negative limit leaves nothing out. *)
Definition newest_first (limit : Z) (rows rest all : list run_row) : Prop :=
  Permutation (rows ++ rest) all
  /\ Sorted (fun a b => Runs.by_start_time_desc a b = true) rows
  /\ (forall r r', In r rows -> In r' rest ->
       String.leb (start_time r') (start_time r) = true)
  /\ (0 <= limit -> List.length rows = Nat.min (Z.to_nat limit) (List.length all))
  /\ (limit < 0 -> rest = []).

(** [result.get(key)] on the dict that [pools] returns. *)
Definition lookup_members (key : string) (result : list (string * list Simulators.pool_member))
  : option (list Simulators.pool_member) :=
  match find (fun kv => (fst kv =? key)%string) result with
  | Some kv => Some (snd kv)
  | None => None
  end.

(** * Properties *)

(** ** Tables as lists *)

Lemma update_where_untouched {R : Type} (p : R -> bool) (f : R -> R) (t : list R) :
  existsb p t = false -> Db.update_where p f t = t.
Proof.
  unfold Db.update_where.
  induction t as [|r t IH]; simpl; intros H; [reflexivity|].
  apply orb_false_iff in H as [Hr Ht].
  rewrite Hr, (IH Ht). reflexivity.
Qed.

Lemma rowcount_untouched {R : Type} (p : R -> bool) (t : list R) :
  existsb p t = false -> Db.rowcount p t = 0%nat.
Proof.
  unfold Db.rowcount.
  induction t as [|r t IH]; simpl; intros H; [reflexivity|].
  apply orb_false_iff in H as [Hr Ht].
  rewrite Hr. exact (IH Ht).
Qed.

Lemma rowcount_touched {R : Type} (p : R -> bool) (t : list R) :
  existsb p t = true -> Db.rowcount p t <> 0%nat.
Proof.
  unfold Db.rowcount.
  induction t as [|r t IH]; simpl; intros H; [discriminate|].
  destruct (p r); simpl; [discriminate|]. exact (IH H).
Qed.

Lemma update_where_nth {R : Type} (p : R -> bool) (f : R -> R) (t : list R) (i : nat) :
  nth_error (Db.update_where p f t) i
  = option_map (fun r => if p r then f r else r) (nth_error t i).
Proof. unfold Db.update_where. apply nth_error_map. Qed.


Lemma fetchone_appended {R : Type} (p : R -> bool) (t : list R) (r : R) :
  existsb p t = false -> p r = true -> Db.fetchone p (t ++ [r]) = Some r.
Proof.
  unfold Db.fetchone.
  induction t as [|x t IH]; simpl; intros H Hr.
  - rewrite Hr. reflexivity.
  - apply orb_false_iff in H as [Hx Ht]. rewrite Hx. exact (IH Ht Hr).
Qed.

Lemma fetchone_update_where {R : Type} (p q : R -> bool) (f : R -> R) (t : list R) :
  (forall r, p (if q r then f r else r) = p r) ->
  Db.fetchone p (Db.update_where q f t)
  = option_map (fun r => if q r then f r else r) (Db.fetchone p t).
Proof.
  unfold Db.fetchone, Db.update_where. intros Hp.
  induction t as [|x t IH]; simpl; [reflexivity|].
  rewrite Hp. destruct (p x); [reflexivity|exact IH].
Qed.

Lemma store_eta (d : store) :
  mk_store (selectors d) (selectors_seq d) (simulators d) (runs d) (metrics d) = d.
Proof. destruct d; reflexivity. Qed.

Lemma with_selectors_same (d : store) :
  Db.with_selectors d (selectors d) (selectors_seq d) = d.
Proof. apply store_eta. Qed.

Lemma with_simulators_same (d : store) : Db.with_simulators d (simulators d) = d.
Proof. apply store_eta. Qed.



(** ** The domain key *)






(** ** The selector cache *)

Lemma fail_store (action selector url now : string) (d : store) :
  Selectors.fail action selector url now d
  = (Db.Returned (Selectors.mk_fail_result true (Selectors._extract_domain url) action),
     Db.with_selectors d
       (Db.update_where
          (Selectors.at_key_selector (Selectors._extract_domain url) action selector)
          (Selectors.fail_set now) (selectors d))
       (selectors_seq d)).
Proof. reflexivity. Qed.

Lemma learn_store (action selector url : string) (attributes : option attrs)
  (now ts : string) (d : store) :
  let domain := Selectors._extract_domain url in
  let attrs_json := match attributes with Some ((_ :: _) as a) => Some a | _ => None end in
  Selectors.learn action selector url attributes now ts d
  = (Db.Returned (Selectors.mk_learn_result true domain action selector),
     if existsb (Selectors.at_key domain action) (selectors d)
     then Db.with_selectors d
            (Db.update_where (Selectors.at_key domain action)
               (Selectors.learn_set selector now attrs_json) (selectors d))
            (selectors_seq d)
     else Db.with_selectors d
            (selectors d ++
               [mk_selector (selectors_seq d + 1) domain action selector 1 0
                  attrs_json (Some now) None ts])
            (selectors_seq d + 1)).
Proof.
  intros domain attrs_json.
  unfold Selectors.learn, Db.transaction, Db.bind, Selectors.execute_update.
  fold domain. fold attrs_json.
  destruct (existsb (Selectors.at_key domain action) (selectors d)) eqn:E.
  - pose proof (rowcount_touched _ _ E) as Hn.
    apply Nat.eqb_neq in Hn. rewrite Hn. reflexivity.
  - rewrite (rowcount_untouched _ _ E), (update_where_untouched _ _ _ E).
    rewrite with_selectors_same. unfold Selectors.execute_insert.
    cbn [Nat.eqb]. rewrite E. reflexivity.
Qed.











(** ** The metrics ledger *)

Lemma add_capture_store (id mode : string) (m : capture_mode) (byte_count : Z) (d : store) :
  Runs.capture_columns mode = Some m ->
  Runs.add_capture id mode byte_count d
  = (Db.Returned (Runs.mk_recorded true),
     Db.with_metrics d
       (Db.update_where (Runs.at_run_id id) (Runs.capture_set m byte_count) (metrics d))).
Proof.
  intros H. unfold Runs.add_capture, Db.transaction. rewrite H. reflexivity.
Qed.

Lemma add_action_store (id action_type : string) (a : action_kind) (d : store) :
  Runs.action_column action_type = Some a ->
  Runs.add_action id action_type d
  = (Db.Returned (Runs.mk_recorded true),
     Db.with_metrics d
       (Db.update_where (Runs.at_run_id id) (Runs.action_set a) (metrics d))).
Proof.
  intros H. unfold Runs.add_action, Db.transaction. rewrite H. reflexivity.
Qed.






(** ** Calls that name a run the store does not have *)

Lemma fetchone_absent {R : Type} (p : R -> bool) (t : list R) :
  existsb p t = false -> Db.fetchone p t = None.
Proof.
  unfold Db.fetchone. induction t as [|x t IH]; simpl; intros H; [reflexivity|].
  apply orb_false_iff in H as [Hx Ht]. rewrite Hx. exact (IH Ht).
Qed.




(** ** What each operation writes *)

Lemma acquire_store (pool task_id now : string) (d : store) :
  Simulators.acquire pool task_id now d
  = match Db.fetchone (Simulators.available_in pool) (simulators d) with
    | Some row =>
        (Db.Returned (Some (udid row)),
         Db.with_simulators d
           (Db.update_where (Simulators.at_udid (udid row))
              (Simulators.acquire_set task_id now) (simulators d)))
    | None => (Db.Returned None, d)
    end.
Proof.
  unfold Simulators.acquire, Db.transaction, Db.bind, Simulators.acquire_select, Db.read.
  destruct (Db.fetchone _ _); reflexivity.
Qed.

Lemma release_store (u : string) (data : simctl_data) (now : string) (d : store) :
  Simulators.release u data now d
  = (Db.Returned (Simulators.mk_release_result u
                    (if Simulators.still_booted u data then available else offline)),
     Db.with_simulators d
       (Db.update_where (Simulators.at_udid u)
          (Simulators.release_set
             (if Simulators.still_booted u data then available else offline) now)
          (simulators d))).
Proof. reflexivity. Qed.

Lemma refresh_device_store (now : string) (device : simctl_device) (d : store) :
  exists pool,
    Simulators.refresh_device now device d
    = inr (pool, Db.with_simulators d (refreshed_one now device (simulators d))).
Proof.
  exists (Simulators._get_device_type (dev_name device) ++ "-"
          ++ Simulators._get_screen_size (dev_name device))%string.
  reflexivity.
Qed.

Lemma refresh_devices_store (now : string) (devices : list simctl_device) :
  forall acc d,
  exists acc',
    Simulators.refresh_devices now devices acc d
    = inr (acc', Db.with_simulators d
                   (fold_left (fun t device => refreshed_one now device t) devices
                      (simulators d))).
Proof.
  induction devices as [|device rest IH]; intros acc d; simpl.
  - exists acc. unfold Db.ret. rewrite with_simulators_same. reflexivity.
  - destruct (refresh_device_store now device d) as (pool & Hdev).
    unfold Db.bind at 1. rewrite Hdev.
    destruct (IH (fst acc + 1, Simulators.count_pool pool (snd acc))
                (Db.with_simulators d (refreshed_one now device (simulators d))))
      as (acc' & Hrest).
    exists acc'. rewrite Hrest. reflexivity.
Qed.

Lemma refresh_runtimes_store (now : string) (data : simctl_data) :
  forall acc d,
  exists acc',
    Simulators.refresh_runtimes now data acc d
    = inr (acc', Db.with_simulators d (refreshed now data (simulators d))).
Proof.
  induction data as [|[runtime devices] rest IH]; intros acc d; simpl.
  - exists acc. unfold Db.ret, refreshed. simpl. rewrite with_simulators_same. reflexivity.
  - destruct (refresh_devices_store now devices acc d) as (acc1 & Hdev).
    unfold Db.bind at 1. rewrite Hdev.
    destruct (IH acc1
                (Db.with_simulators d
                   (fold_left (fun t device => refreshed_one now device t) devices
                      (simulators d))))
      as (acc' & Hrest).
    exists acc'. rewrite Hrest. reflexivity.
Qed.

Lemma refresh_store (data : simctl_data) (now : string) (d : store) :
  exists res,
    Simulators.refresh data now d
    = (Db.Returned res, Db.with_simulators d (refreshed now data (simulators d))).
Proof.
  destruct (refresh_runtimes_store now data (0, []) d) as (acc & H).
  exists (Simulators.mk_refresh_result (fst acc) (snd acc)).
  unfold Simulators.refresh, Db.transaction, Db.bind. rewrite H. reflexivity.
Qed.

Lemma start_store (RUNS_DIR id workflow : string) (sim : option string) (now : string)
  (d : store) :
  existsb (Runs.at_id id) (runs d) = false ->
  existsb (Runs.at_run_id id) (metrics d) = false ->
  match sim with
  | Some u => existsb (Simulators.at_udid u) (simulators d)
  | None => true
  end = true ->
  Runs.start RUNS_DIR id workflow sim now d
  = (Db.Returned (Runs.mk_start_result id (RUNS_DIR ++ "/" ++ id)%string "running"),
     mk_store (selectors d) (selectors_seq d)
       (match sim with
        | Some u =>
            if Py.truthy sim
            then Db.update_where (Simulators.at_udid u) (Runs.start_set id) (simulators d)
            else simulators d
        | None => simulators d
        end)
       (runs d ++ [mk_run id workflow sim "running" now None 0 0 (RUNS_DIR ++ "/" ++ id)%string])
       (metrics d ++ [mk_metrics id 0 0 0 0 0 0 0 0 0%Q 0 0 0 0 0 0 0])).
Proof.
  intros Hrun Hmet Hfk.
  unfold Runs.start, Db.transaction, Db.bind, Runs.execute_insert_run,
    Runs.execute_insert_metrics.
  rewrite Hrun, Hfk. cbn [runs metrics Db.with_runs]. rewrite Hmet.
  rewrite existsb_app, Hrun. cbn [existsb orb]. unfold Runs.at_id. cbn [run_id].
  rewrite String.eqb_refl. cbn [orb].
  destruct sim as [u|]; [destruct (Py.truthy (Some u))|]; reflexivity.
Qed.

Lemma start_refused (RUNS_DIR id workflow : string) (sim : option string) (now : string)
  (d : store) :
  existsb (Runs.at_id id) (runs d) = true
  \/ existsb (Runs.at_run_id id) (metrics d) = true
  \/ match sim with
     | Some u => existsb (Simulators.at_udid u) (simulators d)
     | None => true
     end = false ->
  Runs.start RUNS_DIR id workflow sim now d = (Db.Raised Db.IntegrityError, d).
Proof.
  intros H.
  unfold Runs.start, Db.transaction, Db.bind, Runs.execute_insert_run,
    Runs.execute_insert_metrics.
  destruct (existsb (Runs.at_id id) (runs d)) eqn:Hrun; [reflexivity|].
  destruct (match sim with Some u => _ | None => true end) eqn:Hfk; [|reflexivity].
  cbn [runs metrics Db.with_runs].
  destruct (existsb (Runs.at_run_id id) (metrics d)) eqn:Hmet; [reflexivity|].
  destruct H as [H|[H|H]]; discriminate H.
Qed.

Lemma start_cases (RUNS_DIR id workflow : string) (sim : option string) (now : string)
  (d : store) :
  let d' := snd (Runs.start RUNS_DIR id workflow sim now d) in
  d' = d
  \/ (selectors d' = selectors d
      /\ selectors_seq d' = selectors_seq d
      /\ (simulators d' = simulators d
          \/ exists u,
               simulators d'
               = Db.update_where (Simulators.at_udid u) (Runs.start_set id) (simulators d))
      /\ runs d' = runs d ++ [mk_run id workflow sim "running" now None 0 0
                                (RUNS_DIR ++ "/" ++ id)%string]
      /\ metrics d' = metrics d ++ [mk_metrics id 0 0 0 0 0 0 0 0 0%Q 0 0 0 0 0 0 0]).
Proof.
  intros d'. subst d'.
  destruct (existsb (Runs.at_id id) (runs d)) eqn:Hrun;
    [left; rewrite start_refused by (left; exact Hrun); reflexivity|].
  destruct (existsb (Runs.at_run_id id) (metrics d)) eqn:Hmet;
    [left; rewrite start_refused by (right; left; exact Hmet); reflexivity|].
  destruct (match sim with
            | Some u => existsb (Simulators.at_udid u) (simulators d)
            | None => true
            end) eqn:Hfk;
    [|left; rewrite start_refused by (right; right; exact Hfk); reflexivity].
  right. rewrite (start_store _ _ _ _ _ _ Hrun Hmet Hfk). cbn [snd selectors selectors_seq simulators runs metrics].
  repeat split.
  destruct sim as [u|]; [|left; reflexivity].
  destruct (Py.truthy (Some u)); [right; exists u; reflexivity | left; reflexivity].
Qed.

Lemma complete_store (id status : string) (total_steps : Z) (now : string) (d : store) :
  Runs.complete id status total_steps now d
  = (Db.Returned (Runs.mk_complete_result id status),
     mk_store (selectors d) (selectors_seq d)
       (match Db.fetchone (Runs.at_id id) (runs d) with
        | Some row =>
            match simulator_udid row with
            | Some u =>
                if Py.truthy (Some u)
                then Db.update_where (Simulators.at_udid u) Runs.unbind_set (simulators d)
                else simulators d
            | None => simulators d
            end
        | None => simulators d
        end)
       (Db.update_where (Runs.at_id id) (Runs.complete_set status now total_steps) (runs d))
       (metrics d)).
Proof.
  unfold Runs.complete, Db.transaction, Db.bind, Db.read, Runs.execute_update_runs.
  destruct (Db.fetchone _ _) as [row|]; [destruct (simulator_udid row) as [u|]|];
    [destruct (Py.truthy (Some u))| |]; reflexivity.
Qed.

Lemma progress_store (id : string) (current_step : Z) (total_steps : option Z) (d : store) :
  Runs.progress id current_step total_steps d
  = (Db.Returned (Runs.mk_progress_result id current_step),
     Db.with_runs d
       (Db.update_where (Runs.at_id id)
          (Runs.progress_set current_step
             (if Py.truthy_int total_steps then total_steps else None))
          (runs d))).
Proof.
  unfold Runs.progress, Db.transaction.
  destruct (Py.truthy_int total_steps); reflexivity.
Qed.

(** ** Run status *)

Lemma add_capture_cases (id mode : string) (byte_count : Z) (d : store) :
  snd (Runs.add_capture id mode byte_count d) = d
  \/ exists m,
       snd (Runs.add_capture id mode byte_count d)
       = Db.with_metrics d
           (Db.update_where (Runs.at_run_id id) (Runs.capture_set m byte_count) (metrics d)).
Proof.
  destruct (Runs.capture_columns mode) as [m|] eqn:E.
  - right. exists m. rewrite (add_capture_store _ _ _ _ _ E). reflexivity.
  - left. unfold Runs.add_capture, Db.transaction. rewrite E. reflexivity.
Qed.

Lemma add_action_cases (id action_type : string) (d : store) :
  snd (Runs.add_action id action_type d) = d
  \/ exists a,
       snd (Runs.add_action id action_type d)
       = Db.with_metrics d
           (Db.update_where (Runs.at_run_id id) (Runs.action_set a) (metrics d)).
Proof.
  destruct (Runs.action_column action_type) as [a|] eqn:E.
  - right. exists a. rewrite (add_action_store _ _ _ _ E). reflexivity.
  - left. unfold Runs.add_action, Db.transaction. rewrite E. reflexivity.
Qed.

Lemma clear_store (domain : option string) (d : store) :
  exists t, snd (Selectors.clear domain d) = Db.with_selectors d t (selectors_seq d).
Proof.
  unfold Selectors.clear, Db.transaction, Db.bind, Selectors.execute_delete.
  destruct domain as [domain|]; [destruct (Py.truthy (Some domain))|];
    eexists; reflexivity.
Qed.

(** Operations of the selector cache, of the simulator pool and of the
    metrics counters leave the [runs] table alone. *)
Lemma runs_untouched (RUNS_DIR : string) (o : Core.op) (d : store) :
  match o with
  | Core.OpStart _ _ _ _ | Core.OpComplete _ _ _ _ | Core.OpProgress _ _ _ => True
  | _ => runs (Core.exec RUNS_DIR o d) = runs d
  end.
Proof.
  destruct o; cbn [Core.exec]; try exact I.
  - rewrite learn_store. cbv zeta. cbn [snd]. destruct (existsb _ _); reflexivity.
  - reflexivity.
  - destruct (refresh_store data now d) as (res & H). rewrite H. reflexivity.
  - rewrite acquire_store. destruct (Db.fetchone _ _); reflexivity.
  - reflexivity.
  - destruct (add_capture_cases id mode byte_count d) as [H|(m & H)]; rewrite H; reflexivity.
  - destruct (add_action_cases id action_type d) as [H|(a & H)]; rewrite H; reflexivity.
  - destruct (clear_store domain d) as (t & H). rewrite H. reflexivity.
  - reflexivity.
  - reflexivity.
Qed.

(** C2, as the code has it: no operation other than [complete] on the run's
    own id changes the status a run row holds, and [complete] on that id
    stores the status it is given whatever the row held before, a terminal
    status included. *)
Theorem status_changes_only_by_complete
  (RUNS_DIR : string) (o : Core.op) (d : store) (i : nat) (r : run_row) :
  nth_error (runs d) i = Some r ->
  ((forall status total_steps now, o <> Core.OpComplete (run_id r) status total_steps now) ->
   exists r',
     nth_error (runs (Core.exec RUNS_DIR o d)) i = Some r'
     /\ run_id r' = run_id r /\ status r' = status r)
  /\ (forall new_status total_steps now,
         o = Core.OpComplete (run_id r) new_status total_steps now ->
         exists r',
           nth_error (runs (Core.exec RUNS_DIR o d)) i = Some r'
           /\ run_id r' = run_id r /\ status r' = new_status).
Proof.
  intros Hi. split.
  - intros Hother. pose proof (runs_untouched RUNS_DIR o d) as Hframe.
    destruct o as [? ? ? ? ? ?|? ? ? ?|? ?|? ? ?|? ? ?
                  |id wf sim now|id st n now|id cs ts|? ? ?|? ?|?|? ?|?];
      try (rewrite Hframe; exists r; repeat split; exact Hi); cbn [Core.exec].
    + destruct (start_cases RUNS_DIR id wf sim now d)
        as [H|(_ & _ & _ & H & _)]; rewrite H.
      * exists r. repeat split. exact Hi.
      * exists r. repeat split. rewrite nth_error_app1; [exact Hi|].
        apply nth_error_Some. rewrite Hi. discriminate.
    + rewrite complete_store. cbn [snd runs]. rewrite update_where_nth, Hi. cbn [option_map].
      unfold Runs.at_id. destruct (run_id r =? id)%string eqn:E.
      * apply String.eqb_eq in E. subst id.
        exfalso. exact (Hother st n now eq_refl).
      * exists r. repeat split.
    + rewrite progress_store. cbn [snd runs Db.with_runs].
      rewrite update_where_nth, Hi. cbn [option_map].
      destruct (Runs.at_id id r); eexists; repeat split.
  - intros new_status total_steps now ->. cbn [Core.exec].
    rewrite complete_store. cbn [snd runs]. rewrite update_where_nth, Hi. cbn [option_map].
    unfold Runs.at_id. rewrite String.eqb_refl. eexists; repeat split.
Qed.

Lemma status_changes_only_by_complete_witness :
  let d := snd (Runs.complete "r1" "completed" 4 "t1"
                  (snd (Runs.start "/runs" "r1" "checkout" None "t0" Db.init_db))) in
  (exists r',
      nth_error (runs (Core.exec "/runs" (Core.OpProgress "r1" 9 None) d)) 0 = Some r'
      /\ status r' = "completed")
  /\ (exists r',
         nth_error (runs (Core.exec "/runs" (Core.OpComplete "r1" "failed" 0 "t2") d)) 0 = Some r'
         /\ status r' = "failed").
Proof.
  intros d.
  set (r := mk_run "r1" "checkout" None "completed" "t0" (Some "t1") 4 0 "/runs/r1").
  split.
  - destruct (proj1 (status_changes_only_by_complete "/runs" (Core.OpProgress "r1" 9 None) d 0 r
                       eq_refl))
      as (r' & Hn & _ & Hs); [discriminate|].
    exists r'. split; [exact Hn | exact Hs].
  - destruct (proj2 (status_changes_only_by_complete "/runs"
                       (Core.OpComplete "r1" "failed" 0 "t2") d 0 r eq_refl)
                "failed" 0 "t2" eq_refl)
      as (r' & Hn & _ & Hs).
    exists r'. split; [exact Hn | exact Hs].
Defined.

(** C2 fails as stated: a run completed as "completed" and then completed
    again as "failed" ends with status "failed". *)
Lemma completed_status_is_overwritten :
  let d := snd (Runs.complete "r1" "completed" 4 "t1"
                  (snd (Runs.start "/runs" "r1" "checkout" None "t0" Db.init_db))) in
  let d' := snd (Runs.complete "r1" "failed" 0 "t2" d) in
  exists r r',
    nth_error (runs d) 0 = Some r /\ status r = "completed"
    /\ nth_error (runs d') 0 = Some r' /\ run_id r' = run_id r
    /\ status r' = "failed" /\ status r' <> status r.
Proof.
  intros d d'. do 2 eexists.
  repeat split; try reflexivity. discriminate.
Qed.

(** ** The simulator pool *)

Lemma fold_left_rel {A B : Type} (P : A -> A -> Prop) (f : A -> B -> A) :
  (forall a, P a a) ->
  (forall a b c, P a b -> P b c -> P a c) ->
  (forall a b, P a (f a b)) ->
  forall l a, P a (fold_left f l a).
Proof.
  intros Hrefl Htrans Hstep l.
  induction l as [|b l IH]; intros a; simpl; [apply Hrefl|].
  exact (Htrans _ _ _ (Hstep a b) (IH (f a b))).
Qed.

Lemma refreshed_rel (P : list simulator_row -> list simulator_row -> Prop) :
  (forall t, P t t) ->
  (forall a b c, P a b -> P b c -> P a c) ->
  (forall now device t, P t (refreshed_one now device t)) ->
  forall now data t, P t (refreshed now data t).
Proof.
  intros Hrefl Htrans Hstep now data t. unfold refreshed.
  apply fold_left_rel; [exact Hrefl | exact Htrans |].
  intros a devices. apply fold_left_rel; [exact Hrefl | exact Htrans |].
  intros b device. apply Hstep.
Qed.

Lemma keeps_busy_refl (t : list simulator_row) : keeps_busy t t.
Proof. intros i r Hi. exists r. repeat split; auto. Qed.

Lemma keeps_busy_trans (a b c : list simulator_row) :
  keeps_busy a b -> keeps_busy b c -> keeps_busy a c.
Proof.
  intros Hab Hbc i r Hi.
  destruct (Hab i r Hi) as (r1 & H1 & Hu1 & Ht1 & Hs1).
  destruct (Hbc i r1 H1) as (r2 & H2 & Hu2 & Ht2 & Hs2).
  exists r2. split; [exact H2|]. split; [congruence|]. split; [congruence|].
  intros Htask Hbusy. apply Hs2; [congruence | exact (Hs1 Htask Hbusy)].
Qed.

Lemma keeps_busy_step (now : string) (device : simctl_device) (t : list simulator_row) :
  keeps_busy t (refreshed_one now device t).
Proof.
  intros i r Hi. unfold refreshed_one, Simulators.upsert.
  destruct (existsb _ t).
  - rewrite update_where_nth, Hi. cbn [option_map].
    destruct (Simulators.at_udid (dev_udid device) r).
    + eexists. split; [reflexivity|]. cbn [Simulators.upsert_set udid current_task state].
      repeat split. intros Htask _. destruct (current_task r); [reflexivity | contradiction].
    + exists r. repeat split; auto.
  - exists r. split; [|repeat split; auto].
    rewrite nth_error_app1; [exact Hi|]. apply nth_error_Some. rewrite Hi. discriminate.
Qed.

(** C7: a simulator row that is busy with a task is still busy, with the
    same task, after [refresh], whatever the inventory lists for its udid
    (booted, shut down, or nothing at all). *)
Theorem refresh_keeps_busy
  (data : simctl_data) (now : string) (d : store) (i : nat) (r : simulator_row)
  (task : string) :
  nth_error (simulators d) i = Some r ->
  current_task r = Some task ->
  state r = busy ->
  exists r',
    nth_error (simulators (snd (Simulators.refresh data now d))) i = Some r'
    /\ udid r' = udid r
    /\ current_task r' = Some task
    /\ state r' = busy.
Proof.
  intros Hi Htask Hbusy.
  destruct (refresh_store data now d) as (res & H). rewrite H. cbn [snd simulators Db.with_simulators].
  destruct (refreshed_rel keeps_busy keeps_busy_refl keeps_busy_trans keeps_busy_step
              now data (simulators d) i r Hi)
    as (r' & Hn & Hu & Ht & Hs).
  exists r'. split; [exact Hn|]. split; [exact Hu|]. split; [congruence|].
  apply Hs; [rewrite Htask; discriminate | exact Hbusy].
Qed.

Lemma refresh_keeps_busy_witness :
  let d := snd (Simulators.acquire "iPhone-393x852" "task-1" "t1"
                  (snd (Simulators.refresh
                          [("iOS-17", [mk_device "A" "iPhone 15 Pro" "Booted"])] "t0"
                          Db.init_db))) in
  exists r',
    nth_error (simulators
                 (snd (Simulators.refresh
                         [("iOS-17", [mk_device "A" "iPhone 15 Pro" "Shutdown"])] "t2" d))) 0
    = Some r'
    /\ udid r' = "A" /\ current_task r' = Some "task-1" /\ state r' = busy.
Proof.
  intros d.
  exact (refresh_keeps_busy [("iOS-17", [mk_device "A" "iPhone 15 Pro" "Shutdown"])] "t2" d 0
           (mk_simulator "A" "iPhone 15 Pro" "iPhone" "393x852" "iPhone-393x852" busy
              (Some "task-1") None "t1")
           "task-1" eq_refl eq_refl eq_refl).
Defined.

Lemma map_udid_update_where (p : simulator_row -> bool) (f : simulator_row -> simulator_row)
  (t : list simulator_row) :
  (forall r, udid (f r) = udid r) ->
  map udid (Db.update_where p f t) = map udid t.
Proof.
  intros Hf. unfold Db.update_where. rewrite map_map. apply map_ext.
  intros r. destruct (p r); [apply Hf | reflexivity].
Qed.

Lemma existsb_at_udid (u : string) (t : list simulator_row) :
  existsb (Simulators.at_udid u) t = false -> ~ In u (map udid t).
Proof.
  intros H Hin. apply in_map_iff in Hin as (r & Hr & Hin).
  assert (E : existsb (Simulators.at_udid u) t = true).
  { apply existsb_exists. exists r. split; [exact Hin|].
    unfold Simulators.at_udid. rewrite Hr. apply String.eqb_refl. }
  rewrite E in H. discriminate H.
Qed.

Lemma fetchone_by_key (t : list simulator_row) :
  NoDup (map udid t) ->
  forall i r,
    nth_error t i = Some r ->
    Db.fetchone (Simulators.at_udid (udid r)) t = Some r.
Proof.
  unfold Db.fetchone.
  induction t as [|x t IH]; intros Hnd i r Hi; [destruct i; discriminate Hi|].
  inversion Hnd as [|? ? Hx Hnd']; subst.
  destruct i as [|i]; simpl in Hi.
  - inversion Hi; subst. simpl. unfold Simulators.at_udid at 1.
    rewrite String.eqb_refl. reflexivity.
  - simpl. unfold Simulators.at_udid at 1.
    destruct (udid x =? udid r)%string eqn:E.
    + apply String.eqb_eq in E. exfalso. apply Hx. rewrite E.
      apply in_map. exact (nth_error_In _ _ Hi).
    + exact (IH Hnd' i r Hi).
Qed.

Lemma refreshed_one_pk (now : string) (device : simctl_device) (t : list simulator_row) :
  NoDup (map udid t) -> NoDup (map udid (refreshed_one now device t)).
Proof.
  intros Hnd. unfold refreshed_one, Simulators.upsert.
  destruct (existsb _ t) eqn:E.
  - rewrite map_udid_update_where; [exact Hnd | reflexivity].
  - rewrite map_app. cbn [map udid].
    apply NoDup_app; [exact Hnd | apply NoDup_cons; [intros [] | apply NoDup_nil] |].
    intros u Hin [<- | []]. exact (existsb_at_udid _ _ E Hin).
Qed.

(** Under the primary key, the rows after the step satisfy the invariant
    wherever the rows before did; a row the step wrote satisfies it
    anyway. *)
Lemma refreshed_one_invariant (now : string) (device : simctl_device)
  (t : list simulator_row) :
  NoDup (map udid t) ->
  forall i r',
    nth_error (refreshed_one now device t) i = Some r' ->
    (forall r, nth_error t i = Some r -> busy_iff_task r) ->
    busy_iff_task r'.
Proof.
  intros Hnd i r' Hi Hinv. unfold refreshed_one, Simulators.upsert in Hi.
  destruct (existsb _ t) eqn:E.
  - rewrite update_where_nth in Hi.
    destruct (nth_error t i) as [r|] eqn:Hr; [|discriminate Hi].
    cbn [option_map] in Hi. inversion Hi as [Hr']. clear Hi.
    destruct (Simulators.at_udid (dev_udid device) r) eqn:K; [|exact (Hinv r eq_refl)].
    apply String.eqb_eq in K. rewrite <- K.
    rewrite (fetchone_by_key t Hnd i r Hr).
    unfold busy_iff_task. cbn [Simulators.upsert_set state current_task].
    destruct (current_task r) as [task|].
    + split; [discriminate | reflexivity].
    + cbn [Py.truthy].
      split; [destruct (dev_state device =? "Booted")%string; discriminate | contradiction].
  - destruct (Nat.lt_ge_cases i (List.length t)) as [Hlt|Hge].
    + rewrite nth_error_app1 in Hi by exact Hlt.
      exact (Hinv r' Hi).
    + rewrite nth_error_app2 in Hi by exact Hge.
      destruct (i - List.length t)%nat as [|k]; [|destruct k; discriminate Hi].
      inversion Hi as [Hr']. clear Hi.
      rewrite (fetchone_absent _ _ E).
      unfold busy_iff_task. cbn [state current_task].
      split; [destruct (dev_state device =? "Booted")%string; discriminate | contradiction].
Qed.

Lemma keeps_invariant_refl (t : list simulator_row) : keeps_invariant t t.
Proof. intros Hnd. split; [exact Hnd|]. intros i r' Hi Hinv. exact (Hinv r' Hi). Qed.

Lemma keeps_invariant_trans (a b c : list simulator_row) :
  keeps_invariant a b -> keeps_invariant b c -> keeps_invariant a c.
Proof.
  intros Hab Hbc Hnd.
  destruct (Hab Hnd) as (Hndb & Hrowb).
  destruct (Hbc Hndb) as (Hndc & Hrowc).
  split; [exact Hndc|].
  intros i r' Hi Hinv. apply (Hrowc i r' Hi).
  intros r Hr. exact (Hrowb i r Hr Hinv).
Qed.

Lemma keeps_invariant_step (now : string) (device : simctl_device) (t : list simulator_row) :
  keeps_invariant t (refreshed_one now device t).
Proof.
  intros Hnd. split; [exact (refreshed_one_pk now device t Hnd)|].
  exact (refreshed_one_invariant now device t Hnd).
Qed.

Lemma update_where_invariant (p : simulator_row -> bool) (f : simulator_row -> simulator_row)
  (t : list simulator_row) :
  (forall r, busy_iff_task (f r)) ->
  (forall r, udid (f r) = udid r) ->
  keeps_invariant t (Db.update_where p f t).
Proof.
  intros Hf Hu Hnd. split; [rewrite map_udid_update_where; assumption|].
  intros i r' Hi Hinv. rewrite update_where_nth in Hi.
  destruct (nth_error t i) as [r|]; [|discriminate Hi].
  cbn [option_map] in Hi. inversion Hi as [Hr'].
  destruct (p r); [apply Hf | exact (Hinv r eq_refl)].
Qed.

(** Operations of the selector cache, of the run counters and of the
    metrics counters leave the [simulators] table alone. *)
Lemma simulators_untouched (RUNS_DIR : string) (o : Core.op) (d : store) :
  match o with
  | Core.OpRefresh _ _ | Core.OpAcquire _ _ _ | Core.OpRelease _ _ _
  | Core.OpStart _ _ _ _ | Core.OpComplete _ _ _ _ => True
  | _ => simulators (Core.exec RUNS_DIR o d) = simulators d
  end.
Proof.
  destruct o; cbn [Core.exec]; try exact I.
  - rewrite learn_store. cbv zeta. cbn [snd]. destruct (existsb _ _); reflexivity.
  - reflexivity.
  - rewrite progress_store. reflexivity.
  - destruct (add_capture_cases id mode byte_count d) as [H|(m & H)]; rewrite H; reflexivity.
  - destruct (add_action_cases id action_type d) as [H|(a & H)]; rewrite H; reflexivity.
  - destruct (clear_store domain d) as (t & H). rewrite H. reflexivity.
  - reflexivity.
  - reflexivity.
Qed.

Lemma exec_keeps_invariant (RUNS_DIR : string) (o : Core.op) (d : store) :
  keeps_invariant (simulators d) (simulators (Core.exec RUNS_DIR o d)).
Proof.
  pose proof (simulators_untouched RUNS_DIR o d) as Hframe.
  destruct o as [? ? ? ? ? ?|? ? ? ?|data now|pool task now|u data now
                |id wf sim now|id st n now|? ? ?|? ? ?|? ?|?|? ?|?];
    try (rewrite Hframe; apply keeps_invariant_refl); cbn [Core.exec].
  - destruct (refresh_store data now d) as (res & H). rewrite H.
    cbn [snd simulators Db.with_simulators].
    apply refreshed_rel;
      [exact keeps_invariant_refl | exact keeps_invariant_trans | exact keeps_invariant_step].
  - rewrite acquire_store. destruct (Db.fetchone _ _) as [row|];
      [|apply keeps_invariant_refl].
    cbn [snd simulators Db.with_simulators].
    apply update_where_invariant; [|reflexivity].
    intros r. split; [discriminate | reflexivity].
  - rewrite release_store. cbn [snd simulators Db.with_simulators].
    apply update_where_invariant; [|reflexivity].
    intros r. unfold busy_iff_task. cbn [Simulators.release_set state current_task].
    split; [destruct (Simulators.still_booted u data); discriminate | contradiction].
  - destruct (start_cases RUNS_DIR id wf sim now d) as [H|(_ & _ & [H|(u & H)] & _)];
      rewrite H; try apply keeps_invariant_refl.
    apply update_where_invariant; [|reflexivity].
    intros r. split; [discriminate | reflexivity].
  - rewrite complete_store. cbn [snd simulators].
    destruct (Db.fetchone _ _) as [row|]; [|apply keeps_invariant_refl].
    destruct (simulator_udid row) as [u|]; [|apply keeps_invariant_refl].
    destruct (Py.truthy (Some u)); [|apply keeps_invariant_refl].
    apply update_where_invariant; [|reflexivity].
    intros r. split; [discriminate | contradiction].
Qed.

(** The primary key of [simulators] holds in the empty store and after every
    operation. *)
Lemma simulators_pk_preserved (RUNS_DIR : string) (o : Core.op) (d : store) :
  simulators_pk Db.init_db
  /\ (simulators_pk d -> simulators_pk (Core.exec RUNS_DIR o d)).
Proof.
  split; [apply NoDup_nil|].
  intros Hpk. exact (proj1 (exec_keeps_invariant RUNS_DIR o d Hpk)).
Qed.

(** C4: after any core operation, [acquire], [release], [refresh], [start]
    and [complete] among them, a simulator row is busy exactly when its
    current_task is set, provided the row at its place before the operation
    was (or there was no such row yet); so the invariant holds for the whole
    table after the operation when it held before. *)
Theorem busy_iff_task_preserved
  (RUNS_DIR : string) (o : Core.op) (d : store) :
  simulators_pk d ->
  (forall i r',
      nth_error (simulators (Core.exec RUNS_DIR o d)) i = Some r' ->
      (forall r, nth_error (simulators d) i = Some r -> busy_iff_task r) ->
      busy_iff_task r')
  /\ (Forall busy_iff_task (simulators d) ->
      Forall busy_iff_task (simulators (Core.exec RUNS_DIR o d))).
Proof.
  intros Hpk.
  destruct (exec_keeps_invariant RUNS_DIR o d Hpk) as (_ & Hrows).
  split; [exact Hrows|].
  intros Hall. apply Forall_forall. intros r' Hin.
  apply In_nth_error in Hin as (i & Hi).
  apply (Hrows i r' Hi). intros r Hr.
  exact (proj1 (Forall_forall _ _) Hall r (nth_error_In _ _ Hr)).
Qed.

Lemma busy_iff_task_preserved_witness :
  let d := snd (Simulators.refresh
                  [("iOS-17", [mk_device "A" "iPhone 15 Pro" "Booted";
                               mk_device "B" "iPad Air 11" "Shutdown"])] "t0" Db.init_db) in
  Forall busy_iff_task
    (simulators (Core.exec "/runs" (Core.OpAcquire "iPhone-393x852" "task-1" "t1") d)).
Proof.
  intros d.
  assert (Hpk : simulators_pk d).
  { unfold simulators_pk. vm_compute.
    repeat constructor; simpl; intuition discriminate. }
  apply (proj2 (busy_iff_task_preserved "/runs"
                  (Core.OpAcquire "iPhone-393x852" "task-1" "t1") d Hpk)).
  vm_compute. repeat constructor; try discriminate; intros H; exfalso; apply H; reflexivity.
Defined.

(** ** Binding and unbinding a simulator *)

Lemma truthy_some (u : string) : u <> "" -> Py.truthy (Some u) = true.
Proof. intros H. apply String.eqb_neq in H. cbn [Py.truthy]. rewrite H. reflexivity. Qed.




(** ** Two callers of [acquire] *)

(** Run alone, the two statements of a caller are [acquire]. *)
Lemma acquire_is_its_two_statements (pool task_id now : string) (d : store) :
  let '(c1, d1) := Concurrent.step pool task_id now Concurrent.AtSelect d in
  let '(c2, d2) := Concurrent.step pool task_id now c1 d1 in
  exists result,
    c2 = Concurrent.Done result
    /\ Simulators.acquire pool task_id now d = (Db.Returned result, d2).
Proof.
  rewrite acquire_store.
  unfold Concurrent.step at 1, Simulators.acquire_select, Db.read.
  destruct (Db.fetchone _ _) as [row|]; cbn.
  - exists (Some (udid row)). split; reflexivity.
  - exists None. split; reflexivity.
Qed.

Lemma acquire_set_not_available (pool task_id now : string) (r : simulator_row) :
  Simulators.available_in pool (Simulators.acquire_set task_id now r) = false.
Proof. unfold Simulators.available_in. cbn. apply andb_false_r. Qed.

Lemma existsb_update_where_in {R : Type} (p q : R -> bool) (f : R -> R) (t : list R) :
  (forall r, In r t -> p (if q r then f r else r) = false) ->
  existsb p (Db.update_where q f t) = false.
Proof.
  unfold Db.update_where.
  induction t as [|x t IH]; simpl; intros H; [reflexivity|].
  rewrite (H x (or_introl eq_refl)), IH; [reflexivity|].
  intros r Hin. apply H. right. exact Hin.
Qed.

Lemma none_left_after_acquire (pool t1 now : string) (d : store) (row : simulator_row) :
  (forall r, In r (simulators d) -> Simulators.available_in pool r = true ->
             udid r = udid row) ->
  Db.fetchone (Simulators.available_in pool)
    (Db.update_where (Simulators.at_udid (udid row)) (Simulators.acquire_set t1 now)
       (simulators d)) = None.
Proof.
  intros Honly. apply fetchone_absent.
  apply existsb_update_where_in. intros r Hin.
  destruct (Simulators.at_udid (udid row) r) eqn:K; [apply acquire_set_not_available|].
  destruct (Simulators.available_in pool r) eqn:A; [|reflexivity].
  apply String.eqb_neq in K. contradiction K. exact (Honly r Hin A).
Qed.

(** One after the other, with one available simulator in the pool, the
    first call gets it and the second gets none. *)
Lemma acquire_one_after_the_other (pool t1 t2 now : string) (d : store) (row : simulator_row) :
  Db.fetchone (Simulators.available_in pool) (simulators d) = Some row ->
  (forall r, In r (simulators d) -> Simulators.available_in pool r = true ->
             udid r = udid row) ->
  fst (Simulators.acquire pool t1 now d) = Db.Returned (Some (udid row))
  /\ fst (Simulators.acquire pool t2 now (snd (Simulators.acquire pool t1 now d)))
     = Db.Returned None.
Proof.
  intros Hrow Honly. rewrite !acquire_store, Hrow. cbn [fst snd simulators Db.with_simulators].
  split; [reflexivity|].
  rewrite (none_left_after_acquire pool t1 now d row Honly). reflexivity.
Qed.

Lemma step_select (pool task_id now : string) (d : store) :
  Concurrent.step pool task_id now Concurrent.AtSelect d
  = match Db.fetchone (Simulators.available_in pool) (simulators d) with
    | Some row => (Concurrent.AtUpdate (udid row), d)
    | None => (Concurrent.Done None, d)
    end.
Proof.
  unfold Concurrent.step, Simulators.acquire_select, Db.read.
  destruct (Db.fetchone _ _); reflexivity.
Qed.

Lemma step_update (pool task_id now u : string) (d : store) :
  Concurrent.step pool task_id now (Concurrent.AtUpdate u) d
  = (Concurrent.Done (Some u),
     Db.with_simulators d
       (Db.update_where (Simulators.at_udid u) (Simulators.acquire_set task_id now)
          (simulators d))).
Proof. reflexivity. Qed.

(** The same holds in the model of two callers when one runs both its
    statements before the other starts. *)
Lemma serial_schedule_is_exclusive (pool t1 t2 now : string) (d : store)
  (row : simulator_row) :
  Db.fetchone (Simulators.available_in pool) (simulators d) = Some row ->
  (forall r, In r (simulators d) -> Simulators.available_in pool r = true ->
             udid r = udid row) ->
  let c := Concurrent.both_acquire pool t1 t2 now
             [Concurrent.first; Concurrent.first; Concurrent.second; Concurrent.second] d in
  Concurrent.pc1 c = Concurrent.Done (Some (udid row))
  /\ Concurrent.pc2 c = Concurrent.Done None.
Proof.
  intros Hrow Honly.
  unfold Concurrent.both_acquire.
  cbn [Concurrent.run Concurrent.pc1 Concurrent.pc2 Concurrent.shared].
  rewrite step_select, Hrow.
  cbn [Concurrent.run Concurrent.pc1 Concurrent.pc2 Concurrent.shared].
  rewrite step_update.
  cbn [Concurrent.run Concurrent.pc1 Concurrent.pc2 Concurrent.shared].
  rewrite step_select. cbn [simulators Db.with_simulators].
  rewrite (none_left_after_acquire pool t1 now d row Honly).
  cbn. split; reflexivity.
Qed.

(** C1 fails on the code: [acquire] is a SELECT followed by an UPDATE that
    names the udid only.  When both callers run their SELECT before either
    runs its UPDATE, both get the udid of the one available simulator, and
    the row ends up with the task of the caller that wrote last. *)
Theorem interleaved_acquire_hands_out_twice (p t1 t2 now : string) (d : store)
  (row : simulator_row) :
  Db.fetchone (Simulators.available_in p) (simulators d) = Some row ->
  let c := Concurrent.both_acquire p t1 t2 now
             [Concurrent.first; Concurrent.second; Concurrent.first; Concurrent.second] d in
  Concurrent.pc1 c = Concurrent.Done (Some (udid row))
  /\ Concurrent.pc2 c = Concurrent.Done (Some (udid row))
  /\ (forall i r,
         nth_error (simulators d) i = Some r -> udid r = udid row ->
         nth_error (simulators (Concurrent.shared c)) i
         = Some (mk_simulator (udid r) (name r) (device_type r) (screen_size r) (pool r)
                   busy (Some t2) (port r) now)).
Proof.
  intros Hrow.
  unfold Concurrent.both_acquire.
  cbn [Concurrent.run Concurrent.pc1 Concurrent.pc2 Concurrent.shared].
  rewrite step_select, Hrow.
  cbn [Concurrent.run Concurrent.pc1 Concurrent.pc2 Concurrent.shared].
  rewrite step_select, Hrow.
  cbn [Concurrent.run Concurrent.pc1 Concurrent.pc2 Concurrent.shared].
  rewrite !step_update.
  cbn [Concurrent.run Concurrent.pc1 Concurrent.pc2 Concurrent.shared
         simulators Db.with_simulators].
  split; [reflexivity|]. split; [reflexivity|].
  intros i r Hi Hu.
  rewrite !update_where_nth, Hi. cbn [option_map].
  assert (K : Simulators.at_udid (udid row) r = true).
  { unfold Simulators.at_udid. rewrite Hu. apply String.eqb_refl. }
  rewrite K.
  assert (K' : Simulators.at_udid (udid row) (Simulators.acquire_set t1 now r) = true)
    by exact K.
  rewrite K'. reflexivity.
Qed.

Lemma interleaved_acquire_hands_out_twice_witness :
  let d := snd (Simulators.refresh
                  [("iOS-17", [mk_device "A" "iPhone 15 Pro" "Booted";
                               mk_device "B" "iPad Air 11" "Booted"])] "t0" Db.init_db) in
  let c := Concurrent.both_acquire "iPhone-393x852" "task-1" "task-2" "t1"
             [Concurrent.first; Concurrent.second; Concurrent.first; Concurrent.second] d in
  Concurrent.pc1 c = Concurrent.Done (Some "A")
  /\ Concurrent.pc2 c = Concurrent.Done (Some "A")
  /\ nth_error (simulators (Concurrent.shared c)) 0
     = Some (mk_simulator "A" "iPhone 15 Pro" "iPhone" "393x852" "iPhone-393x852"
               busy (Some "task-2") None "t1").
Proof.
  intros d.
  destruct (interleaved_acquire_hands_out_twice "iPhone-393x852" "task-1" "task-2" "t1" d
              (mk_simulator "A" "iPhone 15 Pro" "iPhone" "393x852" "iPhone-393x852"
                 available None None "t0")
              eq_refl)
    as (H1 & H2 & H3).
  split; [exact H1|]. split; [exact H2|].
  exact (H3 0%nat _ eq_refl eq_refl).
Defined.

(** ** The foreign key of the metrics table *)

Lemma existsb_at_id_update_where (x : string) (p : run_row -> bool) (f : run_row -> run_row)
  (t : list run_row) :
  (forall r, run_id (f r) = run_id r) ->
  existsb (Runs.at_id x) (Db.update_where p f t) = existsb (Runs.at_id x) t.
Proof.
  intros Hf. unfold Db.update_where.
  induction t as [|r t IH]; simpl; [reflexivity|].
  rewrite IH. f_equal. unfold Runs.at_id. destruct (p r); [rewrite Hf|]; reflexivity.
Qed.

Lemma in_update_where {R : Type} (p : R -> bool) (f : R -> R) (t : list R) (r' : R) :
  In r' (Db.update_where p f t) -> exists r, In r t /\ (r' = r \/ r' = f r).
Proof.
  unfold Db.update_where. intros H. apply in_map_iff in H as (r & Hr & Hin).
  exists r. split; [exact Hin|]. destruct (p r); [right | left]; symmetry; exact Hr.
Qed.

Lemma metrics_fk_update_metrics (d : store) (p : metrics_row -> bool)
  (f : metrics_row -> metrics_row) :
  (forall m, m_run_id (f m) = m_run_id m) ->
  metrics_fk d -> metrics_fk (Db.with_metrics d (Db.update_where p f (metrics d))).
Proof.
  intros Hf Hfk m' Hin. cbn [metrics runs Db.with_metrics] in *.
  apply in_update_where in Hin as (m & Hin & [-> | ->]); [|rewrite Hf]; exact (Hfk m Hin).
Qed.

Lemma metrics_fk_update_runs (d : store) (t : list simulator_row) (p : run_row -> bool)
  (f : run_row -> run_row) :
  (forall r, run_id (f r) = run_id r) ->
  metrics_fk d ->
  metrics_fk (mk_store (selectors d) (selectors_seq d) t
                (Db.update_where p f (runs d)) (metrics d)).
Proof.
  intros Hf Hfk m Hin. cbn [metrics runs] in *.
  rewrite existsb_at_id_update_where by exact Hf. exact (Hfk m Hin).
Qed.

Lemma metrics_fk_frame (d d' : store) :
  runs d' = runs d -> metrics d' = metrics d -> metrics_fk d -> metrics_fk d'.
Proof. intros Hr Hm Hfk m Hin. rewrite Hr. rewrite Hm in Hin. exact (Hfk m Hin). Qed.

(** The foreign key of [metrics] holds in the empty store and after every
    operation. *)
Lemma metrics_fk_preserved (RUNS_DIR : string) (o : Core.op) (d : store) :
  metrics_fk Db.init_db
  /\ (metrics_fk d -> metrics_fk (Core.exec RUNS_DIR o d)).
Proof.
  split; [intros m []|]. intros Hfk.
  destruct o as [? ? ? ? ? ?|? ? ? ?|data now|pool task now|u data now
                |id wf sim now|id st n now|id cs ts|id mode b|id a|dom|? ?|?];
    cbn [Core.exec].
  - apply (metrics_fk_frame d); [| |exact Hfk];
      rewrite learn_store; cbv zeta; cbn [snd]; destruct (existsb _ _); reflexivity.
  - apply (metrics_fk_frame d); [reflexivity | reflexivity | exact Hfk].
  - destruct (refresh_store data now d) as (res & H). rewrite H.
    apply (metrics_fk_frame d); [reflexivity | reflexivity | exact Hfk].
  - apply (metrics_fk_frame d); [| |exact Hfk];
      rewrite acquire_store; destruct (Db.fetchone _ _); reflexivity.
  - apply (metrics_fk_frame d); [reflexivity | reflexivity | exact Hfk].
  - destruct (start_cases RUNS_DIR id wf sim now d) as [H|(_ & _ & _ & Hr & Hm)].
    + rewrite H. exact Hfk.
    + intros m Hin. rewrite Hr, existsb_app. rewrite Hm in Hin.
      apply in_app_or in Hin as [Hin|[<-|[]]].
      * rewrite (Hfk m Hin). reflexivity.
      * cbn. rewrite String.eqb_refl. apply orb_true_r.
  - rewrite complete_store. cbn [snd].
    apply metrics_fk_update_runs; [reflexivity | exact Hfk].
  - rewrite progress_store. cbn [snd].
    apply (metrics_fk_update_runs d (simulators d)); [reflexivity | exact Hfk].
  - destruct (add_capture_cases id mode b d) as [H|(m & H)]; rewrite H; [exact Hfk|].
    apply metrics_fk_update_metrics; [reflexivity | exact Hfk].
  - destruct (add_action_cases id a d) as [H|(k & H)]; rewrite H; [exact Hfk|].
    apply metrics_fk_update_metrics; [reflexivity | exact Hfk].
  - destruct (clear_store dom d) as (t & H). rewrite H.
    apply (metrics_fk_frame d); [reflexivity | reflexivity | exact Hfk].
  - exact Hfk.
  - exact Hfk.
Qed.


(** * Further properties of the selector cache *)

Lemma prefix_inv (p s : string) :
  String.prefix p s = true -> exists t, s = (p ++ t)%string.
Proof.
  revert s. induction p as [|c p IH]; intros s H.
  - exists s. reflexivity.
  - destruct s as [|c' s]; simpl in H; [discriminate H|].
    destruct (ascii_dec c c') as [->|_]; [|discriminate H].
    destruct (IH s H) as (t & ->). exists t. reflexivity.
Qed.

Lemma no_delim_no_scheme (s : string) : no_delim s = true -> has_scheme s = false.
Proof.
  intros H. unfold has_scheme, Py.startswith.
  destruct (String.prefix "http://" s) eqn:E1.
  - apply prefix_inv in E1 as (t & ->). discriminate H.
  - destruct (String.prefix "https://" s) eqn:E2; [|reflexivity].
    apply prefix_inv in E2 as (t & ->). discriminate H.
Qed.

Lemma take_netloc_no_delim (s : string) : no_delim (Urllib.take_netloc s) = true.
Proof.
  induction s as [|c s IH]; simpl; [reflexivity|].
  destruct (Urllib.is_delim c) eqn:E; simpl; [reflexivity|].
  rewrite E, IH. reflexivity.
Qed.

Lemma drop_no_delim (n : nat) (s : string) : no_delim s = true -> no_delim (Py.drop n s) = true.
Proof.
  revert s. induction n as [|n IH]; intros s H; [exact H|].
  destruct s as [|c s]; simpl in *; [reflexivity|].
  apply andb_true_iff in H as [_ H]. exact (IH s H).
Qed.

Lemma extract_domain_no_delim (url : string) :
  has_scheme url = true -> no_delim (Selectors._extract_domain url) = true.
Proof.
  intros H. unfold Selectors._extract_domain. fold (has_scheme url). rewrite H. cbn [negb].
  assert (N : no_delim (Urllib.netloc url) = true).
  { unfold Urllib.netloc. destruct (Py.startswith "//" _); [apply take_netloc_no_delim|reflexivity]. }
  destruct (Py.startswith "www." _); [apply drop_no_delim|]; exact N.
Qed.

Lemma extract_domain_no_scheme (url : string) :
  has_scheme (Selectors._extract_domain url) = false.
Proof.
  destruct (has_scheme url) eqn:E.
  - apply no_delim_no_scheme, extract_domain_no_delim, E.
  - unfold Selectors._extract_domain. fold (has_scheme url). rewrite E. exact E.
Qed.

(** X1: the key [_extract_domain] gives never starts with "http://" or
    "https://", and holds none of "/", "?", "#" when the input had a scheme;
    so normalising a key again gives the same key. *)
Theorem extract_domain_idempotent (url : string) :
  has_scheme (Selectors._extract_domain url) = false
  /\ (has_scheme url = true -> no_delim (Selectors._extract_domain url) = true)
  /\ Selectors._extract_domain (Selectors._extract_domain url)
     = Selectors._extract_domain url.
Proof.
  split; [apply extract_domain_no_scheme|]. split; [apply extract_domain_no_delim|].
  pose proof (extract_domain_no_scheme url) as H.
  unfold Selectors._extract_domain at 1.
  fold (has_scheme (Selectors._extract_domain url)). rewrite H. reflexivity.
Qed.

Lemma extract_domain_idempotent_witness :
  no_delim (Selectors._extract_domain "https://www.shop.example/cart?x=1") = true.
Proof.
  apply (proj1 (proj2 (extract_domain_idempotent "https://www.shop.example/cart?x=1"))).
  reflexivity.
Defined.

(** What an operation can do to the [selectors] table: nothing, rewrite
    rows in place keeping their key and not lowering a count, append the row
    of a first [learn], or delete rows. *)
Lemma exec_selectors_cases (RUNS_DIR : string) (o : Core.op) (d : store) :
  let t := selectors d in
  let t' := selectors (Core.exec RUNS_DIR o d) in
  t' = t
  \/ (exists p f,
        t' = Db.update_where p f t
        /\ forall r, selector_key (f r) = selector_key r
                     /\ success_count r <= success_count (f r)
                     /\ fail_count r <= fail_count (f r))
  \/ (exists id action selector url a now ts,
        existsb (Selectors.at_key (Selectors._extract_domain url) action) t = false
        /\ t' = t ++ [mk_selector id (Selectors._extract_domain url) action selector 1 0 a
                        (Some now) None ts])
  \/ (exists p, t' = filter p t).
Proof.
  intros t t'. subst t t'.
  destruct o as [action selector url a now ts|action selector url now|data now
                |pool task now|u data now|id wf sim now|id st n now|id cs ts|id mode b
                |id a|dom|? ?|?];
    cbn [Core.exec].
  - rewrite learn_store. cbv zeta. cbn [snd].
    destruct (existsb _ (selectors d)) eqn:E; cbn [selectors Db.with_selectors].
    + right; left. do 2 eexists. split; [reflexivity|].
      intros r. cbn. repeat split; lia.
    + right; right; left. do 7 eexists. split; [exact E | reflexivity].
  - rewrite fail_store. cbn [snd selectors Db.with_selectors].
    right; left. do 2 eexists. split; [reflexivity|].
    intros r. cbn. repeat split; lia.
  - destruct (refresh_store data now d) as (res & H). rewrite H. left. reflexivity.
  - rewrite acquire_store. destruct (Db.fetchone _ _); left; reflexivity.
  - left. reflexivity.
  - destruct (start_cases RUNS_DIR id wf sim now d) as [H|(H & _)]; rewrite H; left; reflexivity.
  - rewrite complete_store. left. reflexivity.
  - rewrite progress_store. left. reflexivity.
  - destruct (add_capture_cases id mode b d) as [H|(m & H)]; rewrite H; left; reflexivity.
  - destruct (add_action_cases id a d) as [H|(k & H)]; rewrite H; left; reflexivity.
  - right; right; right.
    unfold Selectors.clear, Db.transaction, Db.bind, Selectors.execute_delete.
    destruct dom as [dom|]; [destruct (Py.truthy (Some dom))|]; eexists; reflexivity.
  - left. reflexivity.
  - left. reflexivity.
Qed.

Lemma map_key_update_where (p : selector_row -> bool) (f : selector_row -> selector_row)
  (t : list selector_row) :
  (forall r, selector_key (f r) = selector_key r) ->
  map selector_key (Db.update_where p f t) = map selector_key t.
Proof.
  intros Hf. unfold Db.update_where. rewrite map_map. apply map_ext.
  intros r. destruct (p r); [apply Hf | reflexivity].
Qed.

Lemma at_key_absent (domain action : string) (t : list selector_row) :
  existsb (Selectors.at_key domain action) t = false ->
  ~ In (domain, action) (map selector_key t).
Proof.
  intros H Hin. apply in_map_iff in Hin as (r & Hr & Hin).
  assert (E : existsb (Selectors.at_key domain action) t = true).
  { apply existsb_exists. exists r. split; [exact Hin|].
    unfold selector_key in Hr. inversion Hr as [[Hd Ha]].
    unfold Selectors.at_key. rewrite !String.eqb_refl. reflexivity. }
  rewrite E in H. discriminate H.
Qed.

Lemma keys_distinct_after_delete {R K : Type} (key : R -> K) (keep : R -> bool)
  (t : list R) (Hkeys : NoDup (map key t)) :
  NoDup (map key (filter keep t)).
Proof.
  induction t as [|r t IH]; [exact Hkeys|].
  inversion Hkeys as [|? ? Hr Ht]; subst. cbn [filter].
  destruct (keep r); [|exact (IH Ht)].
  cbn [map]. apply NoDup_cons; [|exact (IH Ht)].
  intros Hin. apply Hr. apply in_map_iff in Hin as (y & Hy & Hin).
  apply in_map_iff. exists y. split; [exact Hy|]. apply filter_In in Hin. tauto.
Qed.

(** X2: the store never holds two selector rows for one (domain, action):
    that holds in the empty store and is kept by every operation, [learn]
    included, which inserts a row only when its UPDATE matched none. *)
Theorem selectors_unique_preserved (RUNS_DIR : string) (o : Core.op) (d : store) :
  selectors_unique Db.init_db
  /\ (selectors_unique d -> selectors_unique (Core.exec RUNS_DIR o d)).
Proof.
  split; [apply NoDup_nil|]. unfold selectors_unique. intros Hu.
  destruct (exec_selectors_cases RUNS_DIR o d)
    as [H|[(p & f & H & Hf)|[(id & action & selector & url & a & now & ts & E & H)|(p & H)]]];
    rewrite H.
  - exact Hu.
  - rewrite map_key_update_where; [exact Hu|]. intros r. apply Hf.
  - rewrite map_app. cbn [map selector_key sel_domain sel_action].
    apply NoDup_app; [exact Hu | apply NoDup_cons; [intros [] | apply NoDup_nil] |].
    intros k Hin [<- | []]. exact (at_key_absent _ _ _ E Hin).
  - apply keys_distinct_after_delete. exact Hu.
Qed.

Lemma selectors_unique_preserved_witness :
  selectors_unique
    (Core.exec "/runs" (Core.OpLearn "search" "#q2" "https://www.example.com" None "t1" "c1")
       (snd (Selectors.learn "search" "#q" "example.com" None "t0" "c0" Db.init_db))).
Proof.
  apply (proj2 (selectors_unique_preserved "/runs"
                  (Core.OpLearn "search" "#q2" "https://www.example.com" None "t1" "c1")
                  (snd (Selectors.learn "search" "#q" "example.com" None "t0" "c0" Db.init_db)))).
  unfold selectors_unique. vm_compute. repeat constructor. intros [].
Defined.

Lemma recall_store (action url : string) (d : store) :
  Selectors.recall action url d
  = (Db.Returned
       (option_map
          (fun row =>
             Selectors.mk_recall_result (sel_selector row) (success_count row) (fail_count row)
               (inject_Z (success_count row)
                / inject_Z (Z.max 1 (success_count row + fail_count row)))%Q
               (match sel_attributes row with Some a => a | None => [] end))
          (Db.fetchone (Selectors.at_key (Selectors._extract_domain url) action)
             (selectors d))),
     d).
Proof.
  unfold Selectors.recall, Db.transaction, Db.bind, Db.read, Db.ret.
  destruct (Db.fetchone _ _); reflexivity.
Qed.

Lemma fetchone_present {R : Type} (p : R -> bool) (t : list R) (r : R) :
  Db.fetchone p t = Some r -> existsb p t = true.
Proof.
  intros H. apply find_some in H as [Hin Hp].
  apply existsb_exists. exists r. split; assumption.
Qed.

Lemma fetchone_skips_appended {R : Type} (p : R -> bool) (t : list R) (r : R) :
  p r = false -> Db.fetchone p (t ++ [r]) = Db.fetchone p t.
Proof.
  unfold Db.fetchone. intros Hr.
  induction t as [|x t IH]; simpl; [rewrite Hr; reflexivity|].
  destruct (p x); [reflexivity | exact IH].
Qed.

Lemma fetchone_update_elsewhere {R : Type} (p q : R -> bool) (f : R -> R) (t : list R) :
  (forall r, p (f r) = p r) ->
  (forall r, p r = true -> q r = false) ->
  Db.fetchone p (Db.update_where q f t) = Db.fetchone p t.
Proof.
  unfold Db.fetchone, Db.update_where. intros Hf Hpq.
  induction t as [|x t IH]; simpl; [reflexivity|].
  destruct (q x) eqn:Q.
  - rewrite Hf. destruct (p x) eqn:P; [|exact IH].
    rewrite (Hpq x P) in Q. discriminate Q.
  - destruct (p x); [reflexivity | exact IH].
Qed.

Lemma at_key_other (domain action domain' action' : string) (r : selector_row) :
  domain' <> domain \/ action' <> action ->
  Selectors.at_key domain' action' r = true ->
  Selectors.at_key domain action r = false.
Proof.
  unfold Selectors.at_key. intros Hne H.
  apply andb_true_iff in H as [Hd Ha].
  apply String.eqb_eq in Hd, Ha. rewrite Hd, Ha.
  destruct Hne as [Hne|Hne]; apply String.eqb_neq in Hne; rewrite Hne;
    [reflexivity | apply andb_false_r].
Qed.

(** X3: [recall] after [learn] gives the selector just learned.  If [recall]
    found nothing before, it now reports 1 success and 0 failures; if it
    found a record, the success count is one higher, the failure count is
    the same, and the attributes are the given ones when these are a
    non-empty dictionary and the stored ones otherwise.  What [recall]
    reports for any other (domain, action) is not changed by the [learn]. *)
Theorem recall_after_learn
  (action selector url : string) (attributes : option attrs) (now ts : string) (d : store) :
  let d' := snd (Selectors.learn action selector url attributes now ts d) in
  let given := match attributes with Some ((_ :: _) as a) => Some a | _ => None end in
  (fst (Selectors.recall action url d) = Db.Returned None ->
   fst (Selectors.recall action url d')
   = Db.Returned
       (Some (Selectors.mk_recall_result selector 1 0 1%Q
                (match given with Some a => a | None => [] end))))
  /\ (forall res,
         fst (Selectors.recall action url d) = Db.Returned (Some res) ->
         exists res',
           fst (Selectors.recall action url d') = Db.Returned (Some res')
           /\ Selectors.rc_selector res' = selector
           /\ Selectors.rc_success_count res' = Selectors.rc_success_count res + 1
           /\ Selectors.rc_fail_count res' = Selectors.rc_fail_count res
           /\ Selectors.rc_attributes res'
              = match given with Some a => a | None => Selectors.rc_attributes res end)
  /\ (forall action' url',
         Selectors._extract_domain url' <> Selectors._extract_domain url
         \/ action' <> action ->
         fst (Selectors.recall action' url' d') = fst (Selectors.recall action' url' d)).
Proof.
  intros d' given. subst d'. rewrite !recall_store. cbn [fst].
  set (domain := Selectors._extract_domain url).
  pose proof (learn_store action selector url attributes now ts d) as L.
  cbv zeta in L. fold domain in L. fold given in L. rewrite L. cbn [snd]. clear L.
  split; [|split].
  - intros H.
    destruct (Db.fetchone (Selectors.at_key domain action) (selectors d)) as [row|] eqn:F;
      [discriminate H|].
    assert (E : existsb (Selectors.at_key domain action) (selectors d) = false).
    { destruct (existsb _ _) eqn:E; [|reflexivity].
      apply existsb_exists in E as (r & Hin & Hr).
      rewrite (find_none _ _ F r Hin) in Hr. discriminate Hr. }
    rewrite E. cbn [fst selectors Db.with_selectors].
    rewrite (fetchone_appended _ _ _ E).
    + reflexivity.
    + unfold Selectors.at_key. cbn. rewrite !String.eqb_refl. reflexivity.
  - intros res H.
    destruct (Db.fetchone (Selectors.at_key domain action) (selectors d)) as [row|] eqn:F;
      [|discriminate H].
    cbn [option_map] in H. inversion H as [Hres]. clear H.
    rewrite (fetchone_present _ _ _ F). cbn [fst selectors Db.with_selectors].
    rewrite fetchone_update_where, F.
    + cbn [option_map]. apply find_some in F as [_ K]. rewrite K.
      eexists. split; [reflexivity|]. cbn.
      repeat split. destruct given; reflexivity.
    + intros r. destruct (Selectors.at_key domain action r) eqn:K; exact K.
  - intros action' url' Hne.
    destruct (existsb (Selectors.at_key domain action) (selectors d)) eqn:E;
      rewrite !recall_store; cbn [fst selectors Db.with_selectors].
    + rewrite fetchone_update_elsewhere; [reflexivity | reflexivity |].
      intros r. apply at_key_other. exact Hne.
    + rewrite fetchone_skips_appended; [reflexivity|].
      destruct (Selectors.at_key (Selectors._extract_domain url') action' _) eqn:K;
        [|reflexivity].
      apply (at_key_other domain action) in K; [|exact Hne].
      unfold Selectors.at_key in K. cbn in K. rewrite !String.eqb_refl in K. discriminate K.
Qed.

Lemma recall_after_learn_witness :
  let d := snd (Selectors.learn "search" "#q" "example.com" (Some [("role", "textbox")])
                  "t0" "c0" Db.init_db) in
  fst (Selectors.recall "search" "https://www.example.com"
         (snd (Selectors.learn "search" "#q" "example.com" (Some [("role", "textbox")])
                 "t0" "c0" Db.init_db)))
  = Db.Returned (Some (Selectors.mk_recall_result "#q" 1 0 1%Q [("role", "textbox")]))
  /\ (exists res',
         fst (Selectors.recall "search" "example.com"
                (snd (Selectors.learn "search" "#q2" "example.com" None "t1" "c1" d)))
         = Db.Returned (Some res')
         /\ Selectors.rc_selector res' = "#q2"
         /\ Selectors.rc_success_count res' = 2
         /\ Selectors.rc_attributes res' = [("role", "textbox")])
  /\ fst (Selectors.recall "login" "example.com"
            (snd (Selectors.learn "search" "#q2" "example.com" None "t1" "c1" d)))
     = fst (Selectors.recall "login" "example.com" d).
Proof.
  intros d. split; [|split].
  - exact (proj1 (recall_after_learn "search" "#q" "example.com" (Some [("role", "textbox")])
                    "t0" "c0" Db.init_db) eq_refl).
  - destruct (proj1 (proj2 (recall_after_learn "search" "#q2" "example.com" None "t1" "c1" d))
                (Selectors.mk_recall_result "#q" 1 0 1%Q [("role", "textbox")]) eq_refl)
      as (res' & H & Hs & Hc & _ & Ha).
    exists res'. repeat split; assumption.
  - apply (proj2 (proj2 (recall_after_learn "search" "#q2" "example.com" None "t1" "c1" d))).
    right. discriminate.
Defined.

Lemma clear_exact (domain : option string) (d : store) :
  let p := match domain with
           | Some s => if negb (s =? "")%string
                       then fun r => (sel_domain r =? s)%string
                       else fun _ => true
           | None => fun _ => true
           end in
  Selectors.clear domain d
  = (Db.Returned (Selectors.mk_clear_result (Db.rowcount p (selectors d))),
     Db.with_selectors d (filter (fun r => negb (p r)) (selectors d)) (selectors_seq d)).
Proof.
  unfold Selectors.clear, Db.transaction, Db.bind, Selectors.execute_delete.
  destruct domain as [s|]; [cbn [Py.truthy]; destruct (negb (s =? "")%string)|]; reflexivity.
Qed.

Lemma fetchone_filter_none {R : Type} (p q : R -> bool) (t : list R) :
  (forall r, p r = true -> q r = false) -> Db.fetchone p (filter q t) = None.
Proof.
  unfold Db.fetchone. intros H.
  induction t as [|x t IH]; simpl; [reflexivity|].
  destruct (q x) eqn:Q; [|exact IH]. simpl.
  destruct (p x) eqn:P; [|exact IH]. rewrite (H x P) in Q. discriminate Q.
Qed.

Lemma fetchone_filter_same {R : Type} (p q : R -> bool) (t : list R) :
  (forall r, p r = true -> q r = true) -> Db.fetchone p (filter q t) = Db.fetchone p t.
Proof.
  unfold Db.fetchone. intros H.
  induction t as [|x t IH]; simpl; [reflexivity|].
  destruct (p x) eqn:P.
  - rewrite (H x P). simpl. rewrite P. reflexivity.
  - destruct (q x); [simpl; rewrite P|]; exact IH.
Qed.

Lemma rowcount_and_rest {R : Type} (p : R -> bool) (t : list R) :
  (Db.rowcount p t + List.length (filter (fun r => negb (p r)) t) = List.length t)%nat.
Proof.
  unfold Db.rowcount. induction t as [|x t IH]; simpl; [reflexivity|].
  destruct (p x); simpl; lia.
Qed.

Lemma filter_nothing {R : Type} (t : list R) : filter (fun _ : R => negb true) t = [].
Proof. induction t as [|x t IH]; simpl; [reflexivity | exact IH]. Qed.

Lemma rowcount_all {R : Type} (t : list R) : Db.rowcount (fun _ : R => true) t = List.length t.
Proof. unfold Db.rowcount. induction t as [|x t IH]; simpl; [reflexivity | f_equal; exact IH]. Qed.

(** X4: after [clear] with a non-empty domain, [recall] finds nothing under
    that domain and reports what it did before under every other domain;
    the count returned is the number of rows that went away, and no other
    table changes.  [clear] with no domain, or with the empty string,
    removes every row. *)
Theorem clear_forgets_domain (domain : string) (d : store) :
  domain <> "" ->
  let d' := snd (Selectors.clear (Some domain) d) in
  (forall action url,
      Selectors._extract_domain url = domain ->
      fst (Selectors.recall action url d') = Db.Returned None)
  /\ (forall action url,
         Selectors._extract_domain url <> domain ->
         fst (Selectors.recall action url d') = fst (Selectors.recall action url d))
  /\ (exists n,
         fst (Selectors.clear (Some domain) d) = Db.Returned (Selectors.mk_clear_result n)
         /\ (n + List.length (selectors d') = List.length (selectors d))%nat)
  /\ simulators d' = simulators d /\ runs d' = runs d /\ metrics d' = metrics d
  /\ Selectors.clear None d
     = (Db.Returned (Selectors.mk_clear_result (List.length (selectors d))),
        Db.with_selectors d [] (selectors_seq d))
  /\ Selectors.clear (Some "") d = Selectors.clear None d.
Proof.
  intros Hne d'. subst d'.
  pose proof (clear_exact (Some domain) d) as C. cbv beta iota zeta in C.
  apply String.eqb_neq in Hne. rewrite Hne in C. cbn [negb] in C. rewrite C. clear C.
  cbn [fst snd selectors simulators runs metrics Db.with_selectors].
  split; [|split; [|split; [|split; [reflexivity|split; [reflexivity|split; [reflexivity|split]]]]]].
  - intros action url Hd. rewrite recall_store. cbn [fst selectors Db.with_selectors]. rewrite Hd.
    rewrite fetchone_filter_none; [reflexivity|].
    intros r K. unfold Selectors.at_key in K. apply andb_true_iff in K as [K _].
    rewrite K. reflexivity.
  - intros action url Hd. rewrite !recall_store. cbn [fst selectors Db.with_selectors].
    rewrite fetchone_filter_same; [reflexivity|].
    intros r K. unfold Selectors.at_key in K. apply andb_true_iff in K as [K _].
    apply String.eqb_eq in K. rewrite K.
    apply String.eqb_neq in Hd. rewrite Hd. reflexivity.
  - eexists. split; [reflexivity|]. apply rowcount_and_rest.
  - pose proof (clear_exact None d) as C. cbv beta iota zeta in C. rewrite C.
    rewrite rowcount_all, filter_nothing. reflexivity.
  - rewrite (clear_exact (Some "") d), (clear_exact None d). reflexivity.
Qed.

Lemma clear_forgets_domain_witness :
  let d := snd (Selectors.learn "search" "#s" "other.example" None "t1" "c1"
                  (snd (Selectors.learn "search" "#q" "https://www.example.com" None "t0" "c0"
                          Db.init_db))) in
  let d' := snd (Selectors.clear (Some "example.com") d) in
  fst (Selectors.recall "search" "https://example.com/cart" d') = Db.Returned None
  /\ fst (Selectors.recall "search" "other.example" d')
     = fst (Selectors.recall "search" "other.example" d).
Proof.
  intros d d'.
  assert (Hne : "example.com" <> "") by discriminate.
  destruct (clear_forgets_domain "example.com" d Hne) as (Hgone & Hkept & _).
  split; [apply Hgone; reflexivity | apply Hkept; discriminate].
Defined.





(** X6: every stored selector has at least one success and no negative
    failure count (true in the empty store, kept by every operation), so the
    reliability [recall] reports is above 0 and at most 1. *)
Theorem reliability_is_a_fraction (RUNS_DIR : string) (o : Core.op) (d : store) :
  counts_ok Db.init_db
  /\ (counts_ok d -> counts_ok (Core.exec RUNS_DIR o d))
  /\ (counts_ok d ->
      forall action url res,
        fst (Selectors.recall action url d) = Db.Returned (Some res) ->
        1 <= Selectors.rc_success_count res
        /\ 0 <= Selectors.rc_fail_count res
        /\ (0 < Selectors.reliability res)%Q
        /\ (Selectors.reliability res <= 1)%Q).
Proof.
  split; [intros r []|]. split.
  - intros Hc. unfold counts_ok in *.
    destruct (exec_selectors_cases RUNS_DIR o d)
      as [H|[(p & f & H & Hf)|[(id & action & selector & u & a & now & ts & E & H)|(p & H)]]];
      rewrite H; intros r Hin.
    + exact (Hc r Hin).
    + apply in_update_where in Hin as (r0 & Hin & [-> | ->]); [exact (Hc r0 Hin)|].
      destruct (Hf r0) as (_ & Hs & Hfl). specialize (Hc r0 Hin). lia.
    + apply in_app_or in Hin as [Hin|[<-|[]]]; [exact (Hc r Hin)|]. cbn. lia.
    + apply filter_In in Hin as [Hin _]. exact (Hc r Hin).
  - intros Hc action url res H. rewrite recall_store in H. cbn [fst] in H.
    destruct (Db.fetchone _ _) as [row|] eqn:F; [|discriminate H].
    apply find_some in F as [Hin _]. destruct (Hc row Hin) as [Hs Hf].
    cbn [option_map] in H. inversion H as [Hres]. clear H. cbn.
    split; [exact Hs|]. split; [exact Hf|].
    assert (M : Z.max 1 (success_count row + fail_count row)
                = success_count row + fail_count row) by lia.
    rewrite M.
    destruct (success_count row + fail_count row) as [|q|q] eqn:T; try lia.
    unfold Qlt, Qle, Qdiv, Qmult, Qinv, inject_Z. cbn. split; lia.
Qed.

Lemma reliability_is_a_fraction_witness :
  let d := snd (Selectors.fail "search" "#q" "example.com" "t1"
                  (snd (Selectors.learn "search" "#q" "example.com" None "t0" "c0"
                          Db.init_db))) in
  exists res,
    fst (Selectors.recall "search" "example.com" d) = Db.Returned (Some res)
    /\ (0 < Selectors.reliability res)%Q /\ (Selectors.reliability res <= 1)%Q.
Proof.
  intros d.
  assert (H : exists res,
             fst (Selectors.recall "search" "example.com" d) = Db.Returned (Some res)).
  { eexists. reflexivity. }
  destruct H as (res & H). exists res. split; [exact H|].
  destruct (reliability_is_a_fraction "/runs" (Core.OpGetAll "x") d) as (_ & _ & Hb).
  assert (Hc : counts_ok d).
  { intros r [<- | []]. cbn. lia. }
  destruct (Hb Hc "search" "example.com" res H) as (_ & _ & H0 & H1).
  split; assumption.
Defined.






Lemma fold_left_total {R : Type} (g : R -> Z) (t : list R) (a : Z) :
  fold_left (fun acc r => acc + g r) t a = a + total_of g t.
Proof.
  revert a. induction t as [|x t IH]; intros a; simpl; [lia|]. rewrite IH. lia.
Qed.

Lemma or_zero_sum_column {R : Type} (g : R -> Z) (t : list R) :
  Db.or_zero (Db.sum_column g t) = total_of g t.
Proof.
  destruct t as [|x t]; [reflexivity|].
  unfold Db.sum_column, Db.or_zero. rewrite fold_left_total. lia.
Qed.










(** ** ORDER BY *)

Lemma insert_by_perm {R : Type} (le : R -> R -> bool) (r : R) (l : list R) :
  Permutation (Db.insert_by le r l) (r :: l).
Proof.
  induction l as [|x l IH]; simpl; [apply Permutation_refl|].
  destruct (le r x); [apply Permutation_refl|].
  apply perm_trans with (x :: r :: l); [apply perm_skip; exact IH | apply perm_swap].
Qed.

Lemma order_by_perm {R : Type} (le : R -> R -> bool) (l : list R) :
  Permutation (Db.order_by le l) l.
Proof.
  unfold Db.order_by. induction l as [|x l IH]; simpl; [apply perm_nil|].
  apply perm_trans with (x :: fold_right (Db.insert_by le) [] l);
    [apply insert_by_perm | apply perm_skip; exact IH].
Qed.

Lemma insert_by_sorted {R : Type} (le : R -> R -> bool) (r : R) (l : list R) :
  (forall a b, le a b = false -> le b a = true) ->
  Sorted (fun a b => le a b = true) l ->
  Sorted (fun a b => le a b = true) (Db.insert_by le r l).
Proof.
  intros Htotal. induction l as [|x l IH]; simpl; intros H.
  - apply Sorted_cons; [apply Sorted_nil | apply HdRel_nil].
  - destruct (le r x) eqn:E.
    + apply Sorted_cons; [exact H|]. apply HdRel_cons. exact E.
    + inversion H as [|? ? Hl Hhd]; subst.
      apply Sorted_cons; [exact (IH Hl)|].
      destruct l as [|y l]; simpl.
      * apply HdRel_cons. exact (Htotal _ _ E).
      * destruct (le r y).
        -- apply HdRel_cons. exact (Htotal _ _ E).
        -- inversion Hhd; subst. apply HdRel_cons. assumption.
Qed.

Lemma order_by_sorted {R : Type} (le : R -> R -> bool) (l : list R) :
  (forall a b, le a b = false -> le b a = true) ->
  Sorted (fun a b => le a b = true) (Db.order_by le l).
Proof.
  intros Htotal. unfold Db.order_by.
  induction l as [|x l IH]; simpl; [apply Sorted_nil|].
  apply insert_by_sorted; assumption.
Qed.

Lemma string_leb_total (a b : string) : String.leb a b = false -> String.leb b a = true.
Proof.
  intros H. destruct (String.leb_total a b) as [T|T]; [rewrite T in H; discriminate H|exact T].
Qed.

(** X9: [get_domains] gives every domain that has a stored selector, each
    once, in ascending order, and leaves the store as it is. *)
Theorem get_domains_sorted_distinct (d : store) :
  exists names,
    Selectors.get_domains d = (Db.Returned names, d)
    /\ NoDup names
    /\ Sorted (fun a b => String.leb a b = true) names
    /\ (forall x, In x names <-> exists r, In r (selectors d) /\ sel_domain r = x).
Proof.
  exists (Db.order_by String.leb (nodup string_dec (map sel_domain (selectors d)))).
  pose proof (order_by_perm String.leb (nodup string_dec (map sel_domain (selectors d)))) as P.
  split; [reflexivity|]. split; [|split].
  - apply (Permutation_NoDup (Permutation_sym P)). apply NoDup_nodup.
  - apply order_by_sorted. exact string_leb_total.
  - intros x. split.
    + intros Hin. apply (Permutation_in _ P) in Hin. apply nodup_In in Hin.
      apply in_map_iff in Hin as (r & Hr & Hin). exists r. split; assumption.
    + intros (r & Hin & Hr). apply (Permutation_in _ (Permutation_sym P)).
      apply nodup_In. apply in_map_iff. exists r. split; assumption.
Qed.

(** * Further properties of the simulator pool *)

(** What an operation can do to the [simulators] table: nothing, rewrite
    rows in place keeping udid, name, type, size, pool and port, or
    [refresh] it. *)
Lemma exec_simulators_cases (RUNS_DIR : string) (o : Core.op) (d : store) :
  let t := simulators d in
  let t' := simulators (Core.exec RUNS_DIR o d) in
  t' = t
  \/ (exists p f,
        t' = Db.update_where p f t
        /\ forall r, udid (f r) = udid r /\ name (f r) = name r
                     /\ device_type (f r) = device_type r
                     /\ screen_size (f r) = screen_size r
                     /\ pool (f r) = pool r /\ port (f r) = port r)
  \/ (exists data now, t' = refreshed now data t).
Proof.
  intros t t'. subst t t'.
  pose proof (simulators_untouched RUNS_DIR o d) as Hframe.
  destruct o as [? ? ? ? ? ?|? ? ? ?|data now|pool task now|u data now
                |id wf sim now|id st n now|? ? ?|? ? ?|? ?|?|? ?|?];
    try (left; exact Hframe); cbn [Core.exec].
  - destruct (refresh_store data now d) as (res & H). rewrite H.
    right; right. exists data, now. reflexivity.
  - rewrite acquire_store. destruct (Db.fetchone _ _) as [row|]; [|left; reflexivity].
    right; left. do 2 eexists. split; [reflexivity|]. intros r. repeat split.
  - rewrite release_store. right; left. do 2 eexists. split; [reflexivity|].
    intros r. repeat split.
  - destruct (start_cases RUNS_DIR id wf sim now d) as [H|(_ & _ & [H|(u & H)] & _)];
      rewrite H; [left; reflexivity | left; reflexivity |].
    right; left. do 2 eexists. split; [reflexivity|]. intros r. repeat split.
  - rewrite complete_store. cbn [snd simulators].
    destruct (Db.fetchone _ _) as [row|]; [|left; reflexivity].
    destruct (simulator_udid row) as [u|]; [|left; reflexivity].
    destruct (Py.truthy (Some u)); [|left; reflexivity].
    right; left. do 2 eexists. split; [reflexivity|]. intros r. repeat split.
Qed.

Lemma refreshed_one_classified (now : string) (device : simctl_device)
  (t : list simulator_row) :
  Forall classified t -> Forall classified (refreshed_one now device t).
Proof.
  intros H. unfold refreshed_one, Simulators.upsert.
  destruct (existsb _ t).
  - apply Forall_forall. intros r' Hin.
    apply in_update_where in Hin as (r & Hin & [-> | ->]).
    + exact (proj1 (Forall_forall _ _) H r Hin).
    + repeat split.
  - apply Forall_app. split; [exact H|]. apply Forall_cons; [|apply Forall_nil].
    repeat split.
Qed.

(** X10: in every row of [simulators] the device type, the screen size and
    the pool are the ones [_get_device_type] and [_get_screen_size] give for
    the row's name, with pool = type-size: that holds in the empty store and
    is kept by every operation.  So a pool is always one of six names, and a
    row is of type "iPad" exactly when its name contains "iPad". *)
Theorem pool_follows_name (RUNS_DIR : string) (o : Core.op) (d : store) :
  Forall classified (simulators Db.init_db)
  /\ (Forall classified (simulators d) ->
      Forall classified (simulators (Core.exec RUNS_DIR o d)))
  /\ (forall r,
         classified r ->
         In (pool r) ["iPad-1032x1376"; "iPad-834x1194"; "iPad-820x1180";
                      "iPhone-430x932"; "iPhone-393x852"; "iPhone-320x693"]
         /\ (device_type r = "iPad" <-> Py.contains "iPad" (name r) = true)).
Proof.
  split; [apply Forall_nil|]. split.
  - intros H.
    destruct (exec_simulators_cases RUNS_DIR o d) as [E|[(p & f & E & Hf)|(data & now & E)]];
      rewrite E.
    + exact H.
    + apply Forall_forall. intros r' Hin.
      apply in_update_where in Hin as (r & Hin & [-> | ->]);
        pose proof (proj1 (Forall_forall _ _) H r Hin) as Hr; [exact Hr|].
      destruct (Hf r) as (_ & Hn & Ht & Hs & Hp & _).
      unfold classified. rewrite Hn, Ht, Hs, Hp. exact Hr.
    + apply (refreshed_rel (fun t t' => Forall classified t -> Forall classified t'));
        [auto | auto | intros n dev t0; apply refreshed_one_classified | exact H].
  - intros r (Ht & Hs & Hp). rewrite Hp, Hs, Ht.
    unfold Simulators._get_device_type, Simulators._get_screen_size.
    split.
    + destruct (Py.contains "iPad" (name r));
        repeat match goal with
               | |- context [if ?b then _ else _] => destruct b
               end;
        cbn; tauto.
    + destruct (Py.contains "iPad" (name r)); split; intros H;
        first [reflexivity | discriminate H].
Qed.

Lemma pool_follows_name_witness :
  let d := snd (Simulators.refresh
                  [("iOS-17", [mk_device "A" "iPhone 15 Pro Max" "Booted";
                               mk_device "B" "iPad Air 13-inch" "Shutdown"])] "t0"
                  Db.init_db) in
  Forall classified (simulators (Core.exec "/runs" (Core.OpAcquire "iPhone-430x932" "t" "t1") d))
  /\ In "iPad-1032x1376"
       ["iPad-1032x1376"; "iPad-834x1194"; "iPad-820x1180";
        "iPhone-430x932"; "iPhone-393x852"; "iPhone-320x693"].
Proof.
  intros d.
  destruct (pool_follows_name "/runs" (Core.OpAcquire "iPhone-430x932" "t" "t1") d)
    as (_ & Hstep & Hsix).
  split.
  - apply Hstep. repeat constructor.
  - apply (Hsix (mk_simulator "B" "iPad Air 13-inch" "iPad" "1032x1376" "iPad-1032x1376"
                   offline None None "t0")).
    repeat split.
Defined.

Lemma count_pool_lookup (q p : string) (pools : list (string * Z)) :
  lookup_pool q (Simulators.count_pool p pools)
  = lookup_pool q pools + (if (q =? p)%string then 1 else 0).
Proof.
  unfold lookup_pool. induction pools as [|[k n] rest IH]; simpl.
  - rewrite (String.eqb_sym p q). destruct (q =? p)%string; reflexivity.
  - destruct (k =? p)%string eqn:K; simpl.
    + apply String.eqb_eq in K. subst k. rewrite (String.eqb_sym p q).
      destruct (q =? p)%string; simpl; lia.
    + destruct (k =? q)%string eqn:Q; [|exact IH].
      apply String.eqb_eq in Q. subst q. rewrite K. simpl. lia.
Qed.

Lemma count_pool_keys (p : string) (pools : list (string * Z)) :
  NoDup (map fst pools) -> NoDup (map fst (Simulators.count_pool p pools)).
Proof.
  assert (Hin : forall l x, In x (map fst (Simulators.count_pool p l)) ->
                            x = p \/ In x (map fst l)).
  { induction l as [|[k n] rest IH]; simpl; intros x H.
    - destruct H as [H|[]]. left. symmetry. exact H.
    - destruct (k =? p)%string; simpl in H.
      + right. exact H.
      + destruct H as [H|H]; [right; left; exact H|].
        destruct (IH x H) as [E|E]; [left; exact E | right; right; exact E]. }
  induction pools as [|[k n] rest IH]; simpl; intros H.
  - apply NoDup_cons; [intros [] | apply NoDup_nil].
  - inversion H as [|? ? Hk Hrest]; subst.
    destruct (k =? p)%string eqn:K; simpl.
    + apply NoDup_cons; assumption.
    + apply NoDup_cons; [|exact (IH Hrest)].
      intros Hc. destruct (Hin rest k Hc) as [E|E]; [|exact (Hk E)].
      apply String.eqb_neq in K. exact (K E).
Qed.

Lemma count_in_pool_cons (q : string) (device : simctl_device) (rest : list simctl_device) :
  count_in_pool q (device :: rest)
  = (if (q =? pool_of_device device)%string then 1 else 0) + count_in_pool q rest.
Proof.
  unfold count_in_pool. simpl. rewrite (String.eqb_sym q).
  destruct (pool_of_device device =? q)%string; cbn [List.length];
    [rewrite Nat2Z.inj_succ|]; lia.
Qed.

Lemma count_in_pool_app (q : string) (a b : list simctl_device) :
  count_in_pool q (a ++ b) = count_in_pool q a + count_in_pool q b.
Proof. unfold count_in_pool. rewrite filter_app, length_app. lia. Qed.

Lemma refresh_device_exact (now : string) (device : simctl_device) (d : store) :
  Simulators.refresh_device now device d
  = inr (pool_of_device device,
         Db.with_simulators d (refreshed_one now device (simulators d))).
Proof. reflexivity. Qed.

Lemma refresh_devices_counts (now : string) (devices : list simctl_device) :
  forall acc d,
  exists acc' d',
    Simulators.refresh_devices now devices acc d = inr (acc', d')
    /\ fst acc' = fst acc + Z.of_nat (List.length devices)
    /\ (forall q, lookup_pool q (snd acc') = lookup_pool q (snd acc) + count_in_pool q devices)
    /\ (NoDup (map fst (snd acc)) -> NoDup (map fst (snd acc'))).
Proof.
  induction devices as [|device rest IH]; intros acc d; simpl.
  - exists acc, d. split; [reflexivity|]. split; [lia|].
    split; [intros q; unfold count_in_pool; simpl; lia | auto].
  - unfold Db.bind at 1. rewrite refresh_device_exact.
    destruct (IH (fst acc + 1, Simulators.count_pool (pool_of_device device) (snd acc))
                (Db.with_simulators d (refreshed_one now device (simulators d))))
      as (acc' & d' & Hrun & Hcount & Hpools & Hkeys).
    exists acc', d'. split; [exact Hrun|]. cbn [fst snd] in *.
    split; [lia|]. split.
    + intros q. rewrite Hpools, count_pool_lookup, count_in_pool_cons. lia.
    + intros Hnd. apply Hkeys. apply count_pool_keys. exact Hnd.
Qed.

Lemma refresh_runtimes_counts (now : string) (data : simctl_data) :
  forall acc d,
  exists acc' d',
    Simulators.refresh_runtimes now data acc d = inr (acc', d')
    /\ fst acc' = fst acc + Z.of_nat (List.length (listed data))
    /\ (forall q, lookup_pool q (snd acc')
                  = lookup_pool q (snd acc) + count_in_pool q (listed data))
    /\ (NoDup (map fst (snd acc)) -> NoDup (map fst (snd acc'))).
Proof.
  induction data as [|[runtime devices] rest IH]; intros acc d; simpl.
  - exists acc, d. split; [reflexivity|]. split; [unfold listed; simpl; lia|].
    split; [intros q; unfold listed, count_in_pool; simpl; lia | auto].
  - unfold Db.bind at 1.
    destruct (refresh_devices_counts now devices acc d) as (acc1 & d1 & H1 & C1 & P1 & K1).
    rewrite H1.
    destruct (IH acc1 d1) as (acc' & d' & H2 & C2 & P2 & K2).
    exists acc', d'. split; [exact H2|].
    change (listed ((runtime, devices) :: rest)) with (devices ++ listed rest).
    rewrite length_app.
    split; [lia|]. split.
    + intros q. rewrite P2, P1, count_in_pool_app. lia.
    + intros Hnd. exact (K2 (K1 Hnd)).
Qed.

(** X11: [refresh] returns the number of devices the inventory lists, over
    all runtimes, and a dictionary with one entry per pool whose count is
    the number of listed devices that fall in that pool. *)
Theorem refresh_counts_listed_devices (data : simctl_data) (now : string) (d : store) :
  exists res,
    fst (Simulators.refresh data now d) = Db.Returned res
    /\ Simulators.rr_simulators res = Z.of_nat (List.length (listed data))
    /\ (forall q, lookup_pool q (Simulators.rr_pools res) = count_in_pool q (listed data))
    /\ NoDup (map fst (Simulators.rr_pools res)).
Proof.
  destruct (refresh_runtimes_counts now data (0, []) d) as (acc & d' & H & C & P & K).
  exists (Simulators.mk_refresh_result (fst acc) (snd acc)).
  unfold Simulators.refresh, Db.transaction, Db.bind. rewrite H. cbn [fst snd] in *.
  split; [reflexivity|]. cbn [Simulators.rr_simulators Simulators.rr_pools].
  split; [lia|]. split; [intros q; rewrite P; unfold lookup_pool; simpl; lia|].
  apply K. apply NoDup_nil.
Qed.

Lemma refreshed_flat (now : string) (data : simctl_data) (t : list simulator_row) :
  refreshed now data t
  = fold_left (fun t device => refreshed_one now device t) (listed data) t.
Proof.
  unfold refreshed. revert t.
  induction data as [|[runtime devices] rest IH]; intros t; [reflexivity|].
  change (listed ((runtime, devices) :: rest)) with (devices ++ listed rest).
  rewrite fold_left_app. cbn [map snd fold_left]. apply IH.
Qed.

Lemma get_store (u : string) (d : store) :
  Simulators.get u d = (Db.Returned (Db.fetchone (Simulators.at_udid u) (simulators d)), d).
Proof. reflexivity. Qed.

Lemma refreshed_one_other (now : string) (device : simctl_device) (u : string)
  (t : list simulator_row) :
  dev_udid device <> u ->
  Db.fetchone (Simulators.at_udid u) (refreshed_one now device t)
  = Db.fetchone (Simulators.at_udid u) t.
Proof.
  intros Hne. unfold refreshed_one, Simulators.upsert.
  destruct (existsb _ t).
  - apply fetchone_update_elsewhere; [reflexivity|].
    intros r K. unfold Simulators.at_udid in *. apply String.eqb_eq in K.
    rewrite K. apply String.eqb_neq. intros E. apply Hne. symmetry. exact E.
  - apply fetchone_skips_appended. unfold Simulators.at_udid. cbn [udid].
    apply String.eqb_neq. exact Hne.
Qed.

Lemma refreshed_one_self (now : string) (device : simctl_device) (t : list simulator_row) :
  Db.fetchone (Simulators.at_udid (dev_udid device)) (refreshed_one now device t)
  = Some (synced_row now device (Db.fetchone (Simulators.at_udid (dev_udid device)) t)).
Proof.
  unfold refreshed_one, Simulators.upsert.
  destruct (Db.fetchone (Simulators.at_udid (dev_udid device)) t) as [o|] eqn:F.
  - rewrite (fetchone_present _ _ _ F).
    rewrite fetchone_update_where
      by (intros r; destruct (Simulators.at_udid (dev_udid device) r) eqn:K; exact K).
    rewrite F. cbn [option_map].
    apply find_some in F as [_ K]. rewrite K.
    apply String.eqb_eq in K.
    unfold synced_row, Simulators.upsert_set, booted_state, pool_of_device. rewrite K.
    destruct (current_task o); reflexivity.
  - assert (E : existsb (Simulators.at_udid (dev_udid device)) t = false).
    { destruct (existsb _ t) eqn:E; [|reflexivity].
      apply existsb_exists in E as (r & Hin & Hr).
      rewrite (find_none _ _ F r Hin) in Hr. discriminate Hr. }
    rewrite E. rewrite (fetchone_appended _ _ _ E); [reflexivity|].
    unfold Simulators.at_udid. apply String.eqb_refl.
Qed.

Lemma refreshed_others (now : string) (devices : list simctl_device) (u : string) :
  ~ In u (map dev_udid devices) ->
  forall t,
    Db.fetchone (Simulators.at_udid u)
      (fold_left (fun t device => refreshed_one now device t) devices t)
    = Db.fetchone (Simulators.at_udid u) t.
Proof.
  induction devices as [|x rest IH]; intros Hnot t; [reflexivity|].
  cbn [fold_left]. rewrite IH.
  - apply refreshed_one_other. intros E. apply Hnot. left. exact E.
  - intros Hin. apply Hnot. right. exact Hin.
Qed.

Lemma refreshed_listed (now : string) (devices : list simctl_device) (device : simctl_device) :
  NoDup (map dev_udid devices) ->
  In device devices ->
  forall t,
    Db.fetchone (Simulators.at_udid (dev_udid device))
      (fold_left (fun t device => refreshed_one now device t) devices t)
    = Some (synced_row now device (Db.fetchone (Simulators.at_udid (dev_udid device)) t)).
Proof.
  induction devices as [|x rest IH]; intros Hnd Hin t; [destruct Hin|].
  inversion Hnd as [|? ? Hx Hrest]; subst. cbn [fold_left].
  destruct Hin as [->|Hin].
  - rewrite (refreshed_others now rest _ Hx). apply refreshed_one_self.
  - rewrite (IH Hrest Hin). rewrite refreshed_one_other; [reflexivity|].
    intros E. apply Hx. rewrite E. apply in_map. exact Hin.
Qed.

(** X12: after [refresh], [get] on the udid of a listed device (each udid
    listed once) gives the row with the listed name, the type, size and pool
    that name gives, the task and port the store held before, state busy
    when a task is set and otherwise available for a booted device and
    offline for any other, and the time of the refresh.  [get] on a udid the
    inventory does not list gives what it gave before: [refresh] deletes and
    changes no such row. *)
Theorem refresh_syncs_listed_devices (data : simctl_data) (now : string) (d : store) :
  NoDup (map dev_udid (listed data)) ->
  let d' := snd (Simulators.refresh data now d) in
  (forall device old,
      In device (listed data) ->
      fst (Simulators.get (dev_udid device) d) = Db.Returned old ->
      fst (Simulators.get (dev_udid device) d')
      = Db.Returned (Some (synced_row now device old)))
  /\ (forall u,
         ~ In u (map dev_udid (listed data)) ->
         fst (Simulators.get u d') = fst (Simulators.get u d)).
Proof.
  intros Hnd d'. subst d'.
  destruct (refresh_store data now d) as (res & H). rewrite H.
  cbn [snd]. split.
  - intros device old Hin Hold. rewrite get_store in *. cbn [fst simulators Db.with_simulators] in *.
    inversion Hold as [Eold]. rewrite refreshed_flat.
    rewrite (refreshed_listed now (listed data) device Hnd Hin). reflexivity.
  - intros u Hnot. rewrite !get_store. cbn [fst simulators Db.with_simulators].
    rewrite refreshed_flat, (refreshed_others now (listed data) u Hnot). reflexivity.
Qed.

Lemma refresh_syncs_listed_devices_witness :
  let d := snd (Simulators.acquire "iPhone-393x852" "task-1" "t1"
                  (snd (Simulators.refresh
                          [("iOS-17", [mk_device "A" "iPhone 15" "Booted"])] "t0"
                          Db.init_db))) in
  let data := [("iOS-18", [mk_device "A" "iPhone 15 Pro Max" "Shutdown";
                           mk_device "B" "iPad mini" "Booted"])] in
  fst (Simulators.get "A" (snd (Simulators.refresh data "t2" d)))
  = Db.Returned
      (Some (mk_simulator "A" "iPhone 15 Pro Max" "iPhone" "430x932" "iPhone-430x932"
               busy (Some "task-1") None "t2"))
  /\ fst (Simulators.get "B" (snd (Simulators.refresh data "t2" d)))
     = Db.Returned
         (Some (mk_simulator "B" "iPad mini" "iPad" "820x1180" "iPad-820x1180"
                  available None None "t2")).
Proof.
  intros d data.
  assert (Hnd : NoDup (map dev_udid (listed data))).
  { vm_compute. repeat constructor; simpl; intuition discriminate. }
  destruct (refresh_syncs_listed_devices data "t2" d Hnd) as (Hsync & _).
  split.
  - exact (Hsync (mk_device "A" "iPhone 15 Pro Max" "Shutdown") _
             (or_introl eq_refl) eq_refl).
  - exact (Hsync (mk_device "B" "iPad mini" "Booted") _
             (or_intror (or_introl eq_refl)) eq_refl).
Defined.

Lemma in_update_where_exact {R : Type} (p : R -> bool) (f : R -> R) (t : list R) (r' : R) :
  In r' (Db.update_where p f t) -> exists r, In r t /\ r' = if p r then f r else r.
Proof.
  unfold Db.update_where. intros H. apply in_map_iff in H as (r & Hr & Hin).
  exists r. split; [exact Hin | symmetry; exact Hr].
Qed.

Lemma fetchone_found {R : Type} (p : R -> bool) (t : list R) :
  existsb p t = true -> exists r, Db.fetchone p t = Some r.
Proof.
  intros E. destruct (Db.fetchone p t) as [r|] eqn:F; [exists r; reflexivity|].
  apply existsb_exists in E as (r & Hin & Hr).
  rewrite (find_none _ _ F r Hin) in Hr. discriminate Hr.
Qed.

(** X13: [acquire] returns none, and writes nothing, exactly when the pool
    has no available simulator.  The udid it returns is that of a row that
    was in the pool and available; the rows of that udid become busy with
    the task and the time of the call, every other row stays as it was; and
    a later [acquire], for any pool and task, returns a different udid. *)
Theorem acquire_takes_an_available_simulator (p task now : string) (d : store) :
  let d' := snd (Simulators.acquire p task now d) in
  (fst (Simulators.acquire p task now d) = Db.Returned None
   <-> existsb (Simulators.available_in p) (simulators d) = false)
  /\ (fst (Simulators.acquire p task now d) = Db.Returned None -> d' = d)
  /\ (forall u,
         fst (Simulators.acquire p task now d) = Db.Returned (Some u) ->
         (exists row,
             In row (simulators d) /\ udid row = u /\ pool row = p /\ state row = available)
         /\ (forall i r,
                nth_error (simulators d) i = Some r ->
                nth_error (simulators d') i
                = Some (if (udid r =? u)%string
                        then mk_simulator (udid r) (name r) (device_type r) (screen_size r)
                               (pool r) busy (Some task) (port r) now
                        else r))
         /\ (forall p2 task2 now2 u2,
                fst (Simulators.acquire p2 task2 now2 d') = Db.Returned (Some u2) ->
                u2 <> u)).
Proof.
  intros d'. subst d'. rewrite acquire_store.
  destruct (Db.fetchone (Simulators.available_in p) (simulators d)) as [row|] eqn:F;
    cbn [fst snd].
  - split; [|split].
    + split; [discriminate|]. intros E. rewrite (fetchone_present _ _ _ F) in E. discriminate E.
    + discriminate.
    + intros u Hu. inversion Hu as [Eu]. clear Hu.
      pose proof (find_some _ _ F) as [Hin K].
      unfold Simulators.available_in in K. apply andb_true_iff in K as [Kp Ks].
      apply String.eqb_eq in Kp. split; [|split].
      * exists row. repeat split; try assumption. destruct (state row); try discriminate Ks.
        reflexivity.
      * intros i r Hi. cbn [simulators Db.with_simulators].
        rewrite update_where_nth, Hi. reflexivity.
      * intros p2 task2 now2 u2 H2. rewrite acquire_store in H2.
        destruct (Db.fetchone (Simulators.available_in p2) _) as [row2|] eqn:F2;
          [|discriminate H2].
        cbn [fst] in H2. inversion H2 as [E2]. clear H2.
        apply find_some in F2 as [Hin2 K2]. cbn [simulators Db.with_simulators] in Hin2.
        apply in_update_where_exact in Hin2 as (r & _ & Hr).
        destruct (Simulators.at_udid (udid row) r) eqn:A.
        -- rewrite Hr, acquire_set_not_available in K2. discriminate K2.
        -- subst row2. apply String.eqb_neq in A. exact A.
  - split; [|split].
    + split; [intros _|reflexivity].
      destruct (existsb _ _) eqn:E; [|reflexivity].
      apply fetchone_found in E as (r & Hr). rewrite Hr in F. discriminate F.
    + reflexivity.
    + discriminate.
Qed.

Lemma acquire_takes_an_available_simulator_witness :
  let d := snd (Simulators.refresh
                  [("iOS-17", [mk_device "A" "iPhone 15" "Booted";
                               mk_device "B" "iPhone 16" "Booted"])] "t0" Db.init_db) in
  exists u2,
    fst (Simulators.acquire "iPhone-393x852" "task-2" "t2"
           (snd (Simulators.acquire "iPhone-393x852" "task-1" "t1" d)))
    = Db.Returned (Some u2)
    /\ u2 <> "A".
Proof.
  intros d.
  assert (H : exists u2,
             fst (Simulators.acquire "iPhone-393x852" "task-2" "t2"
                    (snd (Simulators.acquire "iPhone-393x852" "task-1" "t1" d)))
             = Db.Returned (Some u2)).
  { eexists. reflexivity. }
  destruct H as (u2 & H). exists u2. split; [exact H|].
  destruct (acquire_takes_an_available_simulator "iPhone-393x852" "task-1" "t1" d)
    as (_ & _ & Hsome).
  destruct (Hsome "A" eq_refl) as (_ & _ & Hnext).
  exact (Hnext "iPhone-393x852" "task-2" "t2" u2 H).
Defined.

Lemma acquire_finds (p task now : string) (d : store) :
  existsb (Simulators.available_in p) (simulators d) = true ->
  exists u, fst (Simulators.acquire p task now d) = Db.Returned (Some u).
Proof.
  intros E. rewrite acquire_store.
  destruct (fetchone_found _ _ E) as (r & Hr). rewrite Hr. exists (udid r). reflexivity.
Qed.

(** X14: [release] after [acquire] clears the task the call had set and
    makes the simulator available when the inventory lists it as booted and
    offline otherwise; name, type, size, pool and port stay.  In the first
    case the pool can be acquired from again; in the second no [acquire]
    returns this udid.  [release] of a udid the store does not hold writes
    nothing and still returns the state the inventory gives. *)
Theorem release_after_acquire (p task now u now2 : string) (data : simctl_data) (d : store) :
  fst (Simulators.acquire p task now d) = Db.Returned (Some u) ->
  let d1 := snd (Simulators.acquire p task now d) in
  let d2 := snd (Simulators.release u data now2 d1) in
  let new_state := if Simulators.still_booted u data then available else offline in
  fst (Simulators.release u data now2 d1)
  = Db.Returned (Simulators.mk_release_result u new_state)
  /\ (exists row,
         fst (Simulators.get u d1) = Db.Returned (Some row)
         /\ state row = busy /\ current_task row = Some task
         /\ fst (Simulators.get u d2)
            = Db.Returned
                (Some (mk_simulator (udid row) (name row) (device_type row) (screen_size row)
                         (pool row) new_state None (port row) now2)))
  /\ (Simulators.still_booted u data = true ->
      forall task3 now3,
      exists u3, fst (Simulators.acquire p task3 now3 d2) = Db.Returned (Some u3))
  /\ (Simulators.still_booted u data = false ->
      forall p3 task3 now3,
        fst (Simulators.acquire p3 task3 now3 d2) <> Db.Returned (Some u))
  /\ (forall u',
         existsb (Simulators.at_udid u') (simulators d) = false ->
         Simulators.release u' data now2 d
         = (Db.Returned
              (Simulators.mk_release_result u'
                 (if Simulators.still_booted u' data then available else offline)),
            d)).
Proof.
  intros Hacq d1 d2 new_state. subst d1 d2.
  rewrite acquire_store in *.
  destruct (Db.fetchone (Simulators.available_in p) (simulators d)) as [row|] eqn:F;
    [|discriminate Hacq].
  cbn [fst snd] in *. inversion Hacq as [Eu]. clear Hacq. subst u.
  pose proof (find_some _ _ F) as [Hin K].
  assert (Hat : Simulators.at_udid (udid row) row = true) by apply String.eqb_refl.
  rewrite !release_store. cbn [fst snd]. fold new_state.
  set (t1 := Db.update_where (Simulators.at_udid (udid row)) (Simulators.acquire_set task now)
               (simulators d)).
  set (t2 := Db.update_where (Simulators.at_udid (udid row))
               (Simulators.release_set new_state now2) t1).
  split; [reflexivity|]. split; [|split; [|split]].
  - destruct (fetchone_found (Simulators.at_udid (udid row)) (simulators d)) as (r0 & F0).
    { apply existsb_exists. exists row. split; assumption. }
    pose proof (find_some _ _ F0) as [_ K0].
    exists (Simulators.acquire_set task now r0).
    rewrite !get_store. cbn [fst simulators Db.with_simulators]. fold t1. fold t2.
    assert (F1 : Db.fetchone (Simulators.at_udid (udid row)) t1
                 = Some (Simulators.acquire_set task now r0)).
    { unfold t1. rewrite fetchone_update_where
        by (intros r; destruct (Simulators.at_udid (udid row) r) eqn:A; exact A).
      rewrite F0. cbn [option_map]. rewrite K0. reflexivity. }
    split; [rewrite F1; reflexivity|]. split; [reflexivity|]. split; [reflexivity|].
    unfold t2. rewrite fetchone_update_where
      by (intros r; destruct (Simulators.at_udid (udid row) r) eqn:A; exact A).
    rewrite F1. cbn [option_map].
    assert (K1 : Simulators.at_udid (udid row) (Simulators.acquire_set task now r0) = true)
      by exact K0.
    rewrite K1. reflexivity.
  - intros Hb task3 now3. apply acquire_finds. cbn [simulators Db.with_simulators].
    fold t1. fold t2.
    apply existsb_exists.
    exists (Simulators.release_set new_state now2 (Simulators.acquire_set task now row)).
    split.
    + unfold t2, t1, Db.update_where. rewrite map_map. apply in_map_iff.
      exists row. split; [|exact Hin]. rewrite Hat.
      assert (K1 : Simulators.at_udid (udid row) (Simulators.acquire_set task now row) = true)
        by exact Hat.
      rewrite K1. reflexivity.
    + unfold new_state. rewrite Hb.
      unfold Simulators.available_in in *. cbn. apply andb_true_iff in K as [Kp _].
      rewrite Kp. reflexivity.
  - intros Hb p3 task3 now3 H3. rewrite acquire_store in H3.
    cbn [simulators Db.with_simulators] in H3. fold t1 in H3. fold t2 in H3.
    destruct (Db.fetchone (Simulators.available_in p3) t2) as [row3|] eqn:F3;
      [|discriminate H3].
    cbn [fst] in H3. inversion H3 as [E3]. clear H3.
    apply find_some in F3 as [Hin3 K3].
    unfold t2 in Hin3. apply in_update_where_exact in Hin3 as (r & _ & Hr).
    assert (A : Simulators.at_udid (udid row) row3 = true)
      by (unfold Simulators.at_udid; rewrite E3; apply String.eqb_refl).
    destruct (Simulators.at_udid (udid row) r) eqn:Ar.
    + rewrite Hr in K3. unfold Simulators.available_in, new_state in K3. rewrite Hb in K3.
      cbn in K3. rewrite andb_false_r in K3. discriminate K3.
    + rewrite Hr, Ar in A. discriminate A.
  - intros u' E. rewrite release_store.
    rewrite (update_where_untouched _ _ _ E), with_simulators_same. reflexivity.
Qed.

Lemma release_after_acquire_witness :
  let d := snd (Simulators.refresh
                  [("iOS-17", [mk_device "A" "iPhone 15" "Booted"])] "t0" Db.init_db) in
  let d1 := snd (Simulators.acquire "iPhone-393x852" "task-1" "t1" d) in
  fst (Simulators.release "A" [("iOS-17", [mk_device "A" "iPhone 15" "Shutdown"])] "t2" d1)
  = Db.Returned (Simulators.mk_release_result "A" offline)
  /\ fst (Simulators.acquire "iPhone-393x852" "task-2" "t3"
            (snd (Simulators.release "A" [("iOS-17", [mk_device "A" "iPhone 15" "Shutdown"])]
                    "t2" d1)))
     <> Db.Returned (Some "A").
Proof.
  intros d d1.
  destruct (release_after_acquire "iPhone-393x852" "task-1" "t1" "A" "t2"
              [("iOS-17", [mk_device "A" "iPhone 15" "Shutdown"])] d eq_refl)
    as (Hres & _ & _ & Hdown & _).
  split; [exact Hres|]. apply Hdown. reflexivity.
Defined.

Lemma states_partition (t : list simulator_row) :
  total_of (Simulators.in_state available) t + total_of (Simulators.in_state busy) t
  + total_of (Simulators.in_state offline) t
  = Z.of_nat (List.length t)
  /\ 0 <= total_of (Simulators.in_state available) t
  /\ 0 <= total_of (Simulators.in_state busy) t
  /\ 0 <= total_of (Simulators.in_state offline) t.
Proof.
  induction t as [|r t IH]; [cbn; lia|].
  cbn [total_of fold_right List.length].
  fold (total_of (Simulators.in_state available) t).
  fold (total_of (Simulators.in_state busy) t).
  fold (total_of (Simulators.in_state offline) t).
  generalize dependent (total_of (Simulators.in_state available) t).
  generalize dependent (total_of (Simulators.in_state busy) t).
  generalize dependent (total_of (Simulators.in_state offline) t).
  intros o b a IH.
  rewrite Nat2Z.inj_succ. unfold Simulators.in_state.
  destruct (state r); cbn [sim_state_eqb]; lia.
Qed.

Lemma nodup_length_bounds (l : list string) :
  (List.length (nodup string_dec l) <= List.length l)%nat
  /\ (l <> [] -> (1 <= List.length (nodup string_dec l))%nat).
Proof.
  split.
  - induction l as [|x l IH]; simpl; [lia|].
    destruct (in_dec string_dec x l); simpl; lia.
  - intros Hne. destruct l as [|x l]; [contradiction Hne; reflexivity|].
    assert (Hin : In x (nodup string_dec (x :: l))) by (apply nodup_In; left; reflexivity).
    destruct (nodup string_dec (x :: l)); [destruct Hin | simpl; lia].
Qed.

(** X15: [stats] counts every row in exactly one of the three states: on a
    table with rows, total = available + busy + offline and the number of
    pools is between 1 and the total.  On the empty table the total and the
    pool count are 0 and the three state counts are NULL, not 0. *)
Theorem stats_partition_the_table (d : store) :
  exists s,
    Simulators.stats d = (Db.Returned s, d)
    /\ Simulators.st_total s = Z.of_nat (List.length (simulators d))
    /\ (simulators d = [] ->
        Simulators.st_available s = None /\ Simulators.st_busy s = None
        /\ Simulators.st_offline s = None /\ Simulators.st_pools s = 0)
    /\ (simulators d <> [] ->
        exists a b o,
          Simulators.st_available s = Some a /\ Simulators.st_busy s = Some b
          /\ Simulators.st_offline s = Some o
          /\ 0 <= a /\ 0 <= b /\ 0 <= o
          /\ Simulators.st_total s = a + b + o
          /\ 1 <= Simulators.st_pools s <= Simulators.st_total s).
Proof.
  eexists. split; [reflexivity|].
  cbn [Simulators.st_total Simulators.st_available Simulators.st_busy Simulators.st_offline
         Simulators.st_pools].
  split; [reflexivity|]. split.
  - intros E. rewrite E. repeat split.
  - intros Hne. destruct (simulators d) as [|r t] eqn:E; [contradiction Hne; reflexivity|].
    unfold Db.sum_column. do 3 eexists.
    split; [reflexivity|]. split; [reflexivity|]. split; [reflexivity|].
    rewrite !fold_left_total.
    pose proof (states_partition (r :: t)) as (Hsum & Ha & Hb & Ho).
    unfold Db.count_rows, Db.count_distinct.
    pose proof (nodup_length_bounds (map pool (r :: t))) as (Hle & Hge).
    rewrite length_map in Hle.
    assert (Hne' : map pool (r :: t) <> []) by discriminate.
    specialize (Hge Hne'). lia.
Qed.

Lemma stats_partition_the_table_witness :
  exists s,
    Simulators.stats Db.init_db = (Db.Returned s, Db.init_db)
    /\ Simulators.st_total s = 0
    /\ Simulators.st_available s = None.
Proof.
  destruct (stats_partition_the_table Db.init_db) as (s & Hs & Ht & Hempty & _).
  exists s. split; [exact Hs|]. split; [exact Ht|]. exact (proj1 (Hempty eq_refl)).
Defined.

Lemma state_name_eqb (a b : sim_state) :
  (Simulators.state_name a =? Simulators.state_name b)%string = sim_state_eqb a b.
Proof. destruct a, b; reflexivity. Qed.

Lemma by_name_total (a b : simulator_row) :
  Simulators.by_name a b = false -> Simulators.by_name b a = true.
Proof. apply string_leb_total. Qed.

Lemma filter_none {R : Type} (q : R -> bool) (t : list R) :
  (forall r, q r = false) -> filter q t = [].
Proof.
  intros H. induction t as [|x t IH]; simpl; [reflexivity|]. rewrite H. exact IH.
Qed.

(** X16: [list_sims] with the name of a state gives exactly the rows in
    that state, each once, in ascending order of name; with a non-empty text
    that names no state it gives the empty list; with no filter, or the
    empty string, it gives every row in order of name.  The store is left as
    it is. *)
Theorem list_sims_filters_and_sorts (s : sim_state) (d : store) :
  (exists rows,
      Simulators.list_sims (Some (Simulators.state_name s)) d
      = (Db.Returned (map Simulators.listing rows), d)
      /\ Permutation rows (filter (fun r => sim_state_eqb (state r) s) (simulators d))
      /\ Sorted (fun a b => Simulators.by_name a b = true) rows
      /\ (forall r, In r rows -> state r = s))
  /\ (forall text,
         text <> "" -> (forall s', Simulators.state_name s' <> text) ->
         Simulators.list_sims (Some text) d = (Db.Returned [], d))
  /\ (exists rows,
         Simulators.list_sims None d = (Db.Returned (map Simulators.listing rows), d)
         /\ Simulators.list_sims (Some "") d = (Db.Returned (map Simulators.listing rows), d)
         /\ Permutation rows (simulators d)
         /\ Sorted (fun a b => Simulators.by_name a b = true) rows).
Proof.
  split; [|split].
  - set (l := filter (fun r => (Simulators.state_name (state r) =? Simulators.state_name s)%string)
                (simulators d)).
    assert (El : l = filter (fun r => sim_state_eqb (state r) s) (simulators d)).
    { unfold l. apply filter_ext. intros r. apply state_name_eqb. }
    exists (Db.order_by Simulators.by_name l).
    pose proof (order_by_perm Simulators.by_name l) as P.
    split; [|split; [|split]].
    + unfold Simulators.list_sims, Db.transaction, Db.bind, Db.read, Db.ret.
      destruct s; reflexivity.
    + rewrite <- El. exact P.
    + apply order_by_sorted. exact by_name_total.
    + intros r Hin. apply (Permutation_in _ P) in Hin. rewrite El in Hin.
      apply filter_In in Hin as [_ K]. destruct (state r), s; try discriminate K; reflexivity.
  - intros text Hne Hno.
    unfold Simulators.list_sims, Db.transaction, Db.bind, Db.read, Db.ret.
    rewrite (truthy_some text Hne).
    rewrite filter_none; [reflexivity|].
    intros r. apply String.eqb_neq. apply Hno.
  - exists (Db.order_by Simulators.by_name (simulators d)).
    split; [reflexivity|]. split; [reflexivity|].
    split; [apply order_by_perm | apply order_by_sorted; exact by_name_total].
Qed.

Lemma list_sims_filters_and_sorts_witness :
  Simulators.list_sims (Some "booted")
    (snd (Simulators.refresh [("iOS-17", [mk_device "A" "iPhone 15" "Booted"])] "t0"
            Db.init_db))
  = (Db.Returned [],
     snd (Simulators.refresh [("iOS-17", [mk_device "A" "iPhone 15" "Booted"])] "t0"
            Db.init_db)).
Proof.
  apply (proj1 (proj2 (list_sims_filters_and_sorts available
                         (snd (Simulators.refresh
                                 [("iOS-17", [mk_device "A" "iPhone 15" "Booted"])] "t0"
                                 Db.init_db))))).
  - discriminate.
  - intros s'. destruct s'; discriminate.
Defined.

(** * Further properties of the run ledger *)

Lemma run_get_store (id : string) (d : store) :
  Runs.get id d
  = (Db.Returned
       (match Db.fetchone (Runs.at_id id) (runs d) with
        | Some r => Some (r, Db.fetchone (Runs.at_run_id (run_id r)) (metrics d))
        | None => None
        end),
     d).
Proof. reflexivity. Qed.



Lemma update_where_nowhere {R : Type} (f : R -> R) (t : list R) :
  Db.update_where (fun _ => false) f t = t.
Proof. unfold Db.update_where. apply map_id. Qed.

(** What an operation can do to the two tables of the ledger: rewrite rows
    in place keeping their ids, or append a run together with its metrics
    row under an id neither table had. *)
Lemma exec_ledger_cases (RUNS_DIR : string) (o : Core.op) (d : store) :
  let d' := Core.exec RUNS_DIR o d in
  (exists pr fr pm fm,
      runs d' = Db.update_where pr fr (runs d)
      /\ metrics d' = Db.update_where pm fm (metrics d)
      /\ (forall r, run_id (fr r) = run_id r)
      /\ (forall m, m_run_id (fm m) = m_run_id m))
  \/ (exists run zero,
        existsb (Runs.at_id (run_id run)) (runs d) = false
        /\ existsb (Runs.at_run_id (run_id run)) (metrics d) = false
        /\ m_run_id zero = run_id run
        /\ runs d' = runs d ++ [run]
        /\ metrics d' = metrics d ++ [zero]).
Proof.
  intros d'. subst d'.
  assert (Same : forall d0, runs d0 = runs d -> metrics d0 = metrics d ->
                            exists pr fr pm fm,
                              runs d0 = Db.update_where pr fr (runs d)
                              /\ metrics d0 = Db.update_where pm fm (metrics d)
                              /\ (forall r, run_id (fr r) = run_id r)
                              /\ (forall m, m_run_id (fm m) = m_run_id m)).
  { intros d0 Hr Hm.
    exists (fun _ => false), (fun r => r), (fun _ => false), (fun m => m).
    rewrite !update_where_nowhere. repeat split; assumption. }
  destruct o as [action selector url a now ts|action selector url now|data now
                |pool task now|u data now|id wf sim now|id st n now|id cs ts|id mode b
                |id a|dom|? ?|?];
    cbn [Core.exec].
  - left. apply Same; rewrite learn_store; cbv zeta; cbn [snd];
      destruct (existsb _ _); reflexivity.
  - left. apply Same; reflexivity.
  - left. destruct (refresh_store data now d) as (res & H). rewrite H. apply Same; reflexivity.
  - left. apply Same; rewrite acquire_store; destruct (Db.fetchone _ _); reflexivity.
  - left. apply Same; reflexivity.
  - destruct (existsb (Runs.at_id id) (runs d)) eqn:Hrun;
      [left; rewrite start_refused by (left; exact Hrun); apply Same; reflexivity|].
    destruct (existsb (Runs.at_run_id id) (metrics d)) eqn:Hmet;
      [left; rewrite start_refused by (right; left; exact Hmet); apply Same; reflexivity|].
    destruct (match sim with
              | Some u => existsb (Simulators.at_udid u) (simulators d)
              | None => true
              end) eqn:Hfk;
      [|left; rewrite start_refused by (right; right; exact Hfk); apply Same; reflexivity].
    right. rewrite (start_store _ _ _ _ _ _ Hrun Hmet Hfk). cbn [snd runs metrics].
    exists (mk_run id wf sim "running" now None 0 0 (RUNS_DIR ++ "/" ++ id)%string),
      (mk_metrics id 0 0 0 0 0 0 0 0 0%Q 0 0 0 0 0 0 0).
    cbn [run_id m_run_id].
    split; [exact Hrun|]. split; [exact Hmet|]. split; [reflexivity|].
    split; reflexivity.
  - left. rewrite complete_store. cbn [snd runs metrics].
    exists (Runs.at_id id), (Runs.complete_set st now n), (fun _ => false), (fun m => m).
    rewrite update_where_nowhere. repeat split.
  - left. rewrite progress_store. cbn [snd runs metrics Db.with_runs].
    exists (Runs.at_id id),
      (Runs.progress_set cs (if Py.truthy_int ts then ts else None)),
      (fun _ => false), (fun m => m).
    rewrite update_where_nowhere. repeat split.
  - left. destruct (add_capture_cases id mode b d) as [H|(m & H)]; rewrite H;
      [apply Same; reflexivity|].
    exists (fun _ => false), (fun r => r), (Runs.at_run_id id), (Runs.capture_set m b).
    rewrite update_where_nowhere. cbn [runs metrics Db.with_metrics]. repeat split.
  - left. destruct (add_action_cases id a d) as [H|(k & H)]; rewrite H;
      [apply Same; reflexivity|].
    exists (fun _ => false), (fun r => r), (Runs.at_run_id id), (Runs.action_set k).
    rewrite update_where_nowhere. cbn [runs metrics Db.with_metrics]. repeat split.
  - left. destruct (clear_store dom d) as (t & H). rewrite H. apply Same; reflexivity.
  - left. apply Same; reflexivity.
  - left. apply Same; reflexivity.
Qed.

Lemma existsb_at_run_id_update_where (x : string) (p : metrics_row -> bool)
  (f : metrics_row -> metrics_row) (t : list metrics_row) :
  (forall m, m_run_id (f m) = m_run_id m) ->
  existsb (Runs.at_run_id x) (Db.update_where p f t) = existsb (Runs.at_run_id x) t.
Proof.
  intros Hf. unfold Db.update_where.
  induction t as [|m t IH]; simpl; [reflexivity|].
  rewrite IH. f_equal. unfold Runs.at_run_id. destruct (p m); [rewrite Hf|]; reflexivity.
Qed.

Lemma map_id_update_where {R : Type} (key : R -> string) (p : R -> bool) (f : R -> R)
  (t : list R) :
  (forall r, key (f r) = key r) -> map key (Db.update_where p f t) = map key t.
Proof.
  intros Hf. unfold Db.update_where. rewrite map_map. apply map_ext.
  intros r. destruct (p r); [apply Hf | reflexivity].
Qed.

Lemma at_id_absent (id : string) (t : list run_row) :
  existsb (Runs.at_id id) t = false -> ~ In id (map run_id t).
Proof.
  intros H Hin. apply in_map_iff in Hin as (r & Hr & Hin).
  assert (E : existsb (Runs.at_id id) t = true).
  { apply existsb_exists. exists r. split; [exact Hin|].
    unfold Runs.at_id. rewrite Hr. apply String.eqb_refl. }
  rewrite E in H. discriminate H.
Qed.

Lemma at_run_id_absent (id : string) (t : list metrics_row) :
  existsb (Runs.at_run_id id) t = false -> ~ In id (map m_run_id t).
Proof.
  intros H Hin. apply in_map_iff in Hin as (r & Hr & Hin).
  assert (E : existsb (Runs.at_run_id id) t = true).
  { apply existsb_exists. exists r. split; [exact Hin|].
    unfold Runs.at_run_id. rewrite Hr. apply String.eqb_refl. }
  rewrite E in H. discriminate H.
Qed.

(** X18: run ids and metrics ids are distinct and each run has exactly its
    metrics row and the other way round: that holds in the empty store and
    is kept by every operation.  So [get] never gives a run without its
    metrics, and [get] and [get_metrics] find nothing for the same ids. *)
Theorem runs_stay_paired_with_metrics (RUNS_DIR : string) (o : Core.op) (d : store) :
  ledger_ok Db.init_db
  /\ (ledger_ok d -> ledger_ok (Core.exec RUNS_DIR o d))
  /\ (ledger_ok d ->
      forall id r m,
        fst (Runs.get id d) = Db.Returned (Some (r, m)) ->
        run_id r = id
        /\ exists row, m = Some row /\ m_run_id row = id
                       /\ fst (Runs.get_metrics id d) = Db.Returned (Some row))
  /\ (ledger_ok d ->
      forall id,
        fst (Runs.get id d) = Db.Returned None
        <-> fst (Runs.get_metrics id d) = Db.Returned None).
Proof.
  split; [repeat split; try apply NoDup_nil; intros ? []|].
  split; [|split].
  - intros (Hr & Hm & Hrm & Hmr).
    destruct (exec_ledger_cases RUNS_DIR o d)
      as [(pr & fr & pm & fm & Er & Em & Hfr & Hfm)
         |(run & zero & Nr & Nm & Ez & Er & Em)];
      unfold ledger_ok; rewrite Er, Em.
    + rewrite (map_id_update_where run_id) by exact Hfr.
      rewrite (map_id_update_where m_run_id) by exact Hfm.
      split; [exact Hr|]. split; [exact Hm|]. split.
      * intros r' Hin. apply in_update_where in Hin as (r & Hin & [-> | ->]);
          rewrite ?Hfr, existsb_at_run_id_update_where by exact Hfm; exact (Hrm r Hin).
      * intros m' Hin. apply in_update_where in Hin as (m & Hin & [-> | ->]);
          rewrite ?Hfm, existsb_at_id_update_where by exact Hfr; exact (Hmr m Hin).
    + rewrite !map_app. cbn [map]. rewrite Ez.
      split; [|split; [|split]].
      * apply NoDup_app; [exact Hr | apply NoDup_cons; [intros [] | apply NoDup_nil] |].
        intros x Hin [<- | []]. exact (at_id_absent _ _ Nr Hin).
      * apply NoDup_app; [exact Hm | apply NoDup_cons; [intros [] | apply NoDup_nil] |].
        intros x Hin [<- | []]. exact (at_run_id_absent _ _ Nm Hin).
      * intros r Hin. rewrite existsb_app.
        apply in_app_or in Hin as [Hin|[<-|[]]]; [rewrite (Hrm r Hin); reflexivity|].
        cbn. unfold Runs.at_run_id. rewrite Ez, String.eqb_refl. apply orb_true_r.
      * intros m Hin. rewrite existsb_app.
        apply in_app_or in Hin as [Hin|[<-|[]]]; [rewrite (Hmr m Hin); reflexivity|].
        cbn. unfold Runs.at_id. rewrite Ez, String.eqb_refl. apply orb_true_r.
  - intros (_ & _ & Hrm & _) id r m H. rewrite run_get_store in H. cbn [fst] in H.
    destruct (Db.fetchone (Runs.at_id id) (runs d)) as [r0|] eqn:F; [|discriminate H].
    inversion H as [[Er Em]]. subst r0. clear H.
    apply find_some in F as [Hin K]. apply String.eqb_eq in K.
    split; [exact K|].
    destruct (fetchone_found _ _ (Hrm r Hin)) as (row & Frow).
    exists row. rewrite Frow. split; [reflexivity|].
    pose proof (find_some _ _ Frow) as [_ Kr]. apply String.eqb_eq in Kr.
    split; [congruence|].
    unfold Runs.get_metrics, Db.transaction, Db.bind, Db.read, Db.ret. cbn [fst].
    rewrite <- K, Frow. reflexivity.
  - intros (_ & _ & Hrm & Hmr) id. rewrite run_get_store.
    unfold Runs.get_metrics, Db.transaction, Db.bind, Db.read, Db.ret. cbn [fst].
    destruct (Db.fetchone (Runs.at_id id) (runs d)) as [r|] eqn:F;
      destruct (Db.fetchone (Runs.at_run_id id) (metrics d)) as [m|] eqn:G;
      split; intros H; try discriminate H; try reflexivity; exfalso.
    + apply find_some in F as [Hin K]. apply String.eqb_eq in K.
      pose proof (Hrm r Hin) as E. rewrite K in E.
      apply fetchone_found in E as (m & Fm). rewrite Fm in G. discriminate G.
    + apply find_some in G as [Hin K]. apply String.eqb_eq in K.
      pose proof (Hmr m Hin) as E. rewrite K in E.
      apply fetchone_found in E as (r & Fr). rewrite Fr in F. discriminate F.
Qed.

Lemma runs_stay_paired_with_metrics_witness :
  ledger_ok (Core.exec "/runs" (Core.OpStart "r1" "checkout" None "t0") Db.init_db).
Proof.
  destruct (runs_stay_paired_with_metrics "/runs" (Core.OpStart "r1" "checkout" None "t0")
              Db.init_db) as (Hinit & Hstep & _).
  exact (Hstep Hinit).
Defined.








Lemma update_where_commute {R : Type} (p q : R -> bool) (f g : R -> R) (t : list R) :
  (forall r, p (g r) = p r) ->
  (forall r, q (f r) = q r) ->
  (forall r, p r = true -> q r = true -> g (f r) = f (g r)) ->
  Db.update_where q g (Db.update_where p f t) = Db.update_where p f (Db.update_where q g t).
Proof.
  intros Hp Hq Hc. unfold Db.update_where. rewrite !map_map. apply map_ext.
  intros r. destruct (p r) eqn:P, (q r) eqn:Q;
    rewrite ?Hp, ?Hq, ?P, ?Q; first [reflexivity | apply Hc; assumption].
Qed.

Lemma capture_set_commute (m1 m2 : capture_mode) (b1 b2 : Z) (r : metrics_row) :
  Runs.capture_set m2 b2 (Runs.capture_set m1 b1 r)
  = Runs.capture_set m1 b1 (Runs.capture_set m2 b2 r).
Proof.
  unfold Runs.capture_set.
  cbn [m_run_id bytes_total bytes_light bytes_jpeg bytes_pdf tokens_estimated
         cost_usd captures_light captures_jpeg captures_pdf actions_clicks actions_types
         actions_navigations actions_scrolls selector_hits selector_misses errors].
  replace (bytes_total r + b1 + b2) with (bytes_total r + b2 + b1) by lia.
  destruct m1, m2; f_equal; lia.
Qed.

(** X21: the order of two recordings does not matter: two [add_capture]
    calls, for the same run or for different ones, leave the same store in
    either order, and so do an [add_capture] and an [add_action]. *)
Theorem recordings_commute
  (id1 id2 mode1 mode2 : string) (b1 b2 : Z) (action_type : string) (d : store) :
  snd (Runs.add_capture id2 mode2 b2 (snd (Runs.add_capture id1 mode1 b1 d)))
  = snd (Runs.add_capture id1 mode1 b1 (snd (Runs.add_capture id2 mode2 b2 d)))
  /\ snd (Runs.add_action id2 action_type (snd (Runs.add_capture id1 mode1 b1 d)))
     = snd (Runs.add_capture id1 mode1 b1 (snd (Runs.add_action id2 action_type d))).
Proof.
  split.
  - destruct (Runs.capture_columns mode1) as [m1|] eqn:E1;
      destruct (Runs.capture_columns mode2) as [m2|] eqn:E2.
    + rewrite (add_capture_store id1 mode1 m1 b1 d E1), (add_capture_store id2 mode2 m2 b2 d E2).
      cbn [snd].
      rewrite (add_capture_store id2 mode2 m2 b2 _ E2), (add_capture_store id1 mode1 m1 b1 _ E1).
      cbn [snd metrics Db.with_metrics]. unfold Db.with_metrics. cbn [selectors selectors_seq simulators runs].
      f_equal. apply update_where_commute; try reflexivity.
      intros r _ _. apply capture_set_commute.
    + assert (N : forall d0, snd (Runs.add_capture id2 mode2 b2 d0) = d0).
      { intros d0. unfold Runs.add_capture, Db.transaction. rewrite E2. reflexivity. }
      rewrite !N. reflexivity.
    + assert (N : forall d0, snd (Runs.add_capture id1 mode1 b1 d0) = d0).
      { intros d0. unfold Runs.add_capture, Db.transaction. rewrite E1. reflexivity. }
      rewrite !N. reflexivity.
    + assert (N : forall d0, snd (Runs.add_capture id1 mode1 b1 d0) = d0).
      { intros d0. unfold Runs.add_capture, Db.transaction. rewrite E1. reflexivity. }
      rewrite !N. reflexivity.
  - destruct (Runs.capture_columns mode1) as [m1|] eqn:E1;
      destruct (Runs.action_column action_type) as [a|] eqn:E2.
    + rewrite (add_capture_store id1 mode1 m1 b1 d E1), (add_action_store id2 action_type a d E2).
      cbn [snd].
      rewrite (add_action_store id2 action_type a _ E2), (add_capture_store id1 mode1 m1 b1 _ E1).
      cbn [snd metrics Db.with_metrics]. unfold Db.with_metrics. cbn [selectors selectors_seq simulators runs].
      f_equal. apply update_where_commute; reflexivity.
    + assert (N : forall d0, snd (Runs.add_action id2 action_type d0) = d0).
      { intros d0. unfold Runs.add_action, Db.transaction. rewrite E2. reflexivity. }
      rewrite !N. reflexivity.
    + assert (N : forall d0, snd (Runs.add_capture id1 mode1 b1 d0) = d0).
      { intros d0. unfold Runs.add_capture, Db.transaction. rewrite E1. reflexivity. }
      rewrite !N. reflexivity.
    + assert (N : forall d0, snd (Runs.add_capture id1 mode1 b1 d0) = d0).
      { intros d0. unfold Runs.add_capture, Db.transaction. rewrite E1. reflexivity. }
      rewrite !N. reflexivity.
Qed.




Lemma aggregate_store (round4 : Q -> Q) (d : store) :
  Runs.aggregate round4 d
  = (Db.Returned
       (Runs.mk_aggregate_result
          (Db.count_rows (Runs.completed_join d))
          (total_of (fun row => bytes_total (fst row)) (Runs.completed_join d))
          (total_of (fun row => tokens_estimated (fst row)) (Runs.completed_join d))
          (round4 (match Db.sum_real (fun row => cost_usd (fst row)) (Runs.completed_join d) with
                   | Some total => total
                   | None => 0%Q
                   end))
          (total_of (fun row => captures_light (fst row) + captures_jpeg (fst row)
                                + captures_pdf (fst row)) (Runs.completed_join d))
          (total_of (fun row => actions_clicks (fst row) + actions_types (fst row)
                                + actions_navigations (fst row) + actions_scrolls (fst row))
             (Runs.completed_join d))),
     d).
Proof.
  unfold Runs.aggregate, Db.transaction, Db.bind, Db.read, Db.ret.
  rewrite !or_zero_sum_column. reflexivity.
Qed.

Lemma filter_none_in {R : Type} (q : R -> bool) (t : list R) :
  (forall r, In r t -> q r = false) -> filter q t = [].
Proof.
  induction t as [|x t IH]; simpl; intros H; [reflexivity|].
  rewrite (H x (or_introl eq_refl)). apply IH. intros r Hin. apply H. right. exact Hin.
Qed.

Lemma existsb_none_in {R : Type} (q : R -> bool) (t : list R) :
  (forall r, In r t -> q r = false) -> existsb q t = false.
Proof.
  induction t as [|x t IH]; simpl; intros H; [reflexivity|].
  rewrite (H x (or_introl eq_refl)). apply IH. intros r Hin. apply H. right. exact Hin.
Qed.

Lemma matching_run_zero_or_one (x : string) (q : run_row -> bool) (t : list run_row) :
  NoDup (map run_id t) ->
  (existsb (fun r => Runs.at_id x r && q r) t = false
   /\ filter (fun r => Runs.at_id x r && q r) t = [])
  \/ (existsb (fun r => Runs.at_id x r && q r) t = true
      /\ exists r, filter (fun r => Runs.at_id x r && q r) t = [r]).
Proof.
  induction t as [|r t IH]; intros Hnd; [left; split; reflexivity|].
  inversion Hnd as [|? ? Hr Ht]; subst. simpl.
  destruct (Runs.at_id x r) eqn:K; simpl.
  - assert (Hrest : forall r0, In r0 t -> Runs.at_id x r0 && q r0 = false).
    { intros r0 Hin. destruct (Runs.at_id x r0) eqn:K0; [|reflexivity].
      exfalso. apply Hr. apply String.eqb_eq in K, K0. rewrite K, <- K0.
      apply in_map. exact Hin. }
    rewrite (filter_none_in _ _ Hrest), (existsb_none_in _ _ Hrest).
    destruct (q r); [right; split; [reflexivity | exists r; reflexivity]
                    | left; split; reflexivity].
  - exact (IH Ht).
Qed.

Lemma completed_join_metrics (d : store) :
  NoDup (map run_id (runs d)) ->
  map fst (Runs.completed_join d) = completed_metrics d.
Proof.
  intros Hnd. unfold Runs.completed_join, completed_metrics.
  induction (metrics d) as [|m t IH]; [reflexivity|].
  cbn [flat_map filter]. rewrite map_app, IH. unfold has_completed_run at 2.
  destruct (matching_run_zero_or_one (m_run_id m)
              (fun r => (status r =? "completed")%string) (runs d) Hnd)
    as [(E & F)|(E & r & F)]; rewrite E, F; reflexivity.
Qed.

Lemma total_of_map {A B : Type} (g : B -> Z) (f : A -> B) (t : list A) :
  total_of (fun x => g (f x)) t = total_of g (map f t).
Proof. induction t as [|x t IH]; simpl; [reflexivity|]. rewrite IH. reflexivity. Qed.

(** X23: with distinct run ids, [aggregate] counts and sums over exactly the
    metrics rows whose run has status "completed", each once: the number of
    runs, the bytes, the tokens, the captures of the three modes and the
    actions of the four types.  When there is no such row every total is 0
    and the cost is the rounding of 0. *)
Theorem aggregate_sums_completed_runs (round4 : Q -> Q) (d : store) :
  NoDup (map run_id (runs d)) ->
  exists a,
    Runs.aggregate round4 d = (Db.Returned a, d)
    /\ Runs.total_runs a = Z.of_nat (List.length (completed_metrics d))
    /\ Runs.total_bytes a = total_of bytes_total (completed_metrics d)
    /\ Runs.total_tokens a = total_of tokens_estimated (completed_metrics d)
    /\ Runs.total_captures a
       = total_of (fun m => captures_light m + captures_jpeg m + captures_pdf m)
           (completed_metrics d)
    /\ Runs.total_actions a
       = total_of (fun m => actions_clicks m + actions_types m + actions_navigations m
                            + actions_scrolls m) (completed_metrics d)
    /\ (completed_metrics d = [] -> Runs.total_cost_usd a = round4 0%Q).
Proof.
  intros Hnd. eexists. split; [apply aggregate_store|].
  cbn [Runs.total_runs Runs.total_bytes Runs.total_tokens Runs.total_captures
         Runs.total_actions Runs.total_cost_usd].
  pose proof (completed_join_metrics d Hnd) as E.
  unfold Db.count_rows. rewrite <- (length_map fst), E.
  rewrite (total_of_map bytes_total fst), (total_of_map tokens_estimated fst), E.
  rewrite (total_of_map (fun m => captures_light m + captures_jpeg m + captures_pdf m) fst), E.
  rewrite (total_of_map (fun m => actions_clicks m + actions_types m + actions_navigations m
                                  + actions_scrolls m) fst), E.
  repeat split.
  intros Hempty. rewrite Hempty in E.
  destruct (Runs.completed_join d); [reflexivity | discriminate E].
Qed.

Lemma aggregate_sums_completed_runs_witness :
  let d := snd (Runs.add_capture "r2" "pdf" 5000
                  (snd (Runs.complete "r2" "failed" 0 "t3"
                          (snd (Runs.start "/runs" "r2" "login" None "t2"
                                  (snd (Runs.add_capture "r1" "jpeg" 1000
                                          (snd (Runs.complete "r1" "completed" 0 "t1"
                                                  (snd (Runs.start "/runs" "r1" "checkout" None
                                                          "t0" Db.init_db))))))))))) in
  exists a,
    Runs.aggregate (fun q => q) d = (Db.Returned a, d)
    /\ Runs.total_runs a = 1 /\ Runs.total_bytes a = 1000.
Proof.
  intros d.
  assert (Hnd : NoDup (map run_id (runs d))).
  { vm_compute. repeat constructor; simpl; intuition discriminate. }
  destruct (aggregate_sums_completed_runs (fun q => q) d Hnd) as (a & Ha & Hr & Hb & _).
  exists a. split; [exact Ha|]. split; [exact Hr | exact Hb].
Defined.

Lemma sum_real_map {A B : Type} (c : B -> Q) (f : A -> B) (t : list A) :
  Db.sum_real (fun x => c (f x)) t = Db.sum_real c (map f t).
Proof.
  destruct t as [|x t]; [reflexivity|]. unfold Db.sum_real. cbn [map]. f_equal.
  cbn [fold_left]. generalize (0 + c (f x))%Q as acc.
  induction t as [|y t IH]; intros acc; [reflexivity|]. cbn [map fold_left]. apply IH.
Qed.

(** [aggregate] reads the joined rows through their metrics part only. *)
Lemma aggregate_depends_on_metrics (round4 : Q -> Q) (d1 d2 : store) :
  map fst (Runs.completed_join d1) = map fst (Runs.completed_join d2) ->
  fst (Runs.aggregate round4 d1) = fst (Runs.aggregate round4 d2).
Proof.
  intros E. rewrite !aggregate_store. cbn [fst].
  unfold Db.count_rows.
  rewrite <- (length_map fst (Runs.completed_join d1)), <- (length_map fst (Runs.completed_join d2)).
  rewrite !(total_of_map bytes_total fst), !(total_of_map tokens_estimated fst).
  rewrite !(total_of_map (fun m => captures_light m + captures_jpeg m + captures_pdf m) fst).
  rewrite !(total_of_map (fun m => actions_clicks m + actions_types m + actions_navigations m
                                   + actions_scrolls m) fst).
  rewrite !(sum_real_map cost_usd fst). rewrite E. reflexivity.
Qed.

Lemma join_metrics_part (ms : list metrics_row) (L L' : metrics_row -> list run_row) :
  (forall m, In m ms -> List.length (L m) = List.length (L' m)) ->
  map fst (flat_map (fun m => map (fun r => (m, r)) (L m)) ms)
  = map fst (flat_map (fun m => map (fun r => (m, r)) (L' m)) ms).
Proof.
  induction ms as [|m ms IH]; intros H; [reflexivity|].
  cbn [flat_map]. rewrite !map_app, !map_map. cbn [fst].
  rewrite IH by (intros m0 Hin; apply H; right; exact Hin).
  f_equal. specialize (H m (or_introl eq_refl)).
  revert H. generalize (L m) (L' m). clear.
  induction l as [|x l IH]; intros [|y l'] H; try discriminate H; [reflexivity|].
  cbn [map]. f_equal. apply IH. cbn in H. lia.
Qed.

Lemma filter_length_update_where {R : Type} (P p : R -> bool) (f : R -> R) (t : list R) :
  (forall r, In r t -> P (if p r then f r else r) = P r) ->
  List.length (filter P (Db.update_where p f t)) = List.length (filter P t).
Proof.
  unfold Db.update_where. induction t as [|x t IH]; intros H; [reflexivity|].
  cbn [map filter]. rewrite (H x (or_introl eq_refl)).
  destruct (P x); cbn [List.length]; rewrite IH; try reflexivity;
    intros r Hin; apply H; right; exact Hin.
Qed.

Lemma flat_map_update_where {A B : Type} (g : A -> list B) (p : A -> bool) (f : A -> A)
  (t : list A) :
  (forall m, p m = true -> g (f m) = g m) ->
  flat_map g (Db.update_where p f t) = flat_map g t.
Proof.
  intros H. unfold Db.update_where. induction t as [|x t IH]; [reflexivity|].
  cbn [map flat_map]. rewrite IH. f_equal.
  destruct (p x) eqn:P; [apply H; exact P | reflexivity].
Qed.

(** X24: what is recorded for a run that is not completed does not show in
    [aggregate]: when no run row of the id has status "completed",
    [add_capture] and [add_action] for that id leave every figure of
    [aggregate] as it was, and so does [complete] with any status other than
    "completed".  [progress], on any run, changes no figure either. *)
Theorem aggregate_ignores_unfinished_runs
  (round4 : Q -> Q) (id : string) (d : store) :
  (forall r, In r (runs d) -> run_id r = id -> status r <> "completed") ->
  (forall mode b,
      fst (Runs.aggregate round4 (snd (Runs.add_capture id mode b d)))
      = fst (Runs.aggregate round4 d))
  /\ (forall action_type,
         fst (Runs.aggregate round4 (snd (Runs.add_action id action_type d)))
         = fst (Runs.aggregate round4 d))
  /\ (forall st n now,
         st <> "completed" ->
         fst (Runs.aggregate round4 (snd (Runs.complete id st n now d)))
         = fst (Runs.aggregate round4 d))
  /\ (forall id' cs ts,
         fst (Runs.aggregate round4 (snd (Runs.progress id' cs ts d)))
         = fst (Runs.aggregate round4 d)).
Proof.
  intros Hopen.
  assert (Hnone : forall m, m_run_id m = id ->
            filter (fun r => Runs.at_id (m_run_id m) r && (status r =? "completed")%string)
              (runs d) = []).
  { intros m Hm. apply filter_none_in. intros r Hin.
    destruct (Runs.at_id (m_run_id m) r) eqn:K; [|reflexivity]. cbn [andb].
    apply String.eqb_eq in K. apply String.eqb_neq. apply (Hopen r Hin). congruence. }
  assert (Hmetrics : forall f, (forall m, m_run_id (f m) = m_run_id m) ->
            Runs.completed_join
              (Db.with_metrics d (Db.update_where (Runs.at_run_id id) f (metrics d)))
            = Runs.completed_join d).
  { intros f Hf. unfold Runs.completed_join. cbn [runs metrics Db.with_metrics].
    apply flat_map_update_where. intros m K. apply String.eqb_eq in K.
    rewrite Hf, (Hnone m K). reflexivity. }
  split; [|split; [|split]].
  - intros mode b. destruct (add_capture_cases id mode b d) as [H|(m & H)]; rewrite H;
      [reflexivity|].
    rewrite !aggregate_store. cbn [fst]. rewrite Hmetrics by reflexivity. reflexivity.
  - intros action_type. destruct (add_action_cases id action_type d) as [H|(a & H)]; rewrite H;
      [reflexivity|].
    rewrite !aggregate_store. cbn [fst]. rewrite Hmetrics by reflexivity. reflexivity.
  - intros st n now Hst. apply aggregate_depends_on_metrics.
    rewrite complete_store. unfold Runs.completed_join. cbn [snd runs metrics].
    apply join_metrics_part. intros m _. apply filter_length_update_where.
    intros r Hin. destruct (Runs.at_id id r) eqn:K; [|reflexivity].
    apply String.eqb_eq in K.
    pose proof (Hopen r Hin K) as Hr. apply String.eqb_neq in Hr. rewrite Hr.
    unfold Runs.complete_set. cbn [status].
    apply String.eqb_neq in Hst. rewrite Hst.
    rewrite !andb_false_r. reflexivity.
  - intros id' cs ts. apply aggregate_depends_on_metrics.
    rewrite progress_store. unfold Runs.completed_join. cbn [snd runs metrics Db.with_runs].
    apply join_metrics_part. intros m _. apply filter_length_update_where.
    intros r Hin. destruct (Runs.at_id id' r); reflexivity.
Qed.

Lemma aggregate_ignores_unfinished_runs_witness :
  let d := snd (Runs.start "/runs" "r1" "checkout" None "t0" Db.init_db) in
  fst (Runs.aggregate (fun q => q) (snd (Runs.add_capture "r1" "pdf" 5000 d)))
  = fst (Runs.aggregate (fun q => q) d)
  /\ fst (Runs.aggregate (fun q => q) (snd (Runs.complete "r1" "failed" 0 "t1" d)))
     = fst (Runs.aggregate (fun q => q) d).
Proof.
  intros d.
  assert (Hopen : forall r, In r (runs d) -> run_id r = "r1" -> status r <> "completed").
  { intros r [<- | []] _. discriminate. }
  destruct (aggregate_ignores_unfinished_runs (fun q => q) "r1" d Hopen)
    as (Hcap & _ & Hfail & _).
  split; [apply Hcap | apply Hfail; discriminate].
Defined.

Lemma unique_key_row {R : Type} (key : R -> string) (t : list R) (a b : R) :
  NoDup (map key t) -> In a t -> In b t -> key a = key b -> a = b.
Proof.
  induction t as [|x t IH]; intros Hnd Ha Hb E; [destruct Ha|].
  inversion Hnd as [|? ? Hx Ht]; subst.
  destruct Ha as [Ha|Ha], Hb as [Hb|Hb].
  - congruence.
  - exfalso. apply Hx. rewrite Ha, E. apply in_map. exact Hb.
  - exfalso. apply Hx. rewrite Hb, <- E. apply in_map. exact Ha.
  - apply IH; assumption.
Qed.

Lemma total_of_filter_orb {R : Type} (g : R -> Z) (p q : R -> bool) (t : list R) :
  (forall m, In m t -> q m = true -> p m = false) ->
  total_of g (filter (fun m => p m || q m) t)
  = total_of g (filter p t) + total_of g (filter q t).
Proof.
  unfold total_of. induction t as [|x t IH]; intros H; [reflexivity|].
  cbn [filter]. specialize (IH (fun m Hin => H m (or_intror Hin))).
  pose proof (H x (or_introl eq_refl)) as Hx.
  destruct (q x) eqn:Q.
  - rewrite (Hx eq_refl). cbn [orb fold_right]. lia.
  - rewrite orb_false_r. destruct (p x); cbn [fold_right]; lia.
Qed.

Lemma total_of_ones {R : Type} (t : list R) :
  total_of (fun _ => 1) t = Z.of_nat (List.length t).
Proof.
  unfold total_of. induction t as [|x t IH]; [reflexivity|].
  cbn [fold_right List.length]. rewrite IH, Nat2Z.inj_succ. lia.
Qed.

Lemma metrics_key_filter (id : string) (t : list metrics_row) (m0 : metrics_row) :
  NoDup (map m_run_id t) -> In m0 t -> m_run_id m0 = id ->
  filter (Runs.at_run_id id) t = [m0].
Proof.
  induction t as [|x t IH]; intros Hnd Hin E; [destruct Hin|].
  inversion Hnd as [|? ? Hx Ht]; subst. cbn [filter].
  destruct Hin as [->|Hin].
  - unfold Runs.at_run_id at 1. rewrite String.eqb_refl. f_equal.
    apply filter_none_in. intros r Hr. apply String.eqb_neq. intros K.
    apply Hx. rewrite <- K. apply in_map. exact Hr.
  - destruct (Runs.at_run_id (m_run_id m0) x) eqn:K.
    + exfalso. apply String.eqb_eq in K. apply Hx. rewrite K. apply in_map. exact Hin.
    + apply IH; [exact Ht | exact Hin | reflexivity].
Qed.

Lemma existsb_update_where_same {R : Type} (P p : R -> bool) (f : R -> R) (t : list R) :
  (forall r, p r = true -> P (f r) = P r) ->
  existsb P (Db.update_where p f t) = existsb P t.
Proof.
  intros H. unfold Db.update_where. induction t as [|x t IH]; [reflexivity|].
  cbn [map existsb]. rewrite IH. f_equal.
  destruct (p x) eqn:K; [apply H; exact K | reflexivity].
Qed.

(** X25: completing a run as "completed" brings its metrics into
    [aggregate].  With distinct ids in both tables, when the run is stored
    with another status and [m0] is its metrics row, [aggregate] after
    [complete] counts one run more, and its bytes, tokens, captures and
    actions have grown by the figures of [m0]. *)
Theorem completing_a_run_counts_it
  (round4 : Q -> Q) (id now : string) (n : Z) (d : store) (r0 : run_row) (m0 : metrics_row) :
  NoDup (map run_id (runs d)) ->
  NoDup (map m_run_id (metrics d)) ->
  In r0 (runs d) -> run_id r0 = id -> status r0 <> "completed" ->
  In m0 (metrics d) -> m_run_id m0 = id ->
  exists a a',
    fst (Runs.aggregate round4 d) = Db.Returned a
    /\ fst (Runs.aggregate round4 (snd (Runs.complete id "completed" n now d)))
       = Db.Returned a'
    /\ Runs.total_runs a' = Runs.total_runs a + 1
    /\ Runs.total_bytes a' = Runs.total_bytes a + bytes_total m0
    /\ Runs.total_tokens a' = Runs.total_tokens a + tokens_estimated m0
    /\ Runs.total_captures a'
       = Runs.total_captures a + (captures_light m0 + captures_jpeg m0 + captures_pdf m0)
    /\ Runs.total_actions a'
       = Runs.total_actions a
         + (actions_clicks m0 + actions_types m0 + actions_navigations m0 + actions_scrolls m0).
Proof.
  intros Hnd Hmd Hr0 Hid Hst Hm0 Hmid.
  set (d' := snd (Runs.complete id "completed" n now d)).
  assert (Hruns : runs d'
                  = Db.update_where (Runs.at_id id) (Runs.complete_set "completed" now n)
                      (runs d))
    by (unfold d'; rewrite complete_store; reflexivity).
  assert (Hmet : metrics d' = metrics d)
    by (unfold d'; rewrite complete_store; reflexivity).
  assert (Hnd' : NoDup (map run_id (runs d'))).
  { rewrite Hruns, map_id_update_where; [exact Hnd | reflexivity]. }
  assert (Hhas : forall m, has_completed_run d' m
                           = has_completed_run d m || Runs.at_run_id id m).
  { intros m. unfold has_completed_run. rewrite Hruns.
    destruct (Runs.at_run_id id m) eqn:K.
    - rewrite orb_true_r. apply existsb_exists.
      exists (Runs.complete_set "completed" now n r0). split.
      + unfold Db.update_where. apply in_map_iff. exists r0. split; [|exact Hr0].
        unfold Runs.at_id. rewrite Hid, String.eqb_refl. reflexivity.
      + apply String.eqb_eq in K. unfold Runs.at_id, Runs.complete_set.
        cbn [run_id status]. rewrite Hid, K, String.eqb_refl. reflexivity.
    - rewrite orb_false_r. apply existsb_update_where_same.
      intros r P. unfold Runs.at_id in *. apply String.eqb_eq in P.
      unfold Runs.complete_set. cbn [run_id status].
      unfold Runs.at_run_id in K. rewrite P.
      rewrite String.eqb_sym, K. reflexivity. }
  assert (Hsplit : forall g, total_of g (completed_metrics d')
                             = total_of g (completed_metrics d) + g m0).
  { intros g. unfold completed_metrics. rewrite Hmet.
    rewrite (filter_ext _ _ Hhas), total_of_filter_orb.
    - rewrite (metrics_key_filter id (metrics d) m0 Hmd Hm0 Hmid).
      unfold total_of. cbn [fold_right]. lia.
    - intros m Hin K. unfold has_completed_run. apply existsb_none_in.
      intros r Hr. destruct (Runs.at_id (m_run_id m) r) eqn:A; [|reflexivity].
      cbn [andb]. apply String.eqb_neq.
      apply String.eqb_eq in K, A.
      assert (E : r = r0)
        by (apply (unique_key_row run_id (runs d)); [exact Hnd | exact Hr | exact Hr0 | congruence]).
      rewrite E. exact Hst. }
  pose proof (completed_join_metrics d Hnd) as E.
  pose proof (completed_join_metrics d' Hnd') as E'.
  eexists. eexists.
  split; [rewrite aggregate_store; reflexivity|].
  split; [rewrite aggregate_store; reflexivity|].
  cbn [Runs.total_runs Runs.total_bytes Runs.total_tokens Runs.total_captures
         Runs.total_actions].
  unfold Db.count_rows. rewrite <- !(length_map fst), E, E'.
  rewrite !(total_of_map bytes_total fst), !(total_of_map tokens_estimated fst).
  rewrite !(total_of_map (fun m => captures_light m + captures_jpeg m + captures_pdf m) fst).
  rewrite !(total_of_map (fun m => actions_clicks m + actions_types m + actions_navigations m
                                   + actions_scrolls m) fst).
  rewrite E, E', <- !total_of_ones, !Hsplit.
  repeat split.
Qed.

Lemma completing_a_run_counts_it_witness :
  let d := snd (Runs.add_capture "r1" "jpeg" 1000
                  (snd (Runs.start "/runs" "r1" "checkout" None "t0" Db.init_db))) in
  exists a a',
    fst (Runs.aggregate (fun q => q) d) = Db.Returned a
    /\ fst (Runs.aggregate (fun q => q) (snd (Runs.complete "r1" "completed" 3 "t1" d)))
       = Db.Returned a'
    /\ Runs.total_runs a' = Runs.total_runs a + 1
    /\ Runs.total_bytes a' = Runs.total_bytes a + 1000.
Proof.
  intros d.
  assert (Hr : exists r0, In r0 (runs d) /\ run_id r0 = "r1" /\ status r0 <> "completed").
  { eexists. split; [left; reflexivity|]. split; [reflexivity | discriminate]. }
  assert (Hm : exists m0, In m0 (metrics d) /\ m_run_id m0 = "r1" /\ bytes_total m0 = 1000).
  { eexists. split; [left; reflexivity|]. split; reflexivity. }
  destruct Hr as (r0 & Hr0 & Hid & Hst). destruct Hm as (m0 & Hm0 & Hmid & Hb).
  assert (Hnd : NoDup (map run_id (runs d))).
  { vm_compute. repeat constructor; simpl; intuition discriminate. }
  assert (Hmd : NoDup (map m_run_id (metrics d))).
  { vm_compute. repeat constructor; simpl; intuition discriminate. }
  destruct (completing_a_run_counts_it (fun q => q) "r1" "t1" 3 d r0 m0
              Hnd Hmd Hr0 Hid Hst Hm0 Hmid) as (a & a' & Ha & Ha' & Hruns & Hbytes & _).
  exists a, a'. rewrite <- Hb. repeat split; assumption.
Defined.

(** * Listing runs *)

Lemma string_leb_trans (a b c : string) :
  String.leb a b = true -> String.leb b c = true -> String.leb a c = true.
Proof.
  unfold String.leb. revert b c.
  induction a as [|x a IH]; intros [|y b] [|z c]; cbn [String.compare];
    try (intros; (reflexivity || discriminate)).
  unfold Ascii.compare.
  destruct (N.compare_spec (N_of_ascii x) (N_of_ascii y)) as [E1|E1|E1];
    destruct (N.compare_spec (N_of_ascii y) (N_of_ascii z)) as [E2|E2|E2];
    destruct (N.compare_spec (N_of_ascii x) (N_of_ascii z)) as [E3|E3|E3];
    try lia; try (intros; (reflexivity || discriminate)).
  apply IH.
Qed.

Lemma sorted_split {R : Type} (le : R -> R -> bool) (l : list R) (k : nat) :
  (forall a b c, le a b = true -> le b c = true -> le a c = true) ->
  Sorted (fun a b => le a b = true) l ->
  Sorted (fun a b => le a b = true) (firstn k l)
  /\ (forall a b, In a (firstn k l) -> In b (skipn k l) -> le a b = true).
Proof.
  intros Htrans Hs.
  assert (Hss : StronglySorted (fun a b => le a b = true) l).
  { apply Sorted_StronglySorted; [|exact Hs]. intros a b c. apply Htrans. }
  clear Hs. revert k. induction Hss as [|x l Hl IH Hx]; intros k.
  - rewrite firstn_nil, skipn_nil. split; [apply Sorted_nil | intros a b []].
  - destruct k as [|k]; cbn [firstn skipn].
    + split; [apply Sorted_nil | intros a b []].
    + destruct (IH k) as (S1 & S2). split.
      * apply Sorted_cons; [exact S1|].
        destruct (firstn k l) as [|y t] eqn:F; [apply HdRel_nil|].
        apply HdRel_cons. rewrite Forall_forall in Hx. apply Hx.
        rewrite <- (firstn_skipn k l). apply in_or_app. left. rewrite F. left. reflexivity.
      * intros a b [<-|Ha] Hb.
        -- rewrite Forall_forall in Hx. apply Hx.
           rewrite <- (firstn_skipn k l). apply in_or_app. right. exact Hb.
        -- apply S2; assumption.
Qed.

Lemma by_start_time_desc_total (a b : run_row) :
  Runs.by_start_time_desc a b = false -> Runs.by_start_time_desc b a = true.
Proof. unfold Runs.by_start_time_desc. apply string_leb_total. Qed.

(** What [ORDER BY start_time DESC LIMIT ?] keeps of a list of runs. *)
Lemma limit_order_newest (limit : Z) (l : list run_row) :
  exists rest,
    newest_first limit (Db.limit_rows limit (Db.order_by Runs.by_start_time_desc l)) rest l.
Proof.
  pose proof (order_by_perm Runs.by_start_time_desc l) as P.
  pose proof (order_by_sorted Runs.by_start_time_desc l by_start_time_desc_total) as S.
  unfold Db.limit_rows. destruct (limit <? 0) eqn:L.
  - exists []. apply Z.ltb_lt in L. unfold newest_first.
    split; [rewrite app_nil_r; exact P|].
    split; [exact S|]. split; [intros r r' _ []|]. split; [lia | reflexivity].
  - apply Z.ltb_ge in L.
    exists (skipn (Z.to_nat limit) (Db.order_by Runs.by_start_time_desc l)).
    destruct (sorted_split Runs.by_start_time_desc (Db.order_by Runs.by_start_time_desc l)
                (Z.to_nat limit)) as (S1 & S2).
    { intros a b c. unfold Runs.by_start_time_desc. intros H1 H2.
      exact (string_leb_trans _ _ _ H2 H1). }
    { exact S. }
    unfold newest_first.
    split; [rewrite firstn_skipn; exact P|].
    split; [exact S1|].
    split; [intros r r' Hr Hr'; exact (S2 r r' Hr Hr')|].
    split; [|lia].
    intros _. rewrite length_firstn, (Permutation_length P). reflexivity.
Qed.

(** X26: [list_runs] with a status shows runs of that status only, newest
    first, and at most [limit] of them: the rows shown are in descending
    order of start time, no run of that status left out started later than
    one shown, and a negative limit shows them all.  Without a status, or
    with the empty string, the same holds over all the runs.  The store is
    left as it is. *)
Theorem list_runs_newest_first (limit : Z) (d : store) :
  (forall st,
      st <> "" ->
      exists rows rest,
        Runs.list_runs (Some st) limit d = (Db.Returned (map Runs.run_entry rows), d)
        /\ newest_first limit rows rest (filter (fun r => (status r =? st)%string) (runs d))
        /\ (forall r, In r rows -> In r (runs d) /\ status r = st))
  /\ (exists rows rest,
         Runs.list_runs None limit d = (Db.Returned (map Runs.run_entry rows), d)
         /\ Runs.list_runs (Some "") limit d = (Db.Returned (map Runs.run_entry rows), d)
         /\ newest_first limit rows rest (runs d)).
Proof.
  split.
  - intros st Hne.
    destruct (limit_order_newest limit (filter (fun r => (status r =? st)%string) (runs d)))
      as (rest & N).
    eexists. exists rest. split; [|split; [exact N|]].
    + unfold Runs.list_runs, Db.transaction, Db.bind, Db.read, Db.ret.
      rewrite (truthy_some st Hne). reflexivity.
    + intros r Hin. destruct N as (P & _).
      assert (Hin' : In r (filter (fun r => (status r =? st)%string) (runs d))).
      { apply (Permutation_in _ P). apply in_or_app. left. exact Hin. }
      apply filter_In in Hin' as [H1 H2]. split; [exact H1 | apply String.eqb_eq; exact H2].
  - destruct (limit_order_newest limit (runs d)) as (rest & N).
    eexists. exists rest. split; [reflexivity|]. split; [reflexivity | exact N].
Qed.

Lemma list_runs_newest_first_witness :
  let d := snd (Runs.start "/runs" "r2" "login" None "t2"
                  (snd (Runs.start "/runs" "r1" "checkout" None "t1" Db.init_db))) in
  exists rows rest,
    Runs.list_runs (Some "running") 1 d = (Db.Returned (map Runs.run_entry rows), d)
    /\ List.length rows = 1%nat
    /\ (forall r r', In r rows -> In r' rest ->
          String.leb (start_time r') (start_time r) = true).
Proof.
  intros d.
  destruct (proj1 (list_runs_newest_first 1 d) "running") as (rows & rest & E & N & _).
  - discriminate.
  - exists rows, rest. destruct N as (_ & _ & Hnew & Hlen & _).
    split; [exact E|]. split; [exact (Hlen ltac:(lia)) | exact Hnew].
Defined.

(** * Pools of simulators *)

Lemma permutation_filter {R : Type} (q : R -> bool) (l l' : list R) :
  Permutation l l' -> Permutation (filter q l) (filter q l').
Proof.
  induction 1 as [|x l l' _ IH|x y l|l l' l'' _ IH1 _ IH2]; cbn [filter].
  - apply perm_nil.
  - destruct (q x); [apply perm_skip|]; exact IH.
  - destruct (q x), (q y); try apply Permutation_refl. apply perm_swap.
  - exact (perm_trans IH1 IH2).
Qed.

Lemma strongly_sorted_filter {R : Type} (rel : R -> R -> Prop) (q : R -> bool) (l : list R) :
  StronglySorted rel l -> StronglySorted rel (filter q l).
Proof.
  induction 1 as [|x l Hl IH Hx]; cbn [filter]; [apply SSorted_nil|].
  destruct (q x); [|exact IH]. apply SSorted_cons; [exact IH|].
  rewrite Forall_forall in *. intros y Hy. apply Hx.
  apply filter_In in Hy. exact (proj1 Hy).
Qed.

Lemma by_pool_name_total (a b : simulator_row) :
  Simulators.by_pool_name a b = false -> Simulators.by_pool_name b a = true.
Proof.
  unfold Simulators.by_pool_name. rewrite (String.eqb_sym (pool b) (pool a)).
  destruct (pool a =? pool b)%string; apply string_leb_total.
Qed.

Lemma by_pool_name_trans (a b c : simulator_row) :
  Simulators.by_pool_name a b = true -> Simulators.by_pool_name b c = true ->
  Simulators.by_pool_name a c = true.
Proof.
  unfold Simulators.by_pool_name.
  destruct (pool a =? pool b)%string eqn:E1; destruct (pool b =? pool c)%string eqn:E2;
    try apply String.eqb_eq in E1; try apply String.eqb_eq in E2.
  - rewrite E1, E2, String.eqb_refl. apply string_leb_trans.
  - rewrite E1, E2. intros _ H. exact H.
  - rewrite <- E2, E1. intros H _. exact H.
  - intros H1 H2. destruct (pool a =? pool c)%string eqn:E3.
    + exfalso. apply String.eqb_eq in E3. rewrite <- E3 in H2.
      apply String.eqb_neq in E1. apply E1. apply String.leb_antisym; assumption.
    + exact (string_leb_trans _ _ _ H1 H2).
Qed.

Lemma lookup_append_member (p key : string) (e : Simulators.pool_member)
  (result : list (string * list Simulators.pool_member)) :
  lookup_members p (Simulators.append_member key e result)
  = if (p =? key)%string
    then Some (match lookup_members key result with
               | Some es => es ++ [e]
               | None => [e]
               end)
    else lookup_members p result.
Proof.
  unfold lookup_members.
  induction result as [|[k es] rest IH]; cbn [Simulators.append_member find fst snd].
  - rewrite (String.eqb_sym key p). destruct (p =? key)%string; reflexivity.
  - destruct (k =? key)%string eqn:K; cbn [find fst snd].
    + apply String.eqb_eq in K. subst k.
      rewrite (String.eqb_sym key p). destruct (p =? key)%string; reflexivity.
    + destruct (k =? p)%string eqn:P.
      * apply String.eqb_eq in P. subst k. rewrite K. reflexivity.
      * rewrite IH. reflexivity.
Qed.

Lemma keys_append_member (p key : string) (e : Simulators.pool_member)
  (result : list (string * list Simulators.pool_member)) :
  In p (map fst (Simulators.append_member key e result)) <-> p = key \/ In p (map fst result).
Proof.
  induction result as [|[k es] rest IH]; cbn [Simulators.append_member map fst In].
  - intuition.
  - destruct (k =? key)%string eqn:K; cbn [map fst In].
    + apply String.eqb_eq in K. subst k. intuition.
    + rewrite IH. intuition.
Qed.

Lemma nodup_append_member (key : string) (e : Simulators.pool_member)
  (result : list (string * list Simulators.pool_member)) :
  NoDup (map fst result) -> NoDup (map fst (Simulators.append_member key e result)).
Proof.
  induction result as [|[k es] rest IH]; cbn [Simulators.append_member map fst]; intros H.
  - apply NoDup_cons; [intros [] | apply NoDup_nil].
  - inversion H as [|? ? Hk Hrest]; subst.
    destruct (k =? key)%string eqn:K; cbn [map fst].
    + apply NoDup_cons; assumption.
    + apply NoDup_cons; [|exact (IH Hrest)].
      rewrite keys_append_member. intros [->|Hin]; [|exact (Hk Hin)].
      rewrite String.eqb_refl in K. discriminate K.
Qed.

Lemma lookup_member_of (p : string) (ms : list Simulators.pool_member)
  (result : list (string * list Simulators.pool_member)) :
  NoDup (map fst result) -> In (p, ms) result -> lookup_members p result = Some ms.
Proof.
  unfold lookup_members.
  induction result as [|[k es] rest IH]; intros Hnd Hin; [destruct Hin|].
  inversion Hnd as [|? ? Hk Hrest]; subst. cbn [find fst snd].
  destruct Hin as [E|Hin].
  - inversion E; subst. rewrite String.eqb_refl. reflexivity.
  - destruct (k =? p)%string eqn:K; [|exact (IH Hrest Hin)].
    exfalso. apply String.eqb_eq in K. subst k. apply Hk.
    change p with (fst (p, ms)). apply in_map. exact Hin.
Qed.

Lemma sorted_within_pool (p : string) (l : list simulator_row) :
  (forall r, In r l -> pool r = p) ->
  StronglySorted (fun a b => Simulators.by_pool_name a b = true) l ->
  Sorted (fun a b => Simulators.by_name a b = true) l.
Proof.
  intros Hp Hs. induction Hs as [|x t Ht IH Hx]; [apply Sorted_nil|].
  apply Sorted_cons; [apply IH; intros r Hr; apply Hp; right; exact Hr|].
  destruct t as [|y t]; [apply HdRel_nil|]. apply HdRel_cons.
  rewrite Forall_forall in Hx. specialize (Hx y (or_introl eq_refl)).
  unfold Simulators.by_pool_name in Hx.
  rewrite (Hp x (or_introl eq_refl)), (Hp y (or_intror (or_introl eq_refl))) in Hx.
  rewrite String.eqb_refl in Hx. exact Hx.
Qed.

(** The dict [pools] builds from a list of rows. *)
Lemma grouped_rows (rows : list simulator_row) :
  let result := fold_left (fun result row =>
                             Simulators.append_member (pool row) (Simulators.member row) result)
                  rows [] in
  NoDup (map fst result)
  /\ (forall p, In p (map fst result) <-> In p (map pool rows))
  /\ (forall p, lookup_members p result
                = match filter (fun r => (pool r =? p)%string) rows with
                  | [] => None
                  | _ :: _ => Some (map Simulators.member
                                      (filter (fun r => (pool r =? p)%string) rows))
                  end).
Proof.
  induction rows as [|r rows IH] using rev_ind; cbn zeta.
  - split; [apply NoDup_nil|]. split; [intros p; reflexivity | intros p; reflexivity].
  - rewrite fold_left_app. cbn [fold_left]. cbn zeta in IH.
    destruct IH as (Hnd & Hkeys & Hlook).
    split; [apply nodup_append_member; exact Hnd|]. split.
    + intros p. rewrite keys_append_member, Hkeys, map_app, in_app_iff. cbn [map In].
      intuition.
    + intros p. rewrite lookup_append_member, filter_app. cbn [filter].
      rewrite (String.eqb_sym (pool r) p).
      destruct (p =? pool r)%string eqn:E.
      * apply String.eqb_eq in E. subst p. rewrite Hlook.
        destruct (filter (fun r0 => (pool r0 =? pool r)%string) rows) as [|x t];
          [reflexivity|].
        rewrite map_app. reflexivity.
      * rewrite app_nil_r. apply Hlook.
Qed.

(** X27: [pools] groups every stored simulator under its pool.  The keys
    are the pools that have a simulator, each once, and the members listed
    under a pool are exactly the simulators of that pool, ordered by name.
    The store is left as it is. *)
Theorem pools_group_by_pool (d : store) :
  exists result,
    Simulators.pools d = (Db.Returned result, d)
    /\ NoDup (map fst result)
    /\ (forall p, In p (map fst result) <-> exists r, In r (simulators d) /\ pool r = p)
    /\ (forall p members,
           In (p, members) result ->
           exists rows,
             members = map Simulators.member rows
             /\ Permutation rows (filter (fun r => (pool r =? p)%string) (simulators d))
             /\ Sorted (fun a b => Simulators.by_name a b = true) rows).
Proof.
  set (rows := Db.order_by Simulators.by_pool_name (simulators d)).
  pose proof (order_by_perm Simulators.by_pool_name (simulators d)) as P. fold rows in P.
  pose proof (order_by_sorted Simulators.by_pool_name (simulators d) by_pool_name_total) as S.
  fold rows in S.
  destruct (grouped_rows rows) as (Hnd & Hkeys & Hlook).
  exists (fold_left (fun result row =>
                       Simulators.append_member (pool row) (Simulators.member row) result)
            rows []).
  split; [reflexivity|].
  split; [exact Hnd|]. split.
  - intros p. rewrite Hkeys, in_map_iff. split; intros (r & E & Hin); exists r.
    + split; [exact (Permutation_in _ P Hin) | exact E].
    + split; [exact Hin | exact (Permutation_in _ (Permutation_sym P) E)].
  - intros p members Hin.
    pose proof (lookup_member_of p members _ Hnd Hin) as L. rewrite Hlook in L.
    exists (filter (fun r => (pool r =? p)%string) rows).
    split; [|split].
    + destruct (filter (fun r => (pool r =? p)%string) rows); [discriminate L|].
      inversion L. reflexivity.
    + apply permutation_filter. exact P.
    + apply Sorted_StronglySorted in S; [|intros a b c; apply by_pool_name_trans].
      apply (sorted_within_pool p).
      * intros r Hr. apply filter_In in Hr. apply String.eqb_eq. exact (proj2 Hr).
      * apply strongly_sorted_filter. exact S.
Qed.
